(** * Opencode-Model-Configurator: the configuration store and its CLI entry points

    A shallow embedding of [opencode_model_configurator/config_manager.py]
    (class [ConfigManager]) and of the part of [opencode_model_configurator/cli.py]
    that changes the selected model ([change_model], [list_models], and the
    choice of the configuration path in [main]).

    - Python [str] values are sequences of Unicode code points.
    - The values produced by [json.load] are the type [json]; a Python [dict]
      is an association list in insertion order.
    - A Python [set] of strings is a [gset]; the order in which a [for] loop
      visits a set is not fixed by the language (string hashes are salted per
      process), so it is a parameter [set_iter] of the model.
    - The files on disk are a finite map from paths to file contents; every
      method of [ConfigManager] is a function on that map which also returns
      a value or the exception raised. *)

From stdpp Require Import base option list sets gmap strings.

(* stdpp's solvers clear hypotheses by name. *)
Set Warnings "-clear-no-such-hyp".

(** ** Python strings *)

(** A [str] is a list of code points. *)
Abbreviation pystr := (list N).

(** An ASCII literal as a [str] (each byte of the literal is one code point). *)
Definition u (s : string) : pystr :=
  (λ a, Ascii.N_of_ascii a) <$> String.list_ascii_of_string s.

(** [str.isspace] on one code point, the test [str.strip] uses: the ASCII
    white space (TAB..CR, FS..US, SPACE) and the Unicode white space. *)
Definition isspace (c : N) : bool :=
  ((9 <=? c) && (c <=? 13) || (28 <=? c) && (c <=? 32)
   || (c =? 133) || (c =? 160) || (c =? 5760)
   || (8192 <=? c) && (c <=? 8202)
   || (c =? 8232) || (c =? 8233) || (c =? 8239) || (c =? 8287)
   || (c =? 12288))%N.

Fixpoint lstrip (s : pystr) : pystr :=
  match s with
  | [] => []
  | c :: s' => if isspace c then lstrip s' else s
  end.

Definition rstrip (s : pystr) : pystr := reverse (lstrip (reverse s)).

(** [s.strip()] *)
Definition strip (s : pystr) : pystr := rstrip (lstrip s).

Fixpoint startswith (p s : pystr) : bool :=
  match p, s with
  | [], _ => true
  | _ :: _, [] => false
  | a :: p', b :: s' => bool_decide (a = b) && startswith p' s'
  end.

(** [needle in hay] for two strings: substring test. *)
Fixpoint str_contains (needle hay : pystr) : bool :=
  startswith needle hay ||
  match hay with
  | [] => false
  | _ :: hay' => str_contains needle hay'
  end.

(** [s.split(sep, 1)] for a non-empty separator: the string cut at the first
    occurrence of [sep], or the string alone when [sep] does not occur. *)
Fixpoint split_at_first (sep s : pystr) : option (pystr * pystr) :=
  if startswith sep s then Some ([], drop (length sep) s)
  else match s with
       | [] => None
       | c :: s' =>
           match split_at_first sep s' with
           | Some (a, b) => Some (c :: a, b)
           | None => None
           end
       end.

Definition split1 (sep s : pystr) : list pystr :=
  match split_at_first sep s with
  | Some (a, b) => [a; b]
  | None => [s]
  end.

(** ** JSON values, as [json.load] builds them *)

#[warnings="-register-all"]
Inductive json : Type :=
| JNull
| JBool (b : bool)
| JInt (n : Z)
| JFloat (repr : list N)
| JStr (s : list N)
| JArr (xs : list json)
| JObj (kvs : list (list N * json)).

(** ** Python dictionaries: association lists in insertion order *)

Section dict.
Context {V : Type}.

(** [d.get(k)] *)
Fixpoint dict_lookup (k : pystr) (d : list (pystr * V)) : option V :=
  match d with
  | [] => None
  | (k', v) :: d' => if decide (k' = k) then Some v else dict_lookup k d'
  end.

(** [k in d] *)
Definition dict_mem (k : pystr) (d : list (pystr * V)) : bool :=
  bool_decide (is_Some (dict_lookup k d)).

(** [d[k] = v]: an existing key keeps its position, a new key goes last. *)
Fixpoint dict_set (k : pystr) (v : V) (d : list (pystr * V)) : list (pystr * V) :=
  match d with
  | [] => [(k, v)]
  | (k', v') :: d' =>
      if decide (k' = k) then (k', v) :: d' else (k', v') :: dict_set k v d'
  end.

(** [del d[k]] (for a key that is present) *)
Definition dict_del (k : pystr) (d : list (pystr * V)) : list (pystr * V) :=
  filter (λ kv, kv.1 ≠ k) d.

(** [list(d.keys())] *)
Definition dict_keys (d : list (pystr * V)) : list pystr := d.*1.
End dict.

(** ** Exceptions and results *)

Inductive exn : Type :=
| FileNotFoundError
| JSONDecodeError
| UnicodeDecodeError
| UnicodeEncodeError
| AttributeError
| TypeError
| KeyError
| IndexError
| ValueError (msg : list N)
| SystemExit (code : Z).

(** The exceptions [except ValueError] catches: [ValueError] itself and its
    subclasses [json.JSONDecodeError], [UnicodeDecodeError] and
    [UnicodeEncodeError]. *)
Definition is_ValueError (e : exn) : bool :=
  match e with
  | ValueError _ | JSONDecodeError | UnicodeDecodeError | UnicodeEncodeError => true
  | _ => false
  end.

Inductive result (A : Type) : Type :=
| Ok (a : A)
| Raise (e : exn).
Arguments Ok {A} a.
Arguments Raise {A} e.

Definition rbind {A B} (m : result A) (k : A → result B) : result B :=
  match m with
  | Ok a => k a
  | Raise e => Raise e
  end.

Declare Scope result_scope.
Delimit Scope result_scope with res.
Notation "x <- m ;; k" := (rbind m (λ x, k))
  (at level 100, m at next level, right associativity) : result_scope.

(** A [for] loop whose body may raise: the loop state is threaded through. *)
Fixpoint for_each {A S} (l : list A) (body : A → S → result S) (s : S) : result S :=
  match l with
  | [] => Ok s
  | a :: l' => (s' <- body a s ;; for_each l' body s')%res
  end.

(** ** The operations of Python objects the code uses, on [json] values *)

(** [o.get(k, dflt)]: only a [dict] has the method. *)
Definition py_get (o : json) (k : pystr) (dflt : json) : result json :=
  match o with
  | JObj d => Ok (default dflt (dict_lookup k d))
  | _ => Raise AttributeError
  end.

Definition is_str (k : pystr) (j : json) : bool :=
  match j with
  | JStr s => bool_decide (s = k)
  | _ => false
  end.

(** [k in o] for a string [k]: key of a [dict], element of a [list],
    substring of a [str]; the other values are not containers. *)
Definition py_contains (k : pystr) (o : json) : result bool :=
  match o with
  | JObj d => Ok (dict_mem k d)
  | JArr xs => Ok (existsb (is_str k) xs)
  | JStr s => Ok (str_contains k s)
  | _ => Raise TypeError
  end.

(** [o[k]] for a string [k] *)
Definition py_getitem (o : json) (k : pystr) : result json :=
  match o with
  | JObj d =>
      match dict_lookup k d with
      | Some v => Ok v
      | None => Raise KeyError
      end
  | _ => Raise TypeError
  end.

(** [o[k] = v] for a string [k] *)
Definition py_setitem (o : json) (k : pystr) (v : json) : result json :=
  match o with
  | JObj d => Ok (JObj (dict_set k v d))
  | _ => Raise TypeError
  end.

(** [del o[k]] for a string [k] *)
Definition py_delitem (o : json) (k : pystr) : result json :=
  match o with
  | JObj d => if dict_mem k d then Ok (JObj (dict_del k d)) else Raise KeyError
  | _ => Raise TypeError
  end.

(** [o.keys()] *)
Definition py_keys (o : json) : result (list pystr) :=
  match o with
  | JObj d => Ok (dict_keys d)
  | _ => Raise AttributeError
  end.

(** [o.items()] *)
Definition py_items (o : json) : result (list (pystr * json)) :=
  match o with
  | JObj d => Ok d
  | _ => Raise AttributeError
  end.

(** [xs[i]] on a Python list *)
Definition py_index {A} (xs : list A) (i : nat) : result A :=
  match xs !! i with
  | Some x => Ok x
  | None => Raise IndexError
  end.

(** ** Paths, files and the process environment *)

(** A path is the list of its components. *)
Abbreviation Path := (list (list N)).

(** [p / name] *)
Definition path_div (p : Path) (name : pystr) : Path := p ++ [name].

(** What a regular file holds: bytes that are not UTF-8, UTF-8 text that
    [json.load] rejects, or a JSON document (the file is represented by the
    value [json.load] returns on it, which is also the value [json.dump] last
    wrote to it in full). *)
Inductive file : Type :=
| NotUTF8
| NotJSON
| Content (doc : json).

(** The files that exist, by path. *)
Abbreviation filesystem := (gmap (list (list N)) file).

(** What [Path.cwd()] and [Path.home()] return in the running process. *)
Record process : Type := { cwd : Path; home : Path }.

(** ** Computations that read and write files and may raise *)

Definition M (A : Type) : Type := filesystem → result A * filesystem.

Definition ret {A} (a : A) : M A := λ fs, (Ok a, fs).
Definition raise {A} (e : exn) : M A := λ fs, (Raise e, fs).
Definition lift {A} (r : result A) : M A := λ fs, (r, fs).
Definition bind {A B} (m : M A) (k : A → M B) : M B :=
  λ fs, match m fs with
        | (Ok a, fs') => k a fs'
        | (Raise e, fs') => (Raise e, fs')
        end.

Declare Scope io_scope.
Delimit Scope io_scope with io.
Notation "x <- m ;; k" := (bind m (λ x, k))
  (at level 100, m at next level, right associativity) : io_scope.

(** [try: body  except FileNotFoundError: handler] *)
Definition try_except_FileNotFoundError {A} (body handler : M A) : M A :=
  λ fs, match body fs with
        | (Raise FileNotFoundError, fs') => handler fs'
        | r => r
        end.

(** ** class ConfigManager *)

Record ConfigManager : Type := { config_path : Path }.

(** [ConfigManager.__init__(self, config_path=None)] *)
Definition __init__ (env : process) (config_path : option Path) : ConfigManager :=
  match config_path with
  | None => {| config_path := path_div (cwd env) (u "config.json") |}
  | Some p => {| config_path := p |}
  end.

Definition load_config (self : ConfigManager) : M json :=
  λ fs, match fs !! config_path self with
        | None => (Raise FileNotFoundError, fs)
        | Some NotUTF8 => (Raise UnicodeDecodeError, fs)
        | Some NotJSON => (Raise JSONDecodeError, fs)
        | Some (Content config) => (Ok config, fs)
        end.

(** A code point UTF-8 cannot encode: a surrogate. *)
Definition is_surrogate (c : N) : bool := ((55296 <=? c) && (c <=? 57343))%N.

(** The string can be written to a UTF-8 text file. *)
Definition str_encodable (s : pystr) : bool := forallb (λ c, negb (is_surrogate c)) s.

(** [json.dump(config, f, ensure_ascii=False)] can write the whole value:
    every string in it, keys included, can be encoded. *)
Fixpoint encodable (j : json) : bool :=
  match j with
  | JStr s => str_encodable s
  | JArr xs => forallb encodable xs
  | JObj kvs => forallb (λ kv, let '(k, v) := kv in str_encodable k && encodable v) kvs
  | _ => true
  end.

(** The parent directory is created when missing, then the file is opened
    for writing, which empties it, and the text of the document is written
    piece by piece. A string that cannot be encoded raises
    [UnicodeEncodeError]; the pieces written before it stay in the file, an
    unfinished text that [json.load] rejects. *)
Definition save_config (self : ConfigManager) (config : json) : M unit :=
  λ fs, if encodable config
        then (Ok tt, <[config_path self := Content config]> fs)
        else (Raise UnicodeEncodeError, <[config_path self := NotJSON]> fs).

Definition get_model (self : ConfigManager) : M json :=
  (config <- load_config self ;;
   lift (py_get config (u "model") (JStr [])))%io.

Definition update_model (self : ConfigManager) (model : pystr) : M unit :=
  (config <- load_config self ;;
   config <- lift (py_setitem config (u "model") (JStr model)) ;;
   save_config self config)%io.

Definition get_providers (self : ConfigManager) : M json :=
  (config <- load_config self ;;
   lift (py_get config (u "provider") (JObj [])))%io.

(** The body of the loop of [get_all_models]. *)
Definition get_all_models_body (item : pystr * json)
    (res : list (pystr * list pystr)) : result (list (pystr * list pystr)) :=
  (models <- py_get item.2 (u "models") (JObj []) ;;
   keys <- py_keys models ;;
   Ok (dict_set item.1 keys res))%res.

Definition get_all_models (self : ConfigManager) : M (list (pystr * list pystr)) :=
  (providers <- get_providers self ;;
   items <- lift (py_items providers) ;;
   lift (for_each items get_all_models_body []))%io.

Definition find_providers_for_model (self : ConfigManager) (model_id : pystr)
    : M (list pystr) :=
  (models_by_provider <- get_all_models self ;;
   ret (filter (λ kv, model_id ∈ kv.2) models_by_provider).*1)%io.

Definition validate_provider_model (self : ConfigManager)
    (provider_id model_id : pystr) : M bool :=
  (models_by_provider <- get_all_models self ;;
   let provider_models := default [] (dict_lookup provider_id models_by_provider) in
   ret (bool_decide (model_id ∈ provider_models)))%io.

(** The body of the loop of [delete_model]. The loop state is the items of
    [providers] visited so far, as the loop leaves them, and [model_found].
    [models] is the object stored in [provider_config] whenever the test
    succeeds (the default [{}] holds nothing), so deleting from it changes
    [provider_config] in place. *)
Definition delete_model_body (model_id : pystr) (item : pystr * json)
    (st : list (pystr * json) * bool) : result (list (pystr * json) * bool) :=
  (models <- py_get item.2 (u "models") (JObj []) ;;
   found <- py_contains model_id models ;;
   if found then
     models <- py_delitem models model_id ;;
     provider_config <- py_setitem item.2 (u "models") models ;;
     Ok (st.1 ++ [(item.1, provider_config)], true)
   else Ok (st.1 ++ [item], st.2))%res.

Definition delete_model (self : ConfigManager) (model_id : pystr) : M unit :=
  (config <- load_config self ;;
   providers <- lift (py_get config (u "provider") (JObj [])) ;;
   items <- lift (py_items providers) ;;
   st <- lift (for_each items (delete_model_body model_id) ([], false)) ;;
   if negb st.2 then
     raise (ValueError (u "Model '" ++ model_id ++ u "' not found in any provider"))
   else
     (* [providers] is the object stored under "provider": the loop ran *)
     config <- lift (py_setitem config (u "provider") (JObj st.1)) ;;
     save_config self config)%io.

(** The value [update_provider_models] returns. *)
Record counts : Type := { added : nat; removed : nat; preserved : nat }.

Section reconcile.
(** The order in which a [for] loop visits a set. *)
Variable set_iter : gset (list N) → list (list N).

Definition update_provider_models (self : ConfigManager) (provider_id : pystr)
    (new_model_ids : list pystr) : M counts :=
  (config <- load_config self ;;
   providers <- lift (py_get config (u "provider") (JObj [])) ;;
   found <- lift (py_contains provider_id providers) ;;
   if negb found then
     raise (ValueError (u "Provider '" ++ provider_id ++ u "' not found"))
   else
     provider_config <- lift (py_getitem providers provider_id) ;;
     existing_models <- lift (py_get provider_config (u "models") (JObj [])) ;;
     keys <- lift (py_keys existing_models) ;;
     let new_model_ids_set : gset (list N) := list_to_set new_model_ids in
     let existing_model_ids_set : gset (list N) := list_to_set keys in
     let to_remove := existing_model_ids_set ∖ new_model_ids_set in
     let to_add := new_model_ids_set ∖ existing_model_ids_set in
     existing_models <- lift (for_each (set_iter to_remove)
       (λ model_id existing_models, py_delitem existing_models model_id)
       existing_models) ;;
     existing_models <- lift (for_each (set_iter to_add)
       (λ model_id existing_models,
          py_setitem existing_models model_id (JObj [(u "name", JStr model_id)]))
       existing_models) ;;
     provider_config <- lift (py_setitem provider_config (u "models") existing_models) ;;
     (* [provider_config] is the object stored in [providers], which is the
        object stored in [config]: the assignment is seen through both *)
     providers <- lift (py_setitem providers provider_id provider_config) ;;
     config <- lift (py_setitem config (u "provider") providers) ;;
     _ <- save_config self config ;;
     ret {| added := size to_add;
            removed := size to_remove;
            preserved := size (existing_model_ids_set ∩ new_model_ids_set) |})%io.
End reconcile.

(** ** cli.py *)

(** [list_models] prints a table of [get_all_models()]; the console is not
    part of the model, the exceptions of the call are. *)
Definition list_models (config_manager : ConfigManager) : M unit :=
  (models_by_provider <- get_all_models config_manager ;;
   ret tt)%io.

Definition change_model (config_manager : ConfigManager) (model_value : pystr) : M unit :=
  try_except_FileNotFoundError
    (if negb (str_contains (u "/") model_value) then
       _ <- list_models config_manager ;;
       raise (SystemExit 1)
     else
       let parts := split1 (u "/") model_value in
       part0 <- lift (py_index parts 0) ;;
       let provider_id := strip part0 in
       part1 <- lift (py_index parts 1) ;;
       let model_id := strip part1 in
       valid <- validate_provider_model config_manager provider_id model_id ;;
       if negb valid then
         _ <- list_models config_manager ;;
         raise (SystemExit 1)
       else
         let final_value := provider_id ++ u "/" ++ model_id in
         update_model config_manager final_value)%io
    (raise (SystemExit 1)).

(** [main]: the path of the configuration file, from the [--config] option
    ([None] when the option is not given; a [Path] is never falsy). *)
Definition default_config_path (env : process) : Path :=
  path_div (path_div (path_div (home env) (u ".config")) (u "opencode")) (u "config.json").

Definition config_path_to_use (env : process) (args_config : option Path) : Path :=
  default (default_config_path env) args_config.

Definition main_config_manager (env : process) (args_config : option Path) : ConfigManager :=
  __init__ env (Some (config_path_to_use env args_config)).

(** ** Definitions used to state the properties *)

(** The record a newly discovered model gets: [{"name": model_id}]. *)
Definition default_record (model_id : pystr) : json :=
  JObj [(u "name", JStr model_id)].

Definition remove_all (ks : list pystr) (d : list (pystr * json)) : list (pystr * json) :=
  foldl (λ d k, dict_del k d) d ks.

Definition add_all (ks : list pystr) (d : list (pystr * json)) : list (pystr * json) :=
  foldl (λ d k, dict_set k (default_record k) d) d ks.

(** The model map [update_provider_models] stores: the obsolete ids deleted,
    then the new ids inserted, each loop in the order [set_iter] gives. *)
Definition merged_models (set_iter : gset (list N) → list (list N))
    (existing : list (pystr * json)) (new_model_ids : list pystr) : list (pystr * json) :=
  let fetched : gset (list N) := list_to_set new_model_ids in
  let stored : gset (list N) := list_to_set (dict_keys existing) in
  add_all (set_iter (fetched ∖ stored)) (remove_all (set_iter (stored ∖ fetched)) existing).

(** The document after [update_provider_models]: the merged map stored back
    in the provider, the provider in the provider section, the section in the
    document, every key at the position it had. *)
Definition updated_document (cfg provs pc : list (pystr * json)) (provider_id : pystr)
    (models : list (pystr * json)) : json :=
  JObj (dict_set (u "provider")
          (JObj (dict_set provider_id (JObj (dict_set (u "models") (JObj models) pc)) provs))
          cfg).

(** A second order of visit: the reverse of the first. *)
Definition reverse_elements (X : gset (list N)) : list (list N) := reverse (elements X).

(** The document of the scenario: provider1 with model1 and model2, each
    with attributes of its own. *)
Definition provider1_models : list (pystr * json) :=
  [(u "model1", JObj [(u "name", JStr (u "Model One"))]);
   (u "model2", JObj [(u "name", JStr (u "My favourite")); (u "limit", JInt 4096)])].

Definition provider1 : list (pystr * json) :=
  [(u "npm", JStr (u "@ai-sdk/openai-compatible"));
   (u "name", JStr (u "Provider 1"));
   (u "options", JObj [(u "baseURL", JStr (u "http://localhost:1234"))]);
   (u "models", JObj provider1_models)].

Definition scenario_providers : list (pystr * json) := [(u "provider1", JObj provider1)].

Definition scenario_document : list (pystr * json) :=
  [(u "model", JStr (u "provider1/model1"));
   (u "provider", JObj scenario_providers)].

(** The model map of provider1 after fetching model2 and model3. *)
Definition scenario_models_after : list (pystr * json) :=
  [(u "model2", JObj [(u "name", JStr (u "My favourite")); (u "limit", JInt 4096)]);
   (u "model3", JObj [(u "name", JStr (u "model3"))])].

(** What the backing file of [self] stores for model [model_id] of provider
    [provider_id], when it stores anything. *)
Definition stored_model (fs : filesystem) (self : ConfigManager)
    (provider_id model_id : pystr) : option json :=
  match fs !! config_path self with
  | Some (Content (JObj cfg)) =>
      match dict_lookup (u "provider") cfg with
      | Some (JObj provs) =>
          match dict_lookup provider_id provs with
          | Some (JObj pc) =>
              match dict_lookup (u "models") pc with
              | Some (JObj models) => dict_lookup model_id models
              | _ => None
              end
          | _ => None
          end
      | _ => None
      end
  | _ => None
  end.

(** A document whose only provider has no "models" entry. *)
Definition bare_provider : list (pystr * json) :=
  [(u "npm", JStr (u "@ai-sdk/openai-compatible")); (u "name", JStr (u "Bare"))].

Definition bare_providers : list (pystr * json) := [(u "bare", JObj bare_provider)].

Definition bare_document : list (pystr * json) := [(u "provider", JObj bare_providers)].

(** A provider record is an object whose "models" entry, when there is one,
    is an object. *)
Definition wf_provider (j : json) : bool :=
  match j with
  | JObj pc =>
      match dict_lookup (u "models") pc with
      | None | Some (JObj _) => true
      | Some _ => false
      end
  | _ => false
  end.

(** A document is an object whose "provider" entry, when there is one, maps
    distinct provider ids to provider records. *)
Definition wf_document (cfg : list (pystr * json)) : bool :=
  match dict_lookup (u "provider") cfg with
  | None => true
  | Some (JObj provs) =>
      bool_decide (NoDup (dict_keys provs)) && forallb (λ kv, wf_provider kv.2) provs
  | Some _ => false
  end.

(** The provider record [j] has model [M]. *)
Definition has_model (M : pystr) (j : json) : bool :=
  match j with
  | JObj pc =>
      match dict_lookup (u "models") pc with
      | Some (JObj models) => dict_mem M models
      | _ => false
      end
  | _ => false
  end.

(** The provider record [j] with model [M] taken out of its model map. *)
Definition without_model (M : pystr) (j : json) : json :=
  match j with
  | JObj pc =>
      match dict_lookup (u "models") pc with
      | Some (JObj models) =>
          if dict_mem M models
          then JObj (dict_set (u "models") (JObj (dict_del M models)) pc)
          else j
      | _ => j
      end
  | _ => j
  end.

(** A document in which two providers have a model of the same id and a
    third has no model map. *)
Definition shared_providers : list (pystr * json) :=
  [(u "alpha", JObj [(u "name", JStr (u "Alpha"));
                     (u "models", JObj [(u "shared", JObj [(u "name", JStr (u "Shared A"))]);
                                        (u "only-a", JObj [(u "name", JStr (u "Only A"))])])]);
   (u "beta", JObj [(u "models", JObj [(u "shared", JObj [(u "name", JStr (u "Shared B"))])]);
                    (u "name", JStr (u "Beta"))]);
   (u "gamma", JObj [(u "name", JStr (u "Gamma"))])].

Definition shared_document : list (pystr * json) :=
  [(u "provider", JObj shared_providers); (u "model", JStr (u "alpha/shared"))].

(** The model ids [get_all_models] lists for a provider record. *)
Definition model_ids (j : json) : list pystr :=
  match j with
  | JObj pc =>
      match dict_lookup (u "models") pc with
      | Some (JObj models) => dict_keys models
      | _ => []
      end
  | _ => []
  end.

(** A document with a model id that holds a "/". *)
Definition hub_document : list (pystr * json) :=
  [(u "model", JStr (u "hub/plain"));
   (u "provider",
    JObj [(u "hub", JObj [(u "models", JObj [(u "plain", JObj []);
                                             (u "org/model", JObj [])])])])].

(** Two processes of one user, started in different directories. *)
Definition env_a : process :=
  {| cwd := [u "srv"; u "project-a"]; home := [u "home"; u "user"] |}.

Definition env_b : process :=
  {| cwd := [u "srv"; u "project-b"]; home := [u "home"; u "user"] |}.

(** ** class ConfigManager: adding and deleting providers and models *)

Definition add_provider (self : ConfigManager) (provider_id : pystr)
    (provider_config : json) : M unit :=
  (config <- load_config self ;;
   present <- lift (py_contains (u "provider") config) ;;
   config <- lift (if negb present then py_setitem config (u "provider") (JObj [])
                   else Ok config) ;;
   (* [config["provider"][provider_id] = provider_config] changes the object
      stored under "provider" *)
   providers <- lift (py_getitem config (u "provider")) ;;
   providers <- lift (py_setitem providers provider_id provider_config) ;;
   config <- lift (py_setitem config (u "provider") providers) ;;
   save_config self config)%io.

Definition add_model_to_provider (self : ConfigManager) (provider_id model_id : pystr)
    (model_config : json) : M unit :=
  (config <- load_config self ;;
   providers <- lift (py_get config (u "provider") (JObj [])) ;;
   found <- lift (py_contains provider_id providers) ;;
   if negb found then
     raise (ValueError (u "Provider '" ++ provider_id ++ u "' not found"))
   else
     provider_config <- lift (py_getitem providers provider_id) ;;
     present <- lift (py_contains (u "models") provider_config) ;;
     provider_config <- lift (if negb present
                              then py_setitem provider_config (u "models") (JObj [])
                              else Ok provider_config) ;;
     models <- lift (py_getitem provider_config (u "models")) ;;
     models <- lift (py_setitem models model_id model_config) ;;
     (* the assignments are made in the objects stored in [config] *)
     provider_config <- lift (py_setitem provider_config (u "models") models) ;;
     providers <- lift (py_setitem providers provider_id provider_config) ;;
     config <- lift (py_setitem config (u "provider") providers) ;;
     save_config self config)%io.

Definition delete_provider (self : ConfigManager) (provider_id : pystr) : M unit :=
  (config <- load_config self ;;
   providers <- lift (py_get config (u "provider") (JObj [])) ;;
   found <- lift (py_contains provider_id providers) ;;
   if negb found then
     raise (ValueError (u "Provider '" ++ provider_id ++ u "' not found"))
   else
     providers <- lift (py_delitem providers provider_id) ;;
     (* [providers] holds [provider_id]: it is the object stored in [config] *)
     config <- lift (py_setitem config (u "provider") providers) ;;
     save_config self config)%io.

(** ** fetch_provider_models *)

Fixpoint lstrip_chars (chars s : pystr) : pystr :=
  match s with
  | [] => []
  | c :: s' => if bool_decide (c ∈ chars) then lstrip_chars chars s' else s
  end.

(** [s.rstrip(chars)] *)
Definition rstrip_chars (chars s : pystr) : pystr :=
  reverse (lstrip_chars chars (reverse s)).

(** The address the models are fetched from. *)
Definition models_url (base_url : pystr) : pystr :=
  rstrip_chars (u "/") base_url ++ u "/v1/models".

(** The truth value of a JSON value in a condition. The text of a float is
    the one [repr] prints, so a zero is "0.0" or "-0.0". *)
Definition py_truthy (j : json) : bool :=
  match j with
  | JNull => false
  | JBool b => b
  | JInt n => negb (n =? 0)%Z
  | JFloat r => negb (bool_decide (r = u "0.0") || bool_decide (r = u "-0.0"))
  | JStr s => negb (bool_decide (s = []))
  | JArr xs => match xs with [] => false | _ => true end
  | JObj d => match d with [] => false | _ => true end
  end.

(** What a [for] loop over a JSON value visits: the elements of a list, the
    keys of an object, the characters of a string. *)
Definition py_iter (o : json) : result (list json) :=
  match o with
  | JArr xs => Ok xs
  | JObj d => Ok (JStr <$> dict_keys d)
  | JStr s => Ok ((λ c, JStr [c]) <$> s)
  | _ => Raise TypeError
  end.

(** One step of the comprehension
    [[model.get("id", "") for model in ... if model.get("id")]]. *)
Definition fetch_provider_models_body (model : json) (ids : list json)
    : result (list json) :=
  (id_ <- py_get model (u "id") JNull ;;
   if py_truthy id_ then
     id_ <- py_get model (u "id") (JStr []) ;;
     Ok (ids ++ [id_])
   else Ok ids)%res.

Section fetch.
(** The request: [client.get(url)], [raise_for_status()] and
    [response.json()], which give the decoded body or raise. *)
Variable http_get_json : list N → result json.

Definition fetch_provider_models (base_url : pystr) : result (list json) :=
  (let url := models_url base_url in
   data <- http_get_json url ;;
   models <- py_get data (u "data") (JArr []) ;;
   models <- py_iter models ;;
   for_each models fetch_provider_models_body [])%res.
End fetch.

(** ** cli.py: adding and deleting *)

(** [try: body  except (ValueError, FileNotFoundError): handler] *)
Definition try_except_ValueError_FileNotFoundError {A} (body handler : M A) : M A :=
  λ fs, match body fs with
        | (Raise e, fs') =>
            if is_ValueError e then handler fs'
            else match e with
                 | FileNotFoundError => handler fs'
                 | _ => (Raise e, fs')
                 end
        | r => r
        end.

Module cli.
Section prompt.
(** [str.lower], and the line [input] reads from the terminal. *)
Variable lower : list N → list N.
Variable answer : list N.

Definition add_provider (config_manager : ConfigManager)
    (provider_id npm_package name base_url : pystr) : M unit :=
  let provider_config :=
    JObj [(u "npm", JStr npm_package);
          (u "name", JStr name);
          (u "options", JObj [(u "baseURL", JStr base_url)]);
          (u "models", JObj [])] in
  try_except_FileNotFoundError
    (add_provider config_manager provider_id provider_config)
    (raise (SystemExit 1)).

Definition add_model (config_manager : ConfigManager)
    (provider_id model_id model_name : pystr) : M unit :=
  try_except_ValueError_FileNotFoundError
    (let model_config := JObj [(u "name", JStr model_name)] in
     add_model_to_provider config_manager provider_id model_id model_config)
    (raise (SystemExit 1)).

Definition delete_provider (config_manager : ConfigManager) (provider_id : pystr)
    (auto_confirm : bool) : M unit :=
  let delete :=
    try_except_ValueError_FileNotFoundError
      (delete_provider config_manager provider_id)
      (raise (SystemExit 1)) in
  if negb auto_confirm then
    let response := lower (strip answer) in
    if bool_decide (response ≠ u "y") then ret tt else delete
  else delete.

Definition delete_model (config_manager : ConfigManager) (model_id : pystr)
    (auto_confirm : bool) : M unit :=
  let delete :=
    try_except_ValueError_FileNotFoundError
      (delete_model config_manager model_id)
      (raise (SystemExit 1)) in
  if negb auto_confirm then
    let response := lower (strip answer) in
    if bool_decide (response ≠ u "y") then ret tt else delete
  else delete.
End prompt.
End cli.

(** The backing file of [self] holds a document of the data model. *)
Definition wf_store (fs : filesystem) (self : ConfigManager) : Prop :=
  ∃ cfg, fs !! config_path self = Some (Content (JObj cfg)) ∧ wf_document cfg = true.

(** The provider ids of the document in the backing file of [self], in the
    order of the document. *)
Definition stored_providers (fs : filesystem) (self : ConfigManager) : list pystr :=
  match fs !! config_path self with
  | Some (Content (JObj cfg)) =>
      match dict_lookup (u "provider") cfg with
      | Some (JObj provs) => dict_keys provs
      | _ => []
      end
  | _ => []
  end.

(** The value of entry [k] of the record of provider [provider_id] in the
    backing file of [self]. *)
Definition stored_field (fs : filesystem) (self : ConfigManager)
    (provider_id k : pystr) : option json :=
  match fs !! config_path self with
  | Some (Content (JObj cfg)) =>
      match dict_lookup (u "provider") cfg with
      | Some (JObj provs) =>
          match dict_lookup provider_id provs with
          | Some (JObj pc) => dict_lookup k pc
          | _ => None
          end
      | _ => None
      end
  | _ => None
  end.

(** [str.lower] on ASCII letters, the other characters kept: an instance of
    the parameter [lower] for the examples. *)
Definition ascii_lower (s : pystr) : pystr :=
  (λ c, if ((65 <=? c) && (c <=? 90))%N then (c + 32)%N else c) <$> s.

(** The record [cli.add_provider] stores for a new provider. *)
Definition new_provider_record (npm_package name base_url : pystr) : list (pystr * json) :=
  [(u "npm", JStr npm_package);
   (u "name", JStr name);
   (u "options", JObj [(u "baseURL", JStr base_url)]);
   (u "models", JObj [])].

(** The id [fetch_provider_models] keeps from an entry of the response that
    is an object: the value of "id" when it is there and true. *)
Definition entry_id (entry : json) : option json :=
  match entry with
  | JObj m =>
      match dict_lookup (u "id") m with
      | Some v => if py_truthy v then Some v else None
      | None => None
      end
  | _ => None
  end.

Definition is_object (j : json) : bool :=
  match j with JObj _ => true | _ => false end.

(** A collaborator for the examples: it answers every request with the same
    body. *)
Definition fixed_response (body : json) (url : list N) : result json := Ok body.

Definition sample_entries : list json :=
  [JObj [(u "id", JStr (u "m1")); (u "object", JStr (u "model"))];
   JObj [(u "object", JStr (u "model"))];
   JObj [(u "id", JStr [])];
   JObj [(u "id", JStr (u "m2"))]].

Definition sample_body : list (pystr * json) :=
  [(u "object", JStr (u "list")); (u "data", JArr sample_entries)].

Definition sample_response : json := JObj sample_body.

(** A store and its file, for the examples. *)
Definition home_store : ConfigManager := {| config_path := [u "home"; u "config.json"] |}.

Definition files_of (doc : json) : filesystem :=
  {[ [u "home"; u "config.json"] := Content doc ]}.

(** A document of the data model with a lone surrogate in a display name, as
    [json.load] builds it from the escape "\ud83d". *)
Definition surrogate_providers : list (pystr * json) :=
  [(u "alpha",
    JObj [(u "name", JStr [55357%N]);
          (u "models", JObj [(u "m1", JObj [(u "name", JStr (u "One"))])])])].

Definition surrogate_document : list (pystr * json) :=
  [(u "model", JStr (u "alpha/m1")); (u "provider", JObj surrogate_providers)].

(** The document in the backing file of [self] can be written back. *)
Definition encodable_store (fs : filesystem) (self : ConfigManager) : bool :=
  match fs !! config_path self with
  | Some (Content doc) => encodable doc
  | _ => false
  end.

(** * Properties *)

(** ** Dictionaries *)

Section dict_facts.
Context {V : Type}.
Implicit Types (k : pystr) (v : V) (d : list (pystr * V)).

Lemma dict_lookup_set k k' v d :
  dict_lookup k' (dict_set k v d) = if decide (k = k') then Some v else dict_lookup k' d.
Proof.
  induction d as [|[k0 v0] d IH]; simpl.
  - repeat case_decide; congruence.
  - repeat (case_decide; simpl; subst); try congruence.
Qed.

Lemma dict_lookup_set_eq k v d : dict_lookup k (dict_set k v d) = Some v.
Proof. rewrite dict_lookup_set. by case_decide. Qed.

Lemma dict_lookup_set_ne k k' v d :
  k ≠ k' → dict_lookup k' (dict_set k v d) = dict_lookup k' d.
Proof. intros. rewrite dict_lookup_set. by case_decide. Qed.

Lemma dict_lookup_del k k' d :
  dict_lookup k' (dict_del k d) = if decide (k = k') then None else dict_lookup k' d.
Proof.
  unfold dict_del. induction d as [|[k0 v0] d IH]; simpl.
  - by case_decide.
  - rewrite filter_cons. simpl.
    repeat (case_decide; simpl; subst); try congruence.
Qed.

(** Assigning the value a key already has changes nothing, not even the
    order of the keys. *)
Lemma dict_set_same k v d : dict_lookup k d = Some v → dict_set k v d = d.
Proof.
  induction d as [|[k0 v0] d IH]; simpl; [done|].
  case_decide; intros Hl.
  - congruence.
  - by rewrite IH.
Qed.

Lemma dict_set_absent k v d : dict_lookup k d = None → dict_set k v d = d ++ [(k, v)].
Proof.
  induction d as [|[k0 v0] d IH]; simpl; [done|].
  case_decide; intros Hl; [done|]. by rewrite IH.
Qed.

Lemma elem_of_dict_keys k d : k ∈ dict_keys d ↔ is_Some (dict_lookup k d).
Proof.
  unfold dict_keys. induction d as [|[k0 v0] d IH]; simpl.
  - split; [by intros ?%elem_of_nil | by intros [? ?]].
  - rewrite elem_of_cons, IH. case_decide as Hk; subst.
    + split; [eauto | by left].
    + split; [intros [?|?]; [congruence | done] | by right].
Qed.

Lemma dict_mem_keys k d : dict_mem k d = bool_decide (k ∈ dict_keys d).
Proof. unfold dict_mem. apply bool_decide_ext. by rewrite elem_of_dict_keys. Qed.

Lemma dict_mem_true k d : dict_mem k d = true ↔ is_Some (dict_lookup k d).
Proof. unfold dict_mem. by rewrite bool_decide_eq_true. Qed.

Lemma dict_mem_false k d : dict_mem k d = false ↔ dict_lookup k d = None.
Proof.
  unfold dict_mem. rewrite bool_decide_eq_false, <-eq_None_not_Some. done.
Qed.

End dict_facts.

(** ** Writing the document *)

Lemma save_config_encodable self config fs :
  encodable config = true →
  save_config self config fs = (Ok tt, <[config_path self := Content config]> fs).
Proof. intros He. unfold save_config. by rewrite He. Qed.

Lemma save_config_unencodable self config fs :
  encodable config = false →
  save_config self config fs = (Raise UnicodeEncodeError, <[config_path self := NotJSON]> fs).
Proof. intros He. unfold save_config. by rewrite He. Qed.

Lemma save_config_Ok_inv self config fs fs' :
  save_config self config fs = (Ok tt, fs') →
  encodable config = true ∧ fs' = <[config_path self := Content config]> fs.
Proof.
  unfold save_config. destruct (encodable config); [|discriminate].
  by intros [= <-].
Qed.

Lemma encodable_obj_cons k v d :
  encodable (JObj ((k, v) :: d))
  = str_encodable k && encodable v && encodable (JObj d).
Proof. done. Qed.

Lemma encodable_obj_lookup k v d :
  encodable (JObj d) = true → dict_lookup k d = Some v →
  str_encodable k = true ∧ encodable v = true.
Proof.
  induction d as [|[k0 v0] d IH]; [done|].
  rewrite encodable_obj_cons. intros [[Hk Hv]%andb_true_iff Hd]%andb_true_iff.
  cbn [dict_lookup]. case_decide as Heq.
  - intros [= <-]. by subst.
  - by apply IH.
Qed.

Lemma encodable_obj_set k v d :
  encodable (JObj d) = true → str_encodable k = true → encodable v = true →
  encodable (JObj (dict_set k v d)) = true.
Proof.
  intros Hd Hk Hv. induction d as [|[k0 v0] d IH]; cbn [dict_set].
  - rewrite encodable_obj_cons. by rewrite Hk, Hv.
  - rewrite encodable_obj_cons in Hd.
    apply andb_true_iff in Hd as [[Hk0 Hv0]%andb_true_iff Hd].
    case_decide; rewrite encodable_obj_cons.
    + by rewrite Hk0, Hv, Hd.
    + by rewrite Hk0, Hv0, IH.
Qed.

Lemma encodable_obj_del k d :
  encodable (JObj d) = true → encodable (JObj (dict_del k d)) = true.
Proof.
  unfold dict_del. induction d as [|[k0 v0] d IH]; [done|].
  rewrite encodable_obj_cons. intros [[Hk0 Hv0]%andb_true_iff Hd]%andb_true_iff.
  rewrite filter_cons. cbn [fst]. case_decide; [|by apply IH].
  rewrite encodable_obj_cons. by rewrite Hk0, Hv0, IH.
Qed.

Lemma encodable_obj_app d1 d2 :
  encodable (JObj (d1 ++ d2)) = encodable (JObj d1) && encodable (JObj d2).
Proof. cbn [encodable]. apply forallb_app. Qed.

Lemma str_encodable_app s t :
  str_encodable (s ++ t) = str_encodable s && str_encodable t.
Proof. apply forallb_app. Qed.

(** ** The two loops of [update_provider_models] *)

Lemma lookup_remove_all ks d m :
  dict_lookup m (remove_all ks d) = if decide (m ∈ ks) then None else dict_lookup m d.
Proof.
  unfold remove_all. revert d. induction ks as [|k ks IH]; intros d.
  - done.
  - cbn [foldl]. rewrite IH, dict_lookup_del.
    destruct (decide (m ∈ ks)) as [Hin|Hni].
    + rewrite decide_True by (by right). done.
    + destruct (decide (k = m)) as [->|Hne].
      * rewrite decide_True by (by left). done.
      * rewrite decide_False; [done|]. by intros [?|?]%elem_of_cons.
Qed.

Lemma lookup_add_all ks d m :
  dict_lookup m (add_all ks d)
  = if decide (m ∈ ks) then Some (default_record m) else dict_lookup m d.
Proof.
  unfold add_all. revert d. induction ks as [|k ks IH]; intros d.
  - done.
  - cbn [foldl]. rewrite IH, dict_lookup_set.
    destruct (decide (m ∈ ks)) as [Hin|Hni].
    + rewrite decide_True by (by right). done.
    + destruct (decide (k = m)) as [->|Hne].
      * rewrite decide_True by (by left). done.
      * rewrite decide_False; [done|]. by intros [?|?]%elem_of_cons.
Qed.

Lemma remove_all_nil d : remove_all [] d = d.
Proof. done. Qed.

Lemma add_all_nil d : add_all [] d = d.
Proof. done. Qed.

(** The removal loop never raises: each key it deletes is still present. *)
Lemma for_each_delitem ks d :
  NoDup ks →
  (∀ k, k ∈ ks → is_Some (dict_lookup k d)) →
  for_each ks (λ model_id existing_models, py_delitem existing_models model_id) (JObj d)
  = Ok (JObj (remove_all ks d)).
Proof.
  unfold remove_all. revert d. induction ks as [|k ks IH]; intros d Hnd Hin; [done|].
  apply NoDup_cons in Hnd as [Hk Hnd]. simpl.
  assert (dict_mem k d = true) as ->.
  { apply dict_mem_true, Hin. by left. }
  simpl. apply IH; [done|].
  intros k' Hk'. rewrite dict_lookup_del.
  rewrite decide_False by (intros ->; done). apply Hin. by right.
Qed.

Lemma for_each_setitem ks d :
  for_each ks
    (λ model_id existing_models,
       py_setitem existing_models model_id (JObj [(u "name", JStr model_id)]))
    (JObj d)
  = Ok (JObj (add_all ks d)).
Proof.
  unfold add_all. revert d. induction ks as [|k ks IH]; intros d; [done|].
  simpl. apply IH.
Qed.

Lemma encodable_remove_all ks d :
  encodable (JObj d) = true → encodable (JObj (remove_all ks d)) = true.
Proof.
  unfold remove_all. revert d. induction ks as [|k ks IH]; intros d Hd; [done|].
  cbn [foldl]. by apply IH, encodable_obj_del.
Qed.

Lemma encodable_add_all ks d :
  encodable (JObj d) = true → forallb str_encodable ks = true →
  encodable (JObj (add_all ks d)) = true.
Proof.
  unfold add_all. revert d. induction ks as [|k ks IH]; intros d Hd Hks; [done|].
  cbn [forallb] in Hks. apply andb_true_iff in Hks as [Hk Hks].
  cbn [foldl]. apply IH; [|done]. apply encodable_obj_set; [done..|].
  unfold default_record. rewrite encodable_obj_cons. cbn [encodable].
  by rewrite Hk.
Qed.

Lemma encodable_updated_document cfg provs pc P models :
  encodable (JObj cfg) = true →
  dict_lookup (u "provider") cfg = Some (JObj provs) →
  dict_lookup P provs = Some (JObj pc) →
  encodable (JObj models) = true →
  encodable (updated_document cfg provs pc P models) = true.
Proof.
  intros Hcfg Hprov HP Hmodels.
  destruct (encodable_obj_lookup _ _ _ Hcfg Hprov) as [_ Hprovs].
  destruct (encodable_obj_lookup _ _ _ Hprovs HP) as [HPe Hpc].
  unfold updated_document.
  apply encodable_obj_set; [done..|].
  apply encodable_obj_set; [done..|].
  by apply encodable_obj_set.
Qed.

(** ** Reconciliation *)

Section reconcile_facts.
Variable set_iter : gset (list N) → list (list N).
(** A loop over a set visits each element once. *)
Hypothesis set_iter_perm : ∀ X, set_iter X ≡ₚ elements X.

Lemma elem_of_set_iter k X : k ∈ set_iter X ↔ k ∈ X.
Proof. rewrite set_iter_perm. apply elem_of_elements. Qed.

Lemma NoDup_set_iter X : NoDup (set_iter X).
Proof. rewrite set_iter_perm. apply NoDup_elements. Qed.

Lemma set_iter_empty : set_iter ∅ = [].
Proof. apply Permutation_nil_r. rewrite set_iter_perm. by rewrite elements_empty. Qed.

Lemma set_iter_singleton k : set_iter {[ k ]} = [k].
Proof.
  apply Permutation_singleton_r. rewrite set_iter_perm. by rewrite elements_singleton.
Qed.

Lemma lookup_merged_models existing L m :
  dict_lookup m (merged_models set_iter existing L)
  = if decide (m ∈ L)
    then (if decide (m ∈ dict_keys existing) then dict_lookup m existing
          else Some (JObj [(u "name", JStr m)]))
    else None.
Proof.
  unfold merged_models. rewrite lookup_add_all, lookup_remove_all.
  destruct (decide (m ∈ L)) as [HL|HL], (decide (m ∈ dict_keys existing)) as [HE|HE].
  - rewrite !decide_False; [done | |]; rewrite elem_of_set_iter; set_solver.
  - rewrite decide_True; [done|]. rewrite elem_of_set_iter. set_solver.
  - rewrite decide_False, decide_True; [done | |]; rewrite elem_of_set_iter; set_solver.
  - rewrite !decide_False; [| |]; rewrite ?elem_of_set_iter; [|set_solver..].
    apply eq_None_not_Some. by rewrite <-elem_of_dict_keys.
Qed.

Lemma encodable_merged_models existing L :
  encodable (JObj existing) = true → forallb str_encodable L = true →
  encodable (JObj (merged_models set_iter existing L)) = true.
Proof.
  intros He HL. unfold merged_models.
  apply encodable_add_all; [by apply encodable_remove_all|].
  apply forallb_forall. intros k Hk%list_elem_of_In.
  rewrite forallb_forall in HL. apply HL, list_elem_of_In.
  apply elem_of_set_iter in Hk. set_solver.
Qed.

(** A run of [update_provider_models] on a document that holds the
    provider, up to the write: the document it hands to [save_config] and
    the counts it returns when the write succeeds. [existing] is the value of
    [provider_config.get("models", {})]. *)
Lemma update_provider_models_step self fs cfg provs pc existing P L :
  fs !! config_path self = Some (Content (JObj cfg)) →
  dict_lookup (u "provider") cfg = Some (JObj provs) →
  dict_lookup P provs = Some (JObj pc) →
  py_get (JObj pc) (u "models") (JObj []) = Ok (JObj existing) →
  update_provider_models set_iter self P L fs
  = (_ <- save_config self
            (updated_document cfg provs pc P (merged_models set_iter existing L)) ;;
     ret {| added := size (list_to_set L ∖ list_to_set (dict_keys existing) : gset (list N));
            removed := size (list_to_set (dict_keys existing) ∖ list_to_set L : gset (list N));
            preserved := size (list_to_set (dict_keys existing) ∩ list_to_set L
                               : gset (list N)) |})%io fs.
Proof.
  intros Hfs Hprov HP Hmodels.
  unfold update_provider_models, bind at 1, load_config. rewrite Hfs.
  unfold bind at 1, lift at 1. cbn [py_get]. rewrite Hprov.
  cbn [default from_option id].
  unfold bind at 1, lift at 1. cbn [py_contains].
  assert (dict_mem P provs = true) as -> by (apply dict_mem_true; eauto).
  cbn [negb]. unfold bind at 1, lift at 1. cbn [py_getitem]. rewrite HP.
  unfold bind at 1, lift at 1. rewrite Hmodels.
  unfold bind at 1, lift at 1. cbn [py_keys].
  unfold bind at 1, lift at 1. rewrite for_each_delitem.
  - unfold bind at 1, lift at 1. rewrite for_each_setitem.
    unfold bind at 1, lift at 1. cbn [py_setitem].
    unfold bind at 1, lift at 1. cbn [py_setitem].
    unfold bind at 1, lift at 1. cbn [py_setitem]. done.
  - apply NoDup_set_iter.
  - intros k Hk. apply elem_of_set_iter in Hk. apply elem_of_dict_keys. set_solver.
Qed.

Lemma encodable_reconciled cfg provs pc existing P L :
  dict_lookup (u "provider") cfg = Some (JObj provs) →
  dict_lookup P provs = Some (JObj pc) →
  py_get (JObj pc) (u "models") (JObj []) = Ok (JObj existing) →
  encodable (JObj cfg) = true →
  forallb str_encodable L = true →
  encodable (updated_document cfg provs pc P (merged_models set_iter existing L)) = true.
Proof.
  intros Hprov HP Hmodels Hcfg HL.
  apply encodable_updated_document; [done..|].
  apply encodable_merged_models; [|done].
  destruct (encodable_obj_lookup _ _ _ Hcfg Hprov) as [_ Hprovs].
  destruct (encodable_obj_lookup _ _ _ Hprovs HP) as [_ Hpc].
  cbn [py_get] in Hmodels.
  destruct (dict_lookup (u "models") pc) as [j|] eqn:Hl.
  - cbn [default from_option id] in Hmodels. injection Hmodels as ->.
    by destruct (encodable_obj_lookup _ _ _ Hpc Hl).
  - cbn [default from_option id] in Hmodels. by injection Hmodels as <-.
Qed.

(** The same run when every string of the document and every fetched id can
    be encoded: what it returns and what it writes. *)
Lemma update_provider_models_run self fs cfg provs pc existing P L :
  fs !! config_path self = Some (Content (JObj cfg)) →
  dict_lookup (u "provider") cfg = Some (JObj provs) →
  dict_lookup P provs = Some (JObj pc) →
  py_get (JObj pc) (u "models") (JObj []) = Ok (JObj existing) →
  encodable (JObj cfg) = true →
  forallb str_encodable L = true →
  update_provider_models set_iter self P L fs
  = (Ok {| added := size (list_to_set L ∖ list_to_set (dict_keys existing) : gset (list N));
           removed := size (list_to_set (dict_keys existing) ∖ list_to_set L : gset (list N));
           preserved := size (list_to_set (dict_keys existing) ∩ list_to_set L : gset (list N)) |},
     <[config_path self :=
         Content (updated_document cfg provs pc P (merged_models set_iter existing L))]> fs).
Proof.
  intros Hfs Hprov HP Hmodels Hcfg HL.
  rewrite (update_provider_models_step self fs cfg provs pc existing) by done.
  unfold bind. rewrite save_config_encodable; [done|].
  by apply encodable_reconciled.
Qed.
End reconcile_facts.

(** ** What [update_provider_models] guarantees *)

Lemma scenario_merged set_iter :
  (∀ X, set_iter X ≡ₚ elements X) →
  merged_models set_iter provider1_models [u "model2"; u "model3"] = scenario_models_after.
Proof.
  intros Hperm. unfold merged_models.
  assert ((list_to_set [u "model2"; u "model3"] : gset (list N))
            ∖ list_to_set (dict_keys provider1_models) = {[ u "model3" ]}) as ->
    by (vm_compute; reflexivity).
  assert ((list_to_set (dict_keys provider1_models) : gset (list N))
            ∖ list_to_set [u "model2"; u "model3"] = {[ u "model1" ]}) as ->
    by (vm_compute; reflexivity).
  rewrite !set_iter_singleton by done. vm_compute. reflexivity.
Qed.

Lemma stored_model_updated fs self cfg provs pc P models m :
  stored_model (<[config_path self := Content (updated_document cfg provs pc P models)]> fs)
    self P m = dict_lookup m models.
Proof.
  unfold stored_model, updated_document.
  rewrite lookup_insert_eq. by rewrite !dict_lookup_set_eq.
Qed.

Lemma stored_model_Some fs self P m r :
  stored_model fs self P m = Some r →
  ∃ cfg provs pc models,
    fs !! config_path self = Some (Content (JObj cfg))
    ∧ dict_lookup (u "provider") cfg = Some (JObj provs)
    ∧ dict_lookup P provs = Some (JObj pc)
    ∧ dict_lookup (u "models") pc = Some (JObj models)
    ∧ dict_lookup m models = Some r.
Proof.
  unfold stored_model. intros H.
  destruct (fs !! config_path self) as [[| |doc]|]; try discriminate.
  destruct doc as [| | | | | |cfg]; try discriminate.
  destruct (dict_lookup (u "provider") cfg) as [j|] eqn:Hprov; try discriminate.
  destruct j as [| | | | | |provs]; try discriminate.
  destruct (dict_lookup P provs) as [j|] eqn:HP; try discriminate.
  destruct j as [| | | | | |pc]; try discriminate.
  destruct (dict_lookup (u "models") pc) as [j|] eqn:Hmodels; try discriminate.
  destruct j as [| | | | | |models]; try discriminate.
  by exists cfg, provs, pc, models.
Qed.

(** C1, as stated, fails: on the scenario document, fetching an id that holds
    a lone surrogate makes [update_provider_models] raise
    [UnicodeEncodeError] instead of returning counts, and the file is left
    with text that [json.load] rejects. *)
Lemma update_provider_models_unencodable_id :
  update_provider_models elements home_store (u "provider1") [u "model2"; [55296%N]]
    (files_of (JObj scenario_document))
  = (Raise UnicodeEncodeError,
     <[config_path home_store := NotJSON]> (files_of (JObj scenario_document))).
Proof. vm_compute. reflexivity. Qed.

(** C1, amended: on a document that holds provider [P] with model map
    [existing], when every string of the document and every fetched id can
    be encoded (none holds a lone surrogate), [update_provider_models P L]
    returns the sizes of fetched - existing, existing - fetched and their
    intersection, and writes the document back with a model map for [P] in
    which the ids of existing - fetched are gone, the ids of
    fetched - existing have the record [{"name": id}], the ids in both keep
    their record, and no other id appears. In the scenario (provider1 with
    model1 and model2, fetched model2 and model3) the counts are 1, 1, 1 and
    the stored map is model2 as it was, then model3 named "model3". *)
Theorem update_provider_models_reconciles
    (set_iter : gset (list N) → list (list N)) self fs cfg provs pc existing P L :
  (∀ X, set_iter X ≡ₚ elements X) →
  fs !! config_path self = Some (Content (JObj cfg)) →
  dict_lookup (u "provider") cfg = Some (JObj provs) →
  dict_lookup P provs = Some (JObj pc) →
  dict_lookup (u "models") pc = Some (JObj existing) →
  encodable (JObj cfg) = true →
  forallb str_encodable L = true →
  let fetched : gset (list N) := list_to_set L in
  let stored : gset (list N) := list_to_set (dict_keys existing) in
  (∃ models',
     update_provider_models set_iter self P L fs
     = (Ok {| added := size (fetched ∖ stored);
              removed := size (stored ∖ fetched);
              preserved := size (stored ∩ fetched) |},
        <[config_path self := Content (updated_document cfg provs pc P models')]> fs)
     ∧ (∀ m, m ∈ stored ∖ fetched → dict_lookup m models' = None)
     ∧ (∀ m, m ∈ fetched ∖ stored →
             dict_lookup m models' = Some (JObj [(u "name", JStr m)]))
     ∧ (∀ m, m ∈ stored ∩ fetched → dict_lookup m models' = dict_lookup m existing)
     ∧ (∀ m, m ∉ stored ∪ fetched → dict_lookup m models' = None))
  ∧ (∀ fs0, fs0 !! config_path self = Some (Content (JObj scenario_document)) →
       update_provider_models set_iter self (u "provider1") [u "model2"; u "model3"] fs0
       = (Ok {| added := 1; removed := 1; preserved := 1 |},
          <[config_path self :=
              Content (updated_document scenario_document scenario_providers provider1
                         (u "provider1") scenario_models_after)]> fs0)).
Proof.
  intros Hperm Hfs Hprov HP Hmodels Hcfg HL fetched stored. split.
  - exists (merged_models set_iter existing L). split.
    { apply update_provider_models_run; try done.
      cbn [py_get]. by rewrite Hmodels. }
    subst fetched stored.
    repeat split; intros m Hm; rewrite lookup_merged_models by done.
    + rewrite decide_False; [done | set_solver].
    + rewrite decide_True, decide_False; [done | set_solver..].
    + rewrite !decide_True; [done | set_solver..].
    + rewrite decide_False; [done | set_solver].
  - intros fs0 Hfs0.
    rewrite (update_provider_models_run set_iter Hperm self fs0 scenario_document
               scenario_providers provider1 provider1_models); try done.
    rewrite scenario_merged by done. done.
Qed.

Lemma update_provider_models_reconciles_witness :
  let self := {| config_path := [u "home"; u "config.json"] |} in
  let fs : filesystem := {[ [u "home"; u "config.json"] := Content (JObj scenario_document) ]} in
  update_provider_models elements self (u "provider1") [u "model2"; u "model3"] fs
  = (Ok {| added := 1; removed := 1; preserved := 1 |},
     <[config_path self :=
         Content (updated_document scenario_document scenario_providers provider1
                    (u "provider1") scenario_models_after)]> fs).
Proof.
  intros self fs.
  refine (proj2 (update_provider_models_reconciles elements self fs scenario_document
            scenario_providers provider1 provider1_models (u "provider1")
            [u "model2"; u "model3"] _ _ _ _ _ _ _) fs _); reflexivity.
Defined.

Section reconcile_claims.
Variable set_iter : gset (list N) → list (list N).
Hypothesis set_iter_perm : ∀ X, set_iter X ≡ₚ elements X.

(** After the merge the stored ids are the fetched ids. *)
Lemma keys_merged_models existing L :
  (list_to_set (dict_keys (merged_models set_iter existing L)) : gset (list N))
  = list_to_set L.
Proof.
  apply set_eq. intros m.
  rewrite !elem_of_list_to_set, elem_of_dict_keys, lookup_merged_models by done.
  destruct (decide (m ∈ L)) as [HL|HL].
  - split; [done|]. intros _. case_decide as HE; [|eauto].
    by apply elem_of_dict_keys.
  - split; [by intros [? ?] | done].
Qed.

(** Merging with nothing to delete and nothing to add is the identity. *)
Lemma merged_models_fixed existing L :
  (list_to_set (dict_keys existing) : gset (list N)) = list_to_set L →
  merged_models set_iter existing L = existing.
Proof.
  intros HE. unfold merged_models. rewrite HE.
  rewrite difference_diag_L, set_iter_empty by done. done.
Qed.

Lemma updated_document_same cfg provs pc P models :
  dict_lookup (u "provider") cfg = Some (JObj provs) →
  dict_lookup P provs = Some (JObj pc) →
  dict_lookup (u "models") pc = Some (JObj models) →
  updated_document cfg provs pc P models = JObj cfg.
Proof.
  intros Hprov HP Hmodels. unfold updated_document.
  by rewrite (dict_set_same _ _ pc), (dict_set_same _ _ provs), (dict_set_same _ _ cfg).
Qed.
End reconcile_claims.

(** C2, as stated, fails: on a document with a lone surrogate in a display
    name the first run raises [UnicodeEncodeError] and leaves text that
    [json.load] rejects, and the second run raises [JSONDecodeError] instead
    of returning counts. *)
Lemma update_provider_models_twice_unencodable :
  update_provider_models elements home_store (u "alpha") [u "m1"]
    (files_of (JObj surrogate_document))
  = (Raise UnicodeEncodeError,
     <[config_path home_store := NotJSON]> (files_of (JObj surrogate_document)))
  ∧ update_provider_models elements home_store (u "alpha") [u "m1"]
      (<[config_path home_store := NotJSON]> (files_of (JObj surrogate_document)))
    = (Raise JSONDecodeError,
       <[config_path home_store := NotJSON]> (files_of (JObj surrogate_document))).
Proof. split; vm_compute; reflexivity. Qed.

(** C2, amended: on a document that holds provider [P], when every string of
    the document and every fetched id can be encoded (none holds a lone
    surrogate), a first run of [update_provider_models P L] succeeds, and a
    second run with the same list on the files the first run left returns
    added = 0, removed = 0 and preserved = the number of distinct fetched
    ids, and leaves every file as the first run left it. The two runs may
    visit sets in different orders. *)
Theorem update_provider_models_twice
    (set_iter1 set_iter2 : gset (list N) → list (list N))
    self fs cfg provs pc existing P L :
  (∀ X, set_iter1 X ≡ₚ elements X) →
  (∀ X, set_iter2 X ≡ₚ elements X) →
  fs !! config_path self = Some (Content (JObj cfg)) →
  dict_lookup (u "provider") cfg = Some (JObj provs) →
  dict_lookup P provs = Some (JObj pc) →
  py_get (JObj pc) (u "models") (JObj []) = Ok (JObj existing) →
  encodable (JObj cfg) = true →
  forallb str_encodable L = true →
  ∃ r1 fs1,
    update_provider_models set_iter1 self P L fs = (Ok r1, fs1)
    ∧ update_provider_models set_iter2 self P L fs1
      = (Ok {| added := 0; removed := 0;
               preserved := size (list_to_set L : gset (list N)) |}, fs1).
Proof.
  intros Hperm1 Hperm2 Hfs Hprov HP Hmodels Hcfg HL.
  eexists _, _. split.
  { by apply update_provider_models_run. }
  pose proof (encodable_reconciled set_iter1 Hperm1 cfg provs pc existing P L
                Hprov HP Hmodels Hcfg HL) as Henc.
  set (models1 := merged_models set_iter1 existing L) in *.
  set (pc1 := dict_set (u "models") (JObj models1) pc).
  set (provs1 := dict_set P (JObj pc1) provs).
  set (cfg1 := dict_set (u "provider") (JObj provs1) cfg).
  change (updated_document cfg provs pc P models1) with (JObj cfg1) in *.
  rewrite (update_provider_models_run set_iter2 Hperm2 self _ cfg1 provs1 pc1 models1).
  - subst models1. rewrite keys_merged_models by done.
    rewrite difference_diag_L, intersection_idemp_L, size_empty.
    rewrite merged_models_fixed by (done || by apply keys_merged_models).
    rewrite (updated_document_same cfg1 provs1 pc1); subst cfg1 provs1 pc1;
      rewrite ?dict_lookup_set_eq; try done.
    by rewrite insert_insert_eq.
  - by rewrite lookup_insert_eq.
  - subst cfg1. by rewrite dict_lookup_set_eq.
  - subst provs1. by rewrite dict_lookup_set_eq.
  - subst pc1. cbn [py_get]. by rewrite dict_lookup_set_eq.
  - done.
  - done.
Qed.

Lemma update_provider_models_twice_witness :
  let self := {| config_path := [u "home"; u "config.json"] |} in
  let fs : filesystem := {[ [u "home"; u "config.json"] := Content (JObj scenario_document) ]} in
  ∃ r1 fs1,
    update_provider_models elements self (u "provider1") [u "model2"; u "model3"] fs
    = (Ok r1, fs1)
    ∧ update_provider_models reverse_elements self (u "provider1") [u "model2"; u "model3"] fs1
      = (Ok {| added := 0; removed := 0; preserved := 2 |}, fs1).
Proof.
  intros self fs.
  refine (update_provider_models_twice elements reverse_elements self fs scenario_document
            scenario_providers provider1 provider1_models (u "provider1")
            [u "model2"; u "model3"] _ _ _ _ _ _ _ _);
    try reflexivity.
  intros X. unfold reverse_elements. apply reverse_Permutation.
Defined.

Lemma encodable_store_inv fs self :
  encodable_store fs self = true →
  ∃ doc, fs !! config_path self = Some (Content doc) ∧ encodable doc = true.
Proof.
  unfold encodable_store.
  destruct (fs !! config_path self) as [[| |doc]|]; try discriminate. eauto.
Qed.

(** C3, as stated, fails: the file stores a record for m1 under alpha and m1
    is fetched, yet after [update_provider_models] the record is lost: a
    display name with a lone surrogate made the write fail halfway. *)
Lemma update_provider_models_loses_record :
  stored_model (files_of (JObj surrogate_document)) home_store (u "alpha") (u "m1")
  = Some (JObj [(u "name", JStr (u "One"))])
  ∧ u "m1" ∈ [u "m1"]
  ∧ stored_model
      (update_provider_models elements home_store (u "alpha") [u "m1"]
         (files_of (JObj surrogate_document))).2
      home_store (u "alpha") (u "m1")
    = None.
Proof. split; [|split]; [vm_compute; reflexivity | by left | vm_compute; reflexivity]. Qed.

(** C3, amended: when the backing file stores a record [r] for model [M] of
    provider [P], [M] is among the fetched ids, and every string of the
    document and every fetched id can be encoded (none holds a lone
    surrogate), [update_provider_models P L] succeeds and the file still
    stores [r] for [M]: the record is neither deleted nor replaced by
    [{"name": M}]. *)
Theorem update_provider_models_preserves
    (set_iter : gset (list N) → list (list N)) self fs P M r L :
  (∀ X, set_iter X ≡ₚ elements X) →
  stored_model fs self P M = Some r →
  M ∈ L →
  encodable_store fs self = true →
  forallb str_encodable L = true →
  ∃ c fs',
    update_provider_models set_iter self P L fs = (Ok c, fs')
    ∧ stored_model fs' self P M = Some r.
Proof.
  intros Hperm Hst HM Henc HL.
  apply stored_model_Some in Hst as (cfg & provs & pc & existing & Hfs & Hprov & HP & Hms & Hr).
  apply encodable_store_inv in Henc as (doc & Hfs' & Hcfg).
  rewrite Hfs in Hfs'. injection Hfs' as <-.
  eexists _, _. split.
  - apply update_provider_models_run; try done. cbn [py_get]. by rewrite Hms.
  - rewrite stored_model_updated, lookup_merged_models by done.
    rewrite !decide_True; [done | | done].
    apply elem_of_dict_keys. eauto.
Qed.

Lemma update_provider_models_preserves_witness :
  let self := {| config_path := [u "home"; u "config.json"] |} in
  let fs : filesystem := {[ [u "home"; u "config.json"] := Content (JObj scenario_document) ]} in
  ∃ c fs',
    update_provider_models elements self (u "provider1") [u "model2"; u "model3"] fs
    = (Ok c, fs')
    ∧ stored_model fs' self (u "provider1") (u "model2")
      = Some (JObj [(u "name", JStr (u "My favourite")); (u "limit", JInt 4096)]).
Proof.
  intros self fs.
  refine (update_provider_models_preserves elements self fs (u "provider1") (u "model2")
            _ [u "model2"; u "model3"] _ _ _ _ _).
  - reflexivity.
  - reflexivity.
  - left.
  - reflexivity.
  - reflexivity.
Defined.

(** C6: the three classes [update_provider_models] counts (the ids it adds,
    the ids it removes, the ids it keeps) are pairwise disjoint, their union
    is the union of the stored and the fetched ids, each id of that union is
    in exactly one class, and whenever the run returns, the three counts it
    returns are the sizes of the classes and add up to the size of that
    union. The run does return when every string of the document and every
    fetched id can be encoded. *)
Theorem update_provider_models_partition
    (set_iter : gset (list N) → list (list N)) self fs cfg provs pc existing P L :
  (∀ X, set_iter X ≡ₚ elements X) →
  fs !! config_path self = Some (Content (JObj cfg)) →
  dict_lookup (u "provider") cfg = Some (JObj provs) →
  dict_lookup P provs = Some (JObj pc) →
  py_get (JObj pc) (u "models") (JObj []) = Ok (JObj existing) →
  let fetched : gset (list N) := list_to_set L in
  let stored : gset (list N) := list_to_set (dict_keys existing) in
  let to_add := fetched ∖ stored in
  let to_remove := stored ∖ fetched in
  let kept := stored ∩ fetched in
  to_add ∪ to_remove ∪ kept = stored ∪ fetched
  ∧ to_add ## to_remove ∧ to_add ## kept ∧ to_remove ## kept
  ∧ (∀ m, m ∈ stored ∪ fetched →
          ((m ∈ to_add) ∧ (m ∉ to_remove) ∧ (m ∉ kept))
          ∨ ((m ∉ to_add) ∧ (m ∈ to_remove) ∧ (m ∉ kept))
          ∨ ((m ∉ to_add) ∧ (m ∉ to_remove) ∧ (m ∈ kept)))
  ∧ (∀ c fs',
       update_provider_models set_iter self P L fs = (Ok c, fs') →
       added c = size to_add ∧ removed c = size to_remove ∧ preserved c = size kept
       ∧ added c + removed c + preserved c = size (stored ∪ fetched))
  ∧ (encodable (JObj cfg) = true → forallb str_encodable L = true →
     ∃ c fs', update_provider_models set_iter self P L fs = (Ok c, fs')).
Proof.
  intros Hperm Hfs Hprov HP Hmodels fetched stored to_add to_remove kept.
  assert (to_add ## to_remove) as H1 by set_solver.
  assert (to_add ## kept) as H2 by set_solver.
  assert (to_remove ## kept) as H3 by set_solver.
  assert (to_add ∪ to_remove ∪ kept = stored ∪ fetched) as H4.
  { apply set_eq. intros m. subst to_add to_remove kept.
    destruct (decide (m ∈ stored)), (decide (m ∈ fetched)); set_solver. }
  split; [done|]. split; [done|]. split; [done|]. split; [done|].
  split; [|split].
  - intros m Hm. subst to_add to_remove kept.
    destruct (decide (m ∈ stored)), (decide (m ∈ fetched)); set_solver.
  - intros c fs'.
    rewrite (update_provider_models_step set_iter Hperm self fs cfg provs pc existing) by done.
    unfold bind, ret. destruct (save_config self _ fs) as [[[]|e] fs1]; [|discriminate].
    intros [= <- _]. cbn [added removed preserved].
    split; [done|]. split; [done|]. split; [done|].
    rewrite <-H4.
    rewrite (size_union (to_add ∪ to_remove) kept) by set_solver.
    by rewrite (size_union to_add to_remove).
  - intros Hcfg HL. eexists _, _. by apply update_provider_models_run.
Qed.

Lemma update_provider_models_partition_witness :
  let self := {| config_path := [u "home"; u "config.json"] |} in
  let fs : filesystem := {[ [u "home"; u "config.json"] := Content (JObj scenario_document) ]} in
  ∃ c fs',
    update_provider_models elements self (u "provider1") [u "model2"; u "model3"] fs
    = (Ok c, fs')
    ∧ added c + removed c + preserved c = 3.
Proof.
  intros self fs.
  destruct (update_provider_models_partition elements self fs scenario_document
              scenario_providers provider1 provider1_models (u "provider1")
              [u "model2"; u "model3"]) as (_ & _ & _ & _ & _ & Hsum & Hrun);
    try reflexivity.
  destruct Hrun as (c & fs' & Hrun); try reflexivity.
  exists c, fs'. split; [exact Hrun|].
  destruct (Hsum c fs' Hrun) as (_ & _ & _ & ->). vm_compute. reflexivity.
Defined.

(** C10, as stated, fails: for a provider without a "models" entry, a fetched
    id that holds a lone surrogate makes [update_provider_models] raise
    [UnicodeEncodeError] instead of succeeding. *)
Lemma update_provider_models_no_models_unencodable :
  update_provider_models elements home_store (u "bare") [[56320%N]]
    (files_of (JObj bare_document))
  = (Raise UnicodeEncodeError,
     <[config_path home_store := NotJSON]> (files_of (JObj bare_document))).
Proof. vm_compute. reflexivity. Qed.

(** C10, amended: when provider [P] has no "models" entry and every string of
    the document and every fetched id can be encoded (none holds a lone
    surrogate), [update_provider_models P L] succeeds, returns added = the
    number of distinct fetched ids, removed = 0, preserved = 0, and writes
    the document back with a "models" entry appended to [P]'s record, which
    holds [{"name": id}] for each fetched id and nothing else. *)
Theorem update_provider_models_no_models
    (set_iter : gset (list N) → list (list N)) self fs cfg provs pc P L :
  (∀ X, set_iter X ≡ₚ elements X) →
  fs !! config_path self = Some (Content (JObj cfg)) →
  dict_lookup (u "provider") cfg = Some (JObj provs) →
  dict_lookup P provs = Some (JObj pc) →
  dict_lookup (u "models") pc = None →
  encodable (JObj cfg) = true →
  forallb str_encodable L = true →
  ∃ models',
    update_provider_models set_iter self P L fs
    = (Ok {| added := size (list_to_set L : gset (list N)); removed := 0; preserved := 0 |},
       <[config_path self :=
           Content (JObj (dict_set (u "provider")
                      (JObj (dict_set P (JObj (pc ++ [(u "models", JObj models')])) provs))
                      cfg))]> fs)
    ∧ (∀ m, dict_lookup m models'
            = if decide (m ∈ L) then Some (JObj [(u "name", JStr m)]) else None)
    ∧ (∀ m, stored_model
              (<[config_path self :=
                   Content (JObj (dict_set (u "provider")
                      (JObj (dict_set P (JObj (pc ++ [(u "models", JObj models')])) provs))
                      cfg))]> fs) self P m
            = dict_lookup m models').
Proof.
  intros Hperm Hfs Hprov HP Hnone Hcfg HL.
  exists (merged_models set_iter [] L).
  rewrite <-(dict_set_absent (u "models") _ pc) by done.
  split; [|split].
  - rewrite (update_provider_models_run set_iter Hperm self fs cfg provs pc [] P L); try done.
    + cbn [dict_keys fmap list_fmap list_to_set].
      assert ((∅ : gset (list N)) ∖ list_to_set L = ∅) as -> by set_solver.
      assert ((∅ : gset (list N)) ∩ list_to_set L = ∅) as -> by set_solver.
      by rewrite difference_empty_L, size_empty.
    + cbn [py_get]. by rewrite Hnone.
  - intros m. rewrite lookup_merged_models by done.
    case_decide; [|done]. rewrite decide_False; [done|]. apply not_elem_of_nil.
  - intros m. apply stored_model_updated.
Qed.

Lemma update_provider_models_no_models_witness :
  let self := {| config_path := [u "home"; u "config.json"] |} in
  let fs : filesystem := {[ [u "home"; u "config.json"] := Content (JObj bare_document) ]} in
  ∃ c fs',
    update_provider_models elements self (u "bare") [u "m1"; u "m2"; u "m1"] fs = (Ok c, fs')
    ∧ added c = 2 ∧ removed c = 0 ∧ preserved c = 0
    ∧ stored_model fs' self (u "bare") (u "m2") = Some (JObj [(u "name", JStr (u "m2"))]).
Proof.
  intros self fs.
  destruct (update_provider_models_no_models elements self fs bare_document bare_providers
              bare_provider (u "bare") [u "m1"; u "m2"; u "m1"])
    as (models' & Hrun & Hlookup & Hstored); try reflexivity.
  eexists _, _. split; [exact Hrun|].
  repeat split; try (vm_compute; reflexivity).
  rewrite Hstored, Hlookup. reflexivity.
Defined.

(** ** Deleting a model *)

Lemma delete_model_loop M items acc found :
  forallb (λ kv, wf_provider kv.2) items = true →
  for_each items (delete_model_body M) (acc, found)
  = Ok (acc ++ ((λ kv, (kv.1, without_model M kv.2)) <$> items),
        found || existsb (λ kv, has_model M kv.2) items).
Proof.
  revert acc found. induction items as [|[p j] items IH]; intros acc found Hwf.
  - cbn. by rewrite app_nil_r, orb_false_r.
  - cbn [forallb snd] in Hwf. apply andb_true_iff in Hwf as [Hj Hwf].
    cbn [for_each fmap list_fmap existsb fst snd].
    unfold delete_model_body at 1. cbn [fst snd].
    destruct j as [| | | | | |pc]; try discriminate.
    cbn [wf_provider has_model without_model py_get rbind] in *.
    destruct (dict_lookup (u "models") pc) as [ms|] eqn:Hms.
    + destruct ms as [| | | | | |ms]; try discriminate.
      cbn [default from_option id py_contains rbind].
      destruct (dict_mem M ms) eqn:HM.
      * cbn [py_delitem]. rewrite HM. cbn [rbind py_setitem].
        rewrite IH by done. rewrite <-app_assoc. cbn. by rewrite orb_true_r.
      * cbn [rbind]. rewrite IH by done. rewrite <-app_assoc. done.
    + cbn [default from_option id py_contains rbind].
      assert (dict_mem M ([] : list (pystr * json)) = false) as -> by done.
      cbn [rbind]. rewrite IH by done. rewrite <-app_assoc. done.
Qed.

Section dict_values.
Context {V : Type}.
Implicit Types (k : pystr) (v : V) (d : list (pystr * V)).

Lemma dict_lookup_fmap_values (g : V → V) k d :
  dict_lookup k ((λ kv, (kv.1, g kv.2)) <$> d) = g <$> dict_lookup k d.
Proof.
  induction d as [|[k0 v0] d IH]; [done|].
  cbn [fmap list_fmap dict_lookup fst snd]. by case_decide.
Qed.

Lemma dict_lookup_elem_of k v d : dict_lookup k d = Some v → (k, v) ∈ d.
Proof.
  induction d as [|[k0 v0] d IH]; [done|]. cbn [dict_lookup].
  case_decide as Hk.
  - intros [= ->]. subst. by left.
  - intros Hl. right. by apply IH.
Qed.

Lemma dict_lookup_NoDup k v d :
  NoDup (dict_keys d) → (k, v) ∈ d → dict_lookup k d = Some v.
Proof.
  unfold dict_keys. induction d as [|[k0 v0] d IH]; [by intros _ ?%elem_of_nil|].
  cbn [fmap list_fmap dict_lookup fst]. intros [Hk0 Hnd]%NoDup_cons Hin.
  apply elem_of_cons in Hin as [[= -> ->]|Hin].
  - by rewrite decide_True.
  - rewrite decide_False; [by apply IH|].
    intros ->. apply Hk0. apply list_elem_of_fmap. by exists (k, v).
Qed.
End dict_values.

Lemma existsb_elem_of {A} (f : A → bool) (l : list A) :
  existsb f l = true ↔ ∃ x, x ∈ l ∧ f x = true.
Proof.
  rewrite existsb_exists. by setoid_rewrite list_elem_of_In.
Qed.

Lemma has_model_stored fs self cfg provs p j M :
  fs !! config_path self = Some (Content (JObj cfg)) →
  dict_lookup (u "provider") cfg = Some (JObj provs) →
  dict_lookup p provs = Some j →
  has_model M j = bool_decide (is_Some (stored_model fs self p M)).
Proof.
  intros Hfs Hprov Hp. unfold stored_model. rewrite Hfs, Hprov, Hp.
  destruct j as [| | | | | |pc]; cbn [has_model];
    try (symmetry; apply bool_decide_eq_false; by intros [? ?]).
  destruct (dict_lookup (u "models") pc) as [ms|];
    [|symmetry; apply bool_decide_eq_false; by intros [? ?]].
  destruct ms; try (symmetry; apply bool_decide_eq_false; by intros [? ?]).
  done.
Qed.

(** What [delete_model] does on a document with a well-formed provider
    section, up to the write. *)
Lemma delete_model_step self fs cfg provs M :
  fs !! config_path self = Some (Content (JObj cfg)) →
  dict_lookup (u "provider") cfg = Some (JObj provs) →
  forallb (λ kv, wf_provider kv.2) provs = true →
  delete_model self M fs
  = if existsb (λ kv, has_model M kv.2) provs
    then save_config self
           (JObj (dict_set (u "provider")
                    (JObj ((λ kv, (kv.1, without_model M kv.2)) <$> provs)) cfg)) fs
    else (Raise (ValueError (u "Model '" ++ M ++ u "' not found in any provider")), fs).
Proof.
  intros Hfs Hprov Hwf.
  unfold delete_model, bind, load_config, lift. rewrite Hfs.
  cbn [py_get]. rewrite Hprov. cbn [default from_option id py_items].
  rewrite delete_model_loop by done. cbn [fst snd orb app].
  destruct (existsb _ provs); [|done]. cbn [negb py_setitem].
  by destruct (save_config self _ fs) as [[[]|e] fs1].
Qed.

Lemma encodable_without_model M j : encodable j = true → encodable (without_model M j) = true.
Proof.
  intros Hj. destruct j as [| | | | | |pc]; try done. cbn [without_model].
  destruct (dict_lookup (u "models") pc) as [ms|] eqn:Hms; [|done].
  destruct ms as [| | | | | |ms]; try done.
  destruct (dict_mem M ms); [|done].
  destruct (encodable_obj_lookup _ _ _ Hj Hms) as [_ Hmse].
  apply encodable_obj_set; [done..|]. by apply encodable_obj_del.
Qed.

Lemma encodable_without cfg provs M :
  encodable (JObj cfg) = true →
  dict_lookup (u "provider") cfg = Some (JObj provs) →
  encodable (JObj (dict_set (u "provider")
              (JObj ((λ kv, (kv.1, without_model M kv.2)) <$> provs)) cfg)) = true.
Proof.
  intros Hcfg Hprov. destruct (encodable_obj_lookup _ _ _ Hcfg Hprov) as [_ Hprovs].
  apply encodable_obj_set; [done..|]. clear -Hprovs.
  induction provs as [|[p j] provs IH]; [done|].
  rewrite encodable_obj_cons in Hprovs.
  apply andb_true_iff in Hprovs as [[Hp Hj]%andb_true_iff Hprovs].
  cbn [fmap list_fmap fst snd]. rewrite encodable_obj_cons.
  rewrite Hp, encodable_without_model by done. by apply IH.
Qed.

(** What [delete_model] does on a document with a well-formed provider
    section, all of whose strings can be encoded. *)
Lemma delete_model_run self fs cfg provs M :
  fs !! config_path self = Some (Content (JObj cfg)) →
  dict_lookup (u "provider") cfg = Some (JObj provs) →
  forallb (λ kv, wf_provider kv.2) provs = true →
  encodable (JObj cfg) = true →
  delete_model self M fs
  = if existsb (λ kv, has_model M kv.2) provs
    then (Ok tt,
          <[config_path self :=
              Content (JObj (dict_set (u "provider")
                         (JObj ((λ kv, (kv.1, without_model M kv.2)) <$> provs)) cfg))]> fs)
    else (Raise (ValueError (u "Model '" ++ M ++ u "' not found in any provider")), fs).
Proof.
  intros Hfs Hprov Hwf Hcfg. rewrite (delete_model_step self fs cfg provs) by done.
  destruct (existsb _ provs); [|done].
  apply save_config_encodable. by apply encodable_without.
Qed.

(** Without a provider section the loop has nothing to visit. *)
Lemma delete_model_no_section self fs cfg M :
  fs !! config_path self = Some (Content (JObj cfg)) →
  dict_lookup (u "provider") cfg = None →
  delete_model self M fs
  = (Raise (ValueError (u "Model '" ++ M ++ u "' not found in any provider")), fs).
Proof.
  intros Hfs Hprov.
  unfold delete_model, bind, load_config, lift. rewrite Hfs.
  cbn [py_get]. rewrite Hprov. done.
Qed.

Lemma stored_model_without fs self cfg provs M p m :
  fs !! config_path self = Some (Content (JObj cfg)) →
  dict_lookup (u "provider") cfg = Some (JObj provs) →
  stored_model
    (<[config_path self :=
         Content (JObj (dict_set (u "provider")
                    (JObj ((λ kv, (kv.1, without_model M kv.2)) <$> provs)) cfg))]> fs)
    self p m
  = if decide (m = M) then None else stored_model fs self p m.
Proof.
  intros Hfs Hprov. unfold stored_model.
  rewrite lookup_insert_eq, Hfs, dict_lookup_set_eq, Hprov, dict_lookup_fmap_values.
  destruct (dict_lookup p provs) as [j|]; cbn [fmap option_fmap option_map];
    [|by case_decide].
  destruct j as [| | | | | |pc]; cbn [without_model]; try by case_decide.
  destruct (dict_lookup (u "models") pc) as [ms|] eqn:Hms; [|rewrite Hms; by case_decide].
  destruct ms as [| | | | | |ms]; try (rewrite Hms; by case_decide).
  destruct (dict_mem M ms) eqn:HM.
  - rewrite dict_lookup_set_eq, dict_lookup_del.
    destruct (decide (m = M)) as [->|Hne].
    + by rewrite decide_True.
    + by rewrite decide_False.
  - rewrite Hms. apply dict_mem_false in HM. case_decide; by subst.
Qed.

(** C4, as stated, fails: the document is well formed and m1 is stored under
    alpha, yet [delete_model] raises [UnicodeEncodeError] and leaves text
    that [json.load] rejects instead of persisting the result: a display name
    holds a lone surrogate. *)
Lemma delete_model_unencodable :
  wf_document surrogate_document = true
  ∧ is_Some (stored_model (files_of (JObj surrogate_document)) home_store (u "alpha") (u "m1"))
  ∧ delete_model home_store (u "m1") (files_of (JObj surrogate_document))
    = (Raise UnicodeEncodeError,
       <[config_path home_store := NotJSON]> (files_of (JObj surrogate_document))).
Proof.
  split; [reflexivity|]. split; [vm_compute; eauto|]. vm_compute. reflexivity.
Qed.

(** C4, amended: on a well-formed document, when some provider's model map
    has [M] and every string of the document can be encoded (none holds a
    lone surrogate), [delete_model M] succeeds and writes the document back
    with [M] taken out of the model map of every provider and nothing else
    changed; when no provider's model map has [M], it raises the "not found
    in any provider" [ValueError] and leaves every file as it was. *)
Theorem delete_model_everywhere self fs cfg M :
  fs !! config_path self = Some (Content (JObj cfg)) →
  wf_document cfg = true →
  ((∃ p, is_Some (stored_model fs self p M)) →
   encodable (JObj cfg) = true →
     ∃ provs fs',
       dict_lookup (u "provider") cfg = Some (JObj provs)
       ∧ delete_model self M fs = (Ok tt, fs')
       ∧ fs' = <[config_path self :=
                   Content (JObj (dict_set (u "provider")
                      (JObj ((λ kv, (kv.1, without_model M kv.2)) <$> provs)) cfg))]> fs
       ∧ ∀ p m, stored_model fs' self p m
                = if decide (m = M) then None else stored_model fs self p m)
  ∧ ((∀ p, stored_model fs self p M = None) →
     delete_model self M fs
     = (Raise (ValueError (u "Model '" ++ M ++ u "' not found in any provider")), fs)).
Proof.
  intros Hfs Hwf. unfold wf_document in Hwf.
  destruct (dict_lookup (u "provider") cfg) as [j|] eqn:Hprov.
  - destruct j as [| | | | | |provs]; try discriminate.
    apply andb_true_iff in Hwf as [Hnd%bool_decide_eq_true Hwf].
    split.
    + intros [p Hp] Hcfg. exists provs. eexists. split; [done|].
      pose proof (delete_model_run self fs cfg provs M Hfs Hprov Hwf Hcfg) as Hrun.
      assert (existsb (λ kv, has_model M kv.2) provs = true) as Hex.
      { apply existsb_elem_of.
        destruct Hp as [r Hr]. pose proof Hr as Hr'.
        apply stored_model_Some in Hr' as (cfg' & provs' & pc & ms & Hfs' & Hprov' & HP & _).
        rewrite Hfs in Hfs'. injection Hfs' as <-.
        rewrite Hprov in Hprov'. injection Hprov' as <-.
        exists (p, JObj pc). split; [by apply dict_lookup_elem_of|]. cbn [snd].
        rewrite (has_model_stored fs self cfg provs p (JObj pc) M) by done.
        apply bool_decide_eq_true. by rewrite Hr. }
      rewrite Hex in Hrun. split; [exact Hrun|]. split; [done|].
      intros p' m. by apply (stored_model_without fs self cfg provs).
    + intros Hnone.
      pose proof (delete_model_step self fs cfg provs M Hfs Hprov Hwf) as Hrun.
      assert (existsb (λ kv, has_model M kv.2) provs = false) as Hex.
      { apply not_true_is_false. intros ([p j] & Hin & Hhas)%existsb_elem_of.
        cbn [snd] in Hhas.
        rewrite (has_model_stored fs self cfg provs p j M) in Hhas;
          [|done|done|by apply dict_lookup_NoDup].
        apply bool_decide_eq_true in Hhas. rewrite Hnone in Hhas. by destruct Hhas. }
      by rewrite Hex in Hrun.
  - split.
    + intros [p [r Hr]]. apply stored_model_Some in Hr as (cfg' & ? & ? & ? & Hfs' & Hprov' & _).
      rewrite Hfs in Hfs'. injection Hfs' as <-. congruence.
    + intros _. by apply (delete_model_no_section self fs cfg).
Qed.

Lemma delete_model_everywhere_witness :
  let self := {| config_path := [u "home"; u "config.json"] |} in
  let fs : filesystem := {[ [u "home"; u "config.json"] := Content (JObj shared_document) ]} in
  (∃ fs', delete_model self (u "shared") fs = (Ok tt, fs')
          ∧ stored_model fs' self (u "alpha") (u "shared") = None
          ∧ stored_model fs' self (u "beta") (u "shared") = None
          ∧ stored_model fs' self (u "alpha") (u "only-a")
            = Some (JObj [(u "name", JStr (u "Only A"))]))
  ∧ delete_model self (u "absent") fs
    = (Raise (ValueError (u "Model 'absent' not found in any provider")), fs).
Proof.
  intros self fs.
  destruct (delete_model_everywhere self fs shared_document (u "shared"))
    as [Hfound _]; [reflexivity | reflexivity |].
  destruct (delete_model_everywhere self fs shared_document (u "absent"))
    as [_ Hmissing]; [reflexivity | reflexivity |].
  split.
  - destruct Hfound as (provs & fs' & _ & Hrun & _ & Hst).
    { exists (u "beta"). vm_compute. eauto. }
    { reflexivity. }
    exists fs'. split; [exact Hrun|]. rewrite !Hst. repeat split; reflexivity.
  - apply Hmissing. intros p. unfold stored_model.
    change (fs !! config_path self) with (Some (Content (JObj shared_document))).
    cbn [shared_document dict_lookup]. rewrite decide_True by reflexivity.
    unfold shared_providers. cbn [dict_lookup].
    repeat (case_decide; [reflexivity|]). reflexivity.
Defined.

(** ** Queries *)

Lemma get_all_models_loop items acc :
  forallb (λ kv, wf_provider kv.2) items = true →
  for_each items get_all_models_body acc
  = Ok (foldl (λ acc kv, dict_set kv.1 (model_ids kv.2) acc) acc items).
Proof.
  revert acc. induction items as [|[p j] items IH]; intros acc Hwf; [done|].
  cbn [forallb snd] in Hwf. apply andb_true_iff in Hwf as [Hj Hwf].
  cbn [for_each foldl]. unfold get_all_models_body at 1. cbn [fst snd].
  destruct j as [| | | | | |pc]; try discriminate.
  cbn [wf_provider model_ids py_get rbind] in *.
  destruct (dict_lookup (u "models") pc) as [ms|].
  - destruct ms as [| | | | | |ms]; try discriminate.
    cbn [default from_option id py_keys rbind]. by apply IH.
  - cbn [default from_option id py_keys rbind]. by apply IH.
Qed.

Lemma lookup_get_all_models_loop items acc p :
  NoDup (dict_keys items) →
  dict_lookup p (foldl (λ acc kv, dict_set kv.1 (model_ids kv.2) acc) acc items)
  = match dict_lookup p items with
    | Some j => Some (model_ids j)
    | None => dict_lookup p acc
    end.
Proof.
  unfold dict_keys. revert acc.
  induction items as [|[k j] items IH]; intros acc Hnd; [done|].
  cbn [fmap list_fmap fst] in Hnd. apply NoDup_cons in Hnd as [Hk Hnd].
  cbn [foldl dict_lookup fst snd]. rewrite IH by done.
  rewrite dict_lookup_set. destruct (decide (k = p)) as [->|Hne]; [|done].
  destruct (dict_lookup p items) as [j'|] eqn:Hl; [|done].
  exfalso. apply Hk. apply (elem_of_dict_keys p items). eauto.
Qed.

(** The queries only read the file. *)
Lemma load_config_Ok_inv self fs config fs1 :
  load_config self fs = (Ok config, fs1) →
  fs1 = fs ∧ fs !! config_path self = Some (Content config).
Proof.
  unfold load_config. destruct (fs !! config_path self) as [[| |doc]|]; [done|done| |done].
  by intros [= -> ->].
Qed.

Lemma get_all_models_Ok_inv self fs r fs1 :
  get_all_models self fs = (Ok r, fs1) →
  fs1 = fs ∧ ∃ cfg, fs !! config_path self = Some (Content (JObj cfg)).
Proof.
  unfold get_all_models, get_providers, bind, lift.
  destruct (load_config self fs) as [[config|e] fs0] eqn:Hload; [|done].
  apply load_config_Ok_inv in Hload as [-> Hfs].
  destruct config as [| | | | | |cfg]; try done.
  cbn [py_get]. destruct (py_items _); [|done].
  intros [= _ <-]. eauto.
Qed.

Lemma validate_provider_model_Ok_inv self p m fs b fs1 :
  validate_provider_model self p m fs = (Ok b, fs1) →
  fs1 = fs
  ∧ (∃ cfg, fs !! config_path self = Some (Content (JObj cfg)))
  ∧ ∃ r, get_all_models self fs = (Ok r, fs).
Proof.
  unfold validate_provider_model, bind.
  destruct (get_all_models self fs) as [[r|e] fs0] eqn:Hall; [|done].
  apply get_all_models_Ok_inv in Hall as [-> Hcfg].
  unfold ret. intros [= _ <-]. eauto.
Qed.

(** On a well-formed document the validation says whether the file stores
    model [m] under provider [p]. *)
Lemma validate_provider_model_run self fs cfg p m :
  fs !! config_path self = Some (Content (JObj cfg)) →
  wf_document cfg = true →
  validate_provider_model self p m fs
  = (Ok (bool_decide (is_Some (stored_model fs self p m))), fs).
Proof.
  intros Hfs Hwf.
  unfold validate_provider_model, get_all_models, get_providers, bind, load_config, lift, ret.
  unfold stored_model. rewrite Hfs. cbn [py_get]. unfold wf_document in Hwf.
  assert (∀ b1 b2 : bool, b1 = b2 → (Ok b1, fs) = (Ok b2, fs)) as Hcong
    by (by intros ?? ->).
  destruct (dict_lookup (u "provider") cfg) as [j|].
  - destruct j as [| | | | | |provs]; try discriminate.
    apply andb_true_iff in Hwf as [Hnd%bool_decide_eq_true Hwf].
    cbn [default from_option id py_items].
    rewrite get_all_models_loop by done.
    rewrite lookup_get_all_models_loop by done.
    apply Hcong, bool_decide_ext.
    destruct (dict_lookup p provs) as [j|]; cbn [dict_lookup default from_option id].
    + destruct j as [| | | | | |pc]; cbn [model_ids];
        try (rewrite elem_of_nil; split; [done | by intros [? ?]]).
      destruct (dict_lookup (u "models") pc) as [ms|];
        [|rewrite elem_of_nil; split; [done | by intros [? ?]]].
      destruct ms; try (rewrite elem_of_nil; split; [done | by intros [? ?]]).
      apply elem_of_dict_keys.
    + rewrite elem_of_nil; split; [done | by intros [? ?]].
  - cbn [default from_option id py_items for_each dict_lookup].
    apply Hcong, bool_decide_ext.
    rewrite elem_of_nil; split; [done | by intros [? ?]].
Qed.

(** C8: on a document without a "provider" entry, [get_all_models] returns
    the empty mapping, [get_providers] returns the empty mapping and
    [validate_provider_model] returns [False] for every pair; none raises and
    none touches a file. *)
Theorem queries_without_provider_section self fs cfg :
  fs !! config_path self = Some (Content (JObj cfg)) →
  dict_lookup (u "provider") cfg = None →
  get_all_models self fs = (Ok [], fs)
  ∧ get_providers self fs = (Ok (JObj []), fs)
  ∧ ∀ p m, validate_provider_model self p m fs = (Ok false, fs).
Proof.
  intros Hfs Hprov.
  assert (get_providers self fs = (Ok (JObj []), fs)) as Hget.
  { unfold get_providers, bind, load_config, lift. rewrite Hfs. cbn [py_get].
    by rewrite Hprov. }
  assert (get_all_models self fs = (Ok [], fs)) as Hall.
  { unfold get_all_models, bind. rewrite Hget. done. }
  repeat split; try done.
  intros p m. unfold validate_provider_model, bind. rewrite Hall. done.
Qed.

Lemma queries_without_provider_section_witness :
  let self := {| config_path := [u "home"; u "config.json"] |} in
  let fs : filesystem := {[ [u "home"; u "config.json"] := Content (JObj []) ]} in
  get_all_models self fs = (Ok [], fs)
  ∧ get_providers self fs = (Ok (JObj []), fs)
  ∧ ∀ p m, validate_provider_model self p m fs = (Ok false, fs).
Proof.
  intros self fs.
  apply (queries_without_provider_section self fs []); reflexivity.
Defined.

(** ** Strings: [in], [split] and [strip] *)

Lemma split_at_first_contains sep s a b :
  split_at_first sep s = Some (a, b) → str_contains sep s = true.
Proof.
  revert a. induction s as [|c s IH]; intros a; cbn [split_at_first str_contains].
  - destruct (startswith sep []); [intros _; reflexivity | discriminate].
  - destruct (startswith sep (c :: s)); [intros _; reflexivity |].
    destruct (split_at_first sep s) as [[a' b']|]; [|discriminate].
    intros [= <- <-]. cbn [orb]. by apply (IH a').
Qed.

Lemma not_contains_split_at_first sep s :
  str_contains sep s = false → split_at_first sep s = None.
Proof.
  induction s as [|c s IH]; cbn [split_at_first str_contains].
  - by destruct (startswith sep []).
  - destruct (startswith sep (c :: s)); [done|]. cbn [orb].
    intros Hs. by rewrite IH.
Qed.

(** The cut is at the first separator: what precedes it holds none. *)
Lemma split_at_first_char c l r :
  c ∉ l → split_at_first [c] (l ++ c :: r) = Some (l, r).
Proof.
  induction l as [|x l IH]; intros Hc.
  - cbn. rewrite bool_decide_eq_true_2 by done. cbn. by rewrite drop_0.
  - apply not_elem_of_cons in Hc as [Hx Hc].
    cbn [app split_at_first startswith].
    rewrite bool_decide_eq_false_2 by done. cbn [andb]. by rewrite IH.
Qed.

Lemma split_at_first_char_inv c s a b :
  split_at_first [c] s = Some (a, b) → s = a ++ c :: b ∧ c ∉ a.
Proof.
  revert a. induction s as [|x s IH]; intros a; cbn [split_at_first startswith].
  - discriminate.
  - destruct (decide (c = x)) as [->|Hne].
    + rewrite bool_decide_eq_true_2 by done. cbn. rewrite drop_0.
      intros [= <- <-]. split; [done | apply not_elem_of_nil].
    + rewrite bool_decide_eq_false_2 by done. cbn [andb].
      destruct (split_at_first [c] s) as [[a' b']|]; [|discriminate].
      intros [= <- <-]. destruct (IH a' eq_refl) as [-> Ha'].
      split; [done|]. by apply not_elem_of_cons.
Qed.

Lemma lstrip_app s t :
  lstrip (s ++ t) = if forallb isspace s then lstrip t else lstrip s ++ t.
Proof.
  induction s as [|c s IH]; [done|]. cbn [app lstrip forallb].
  by destruct (isspace c).
Qed.

Lemma lstrip_spaces ws : forallb isspace ws = true → lstrip ws = [].
Proof.
  induction ws as [|c ws IH]; [done|]. cbn [forallb lstrip].
  destruct (isspace c); [done|discriminate].
Qed.

Lemma forallb_reverse {A} (f : A → bool) l : forallb f (reverse l) = forallb f l.
Proof.
  induction l as [|x l IH]; [done|].
  rewrite reverse_cons, forallb_app, IH. cbn. by rewrite andb_true_r, andb_comm.
Qed.

Lemma rstrip_app_spaces s ws : forallb isspace ws = true → rstrip (s ++ ws) = rstrip s.
Proof.
  intros Hws. unfold rstrip. rewrite reverse_app, lstrip_app.
  by rewrite forallb_reverse, Hws.
Qed.

(** White space around a string does not change what [strip] returns. *)
Lemma strip_surrounded ws1 s ws2 :
  forallb isspace ws1 = true → forallb isspace ws2 = true →
  strip (ws1 ++ s ++ ws2) = strip s.
Proof.
  intros H1 H2. unfold strip. rewrite lstrip_app, H1, lstrip_app.
  destruct (forallb isspace s) eqn:Hs.
  - by rewrite (lstrip_spaces ws2), (lstrip_spaces s).
  - by apply rstrip_app_spaces.
Qed.

(** [strip] removes white space only, and only at the two ends. *)
Lemma lstrip_decompose s :
  ∃ ws, s = ws ++ lstrip s ∧ forallb isspace ws = true.
Proof.
  induction s as [|c s (ws & Hs & Hws)]; [by exists []|]. cbn [lstrip].
  destruct (isspace c) eqn:Hc.
  - exists (c :: ws). cbn [forallb app]. rewrite Hc, Hws. by rewrite <-Hs.
  - by exists [].
Qed.

Lemma strip_decompose s :
  ∃ ws1 ws2, s = ws1 ++ strip s ++ ws2
             ∧ forallb isspace ws1 = true ∧ forallb isspace ws2 = true.
Proof.
  destruct (lstrip_decompose s) as (ws1 & Hs & H1).
  destruct (lstrip_decompose (reverse (lstrip s))) as (ws2 & Hr & H2).
  exists ws1, (reverse ws2). unfold strip, rstrip.
  rewrite forallb_reverse. repeat split; try done.
  rewrite <-reverse_app, <-Hr, reverse_involutive. done.
Qed.

Lemma lstrip_head s c s' : lstrip s = c :: s' → isspace c = false.
Proof.
  induction s as [|x s IH]; [done|]. cbn [lstrip].
  destruct (isspace x) eqn:Hx; [done|]. by intros [= <- _].
Qed.

Lemma lstrip_idemp s : lstrip (lstrip s) = lstrip s.
Proof.
  destruct (lstrip s) as [|c s'] eqn:Hs; [done|].
  cbn [lstrip]. by rewrite (lstrip_head s c s').
Qed.

Lemma strip_head s c s' : strip s = c :: s' → isspace c = false.
Proof.
  unfold strip, rstrip. intros Hs.
  destruct (lstrip_decompose (reverse (lstrip s))) as (ws & Hr & Hws).
  apply (f_equal reverse) in Hr. rewrite reverse_involutive, reverse_app, Hs in Hr.
  destruct (lstrip s) as [|x t] eqn:Hl.
  - by destruct (reverse ws).
  - cbn in Hr. injection Hr as -> _. by apply (lstrip_head s c t).
Qed.

Lemma strip_last s c s' : strip s = s' ++ [c] → isspace c = false.
Proof.
  unfold strip, rstrip. intros Hs.
  apply (f_equal reverse) in Hs. rewrite reverse_involutive, reverse_app in Hs.
  by apply lstrip_head in Hs.
Qed.

(** ** Changing the selected model *)

Lemma get_all_models_readonly self fs : (get_all_models self fs).2 = fs.
Proof.
  unfold get_all_models, get_providers, bind, load_config, lift.
  destruct (fs !! config_path self) as [[| |doc]|]; try done.
  destruct (py_get doc _ _); [|done]. by destruct (py_items _).
Qed.

Lemma validate_provider_model_readonly self p m fs :
  (validate_provider_model self p m fs).2 = fs.
Proof.
  unfold validate_provider_model, bind.
  pose proof (get_all_models_readonly self fs) as Hro.
  destruct (get_all_models self fs) as [[r|e] fs0]; cbn [snd] in Hro; by subst.
Qed.


(** Once the value is cut at its first "/", [change_model] is the validation
    of the two stripped parts followed by the update. *)
Lemma change_model_parsed self mv a b fs :
  split_at_first (u "/") mv = Some (a, b) →
  change_model self mv fs
  = try_except_FileNotFoundError
      (valid <- validate_provider_model self (strip a) (strip b) ;;
       if negb valid then
         _ <- list_models self ;;
         raise (SystemExit 1)
       else update_model self (strip a ++ u "/" ++ strip b))%io
      (raise (SystemExit 1)) fs.
Proof.
  intros Hsplit. unfold change_model.
  rewrite (split_at_first_contains _ _ a b Hsplit). cbn [negb].
  unfold split1. rewrite Hsplit. unfold try_except_FileNotFoundError.
  unfold bind at 1. unfold lift at 1. cbn [py_index lookup list_lookup].
  unfold bind at 1. unfold lift at 1. cbn [py_index lookup list_lookup].
  done.
Qed.

Lemma change_model_rejected self mv a b fs :
  split_at_first (u "/") mv = Some (a, b) →
  validate_provider_model self (strip a) (strip b) fs = (Ok false, fs) →
  change_model self mv fs = (Raise (SystemExit 1), fs).
Proof.
  intros Hsplit Hval. rewrite (change_model_parsed self mv a b) by done.
  apply validate_provider_model_Ok_inv in Hval as Hinv.
  destruct Hinv as (_ & _ & r & Hall).
  unfold try_except_FileNotFoundError, bind at 1. rewrite Hval. cbn [negb].
  unfold bind, list_models, bind. by rewrite Hall.
Qed.

(** After a successful validation [change_model] is the write of the
    document with the normalized selection. *)
Lemma change_model_accepted self mv a b fs :
  split_at_first (u "/") mv = Some (a, b) →
  validate_provider_model self (strip a) (strip b) fs = (Ok true, fs) →
  ∃ cfg,
    fs !! config_path self = Some (Content (JObj cfg))
    ∧ change_model self mv fs
      = save_config self
          (JObj (dict_set (u "model") (JStr (strip a ++ u "/" ++ strip b)) cfg)) fs.
Proof.
  intros Hsplit Hval. rewrite (change_model_parsed self mv a b) by done.
  apply validate_provider_model_Ok_inv in Hval as Hinv.
  destruct Hinv as (_ & (cfg & Hfs) & _). exists cfg. split; [done|].
  unfold try_except_FileNotFoundError, bind at 1. rewrite Hval. cbn [negb].
  unfold update_model, bind, load_config, lift. rewrite Hfs. cbn [py_setitem].
  unfold save_config. by destruct (encodable _).
Qed.

Lemma encodable_selection cfg p m :
  encodable (JObj cfg) = true → str_encodable p = true → str_encodable m = true →
  encodable (JObj (dict_set (u "model") (JStr (p ++ u "/" ++ m)) cfg)) = true.
Proof.
  intros Hcfg Hp Hm. apply encodable_obj_set; [done..|]. cbn [encodable].
  by rewrite !str_encodable_app, Hp, Hm.
Qed.




Lemma split_at_first_None sep s :
  split_at_first sep s = None → str_contains sep s = false.
Proof.
  induction s as [|c s IH]; cbn [split_at_first str_contains].
  - by destruct (startswith sep []).
  - destruct (startswith sep (c :: s)); [discriminate|].
    destruct (split_at_first sep s) as [[a b]|]; [discriminate|].
    cbn [orb]. intros _. by apply IH.
Qed.

(** [change_model] returns normally only after a successful validation and a
    successful write of the document with the normalized selection. *)
Lemma change_model_Ok_inv self mv fs x fs' :
  change_model self mv fs = (Ok x, fs') →
  ∃ a b cfg,
    split_at_first (u "/") mv = Some (a, b)
    ∧ validate_provider_model self (strip a) (strip b) fs = (Ok true, fs)
    ∧ fs !! config_path self = Some (Content (JObj cfg))
    ∧ encodable (JObj (dict_set (u "model") (JStr (strip a ++ u "/" ++ strip b)) cfg)) = true
    ∧ fs' = <[config_path self :=
                Content (JObj (dict_set (u "model")
                           (JStr (strip a ++ u "/" ++ strip b)) cfg))]> fs.
Proof.
  intros Hrun.
  destruct (split_at_first (u "/") mv) as [[a b]|] eqn:Hsplit.
  - exists a, b.
    pose proof (validate_provider_model_readonly self (strip a) (strip b) fs) as Hro.
    destruct (validate_provider_model self (strip a) (strip b) fs) as [[[|]|e] fs0] eqn:Hval;
      cbn [snd] in Hro; subst fs0.
    + destruct (change_model_accepted self mv a b fs Hsplit Hval) as (cfg & Hfs & Heq).
      rewrite Heq in Hrun. destruct x.
      apply save_config_Ok_inv in Hrun as [He ->]. by exists cfg.
    + by rewrite (change_model_rejected self mv a b) in Hrun.
    + rewrite (change_model_parsed self mv a b) in Hrun by done.
      unfold try_except_FileNotFoundError, bind at 1 in Hrun. rewrite Hval in Hrun.
      by destruct e.
  - exfalso. unfold change_model in Hrun.
    rewrite (split_at_first_None _ _ Hsplit) in Hrun. cbn [negb] in Hrun.
    unfold try_except_FileNotFoundError, bind in Hrun.
    destruct (list_models self fs) as [[[]|e] fs0]; [done|]. by destruct e.
Qed.

(** C9: the values [change_model] accepts are those with a "/" whose pair
    validates and for which the write succeeds, which it does when every
    string of the document and both parts can be encoded; whenever it accepts
    a value, what it stores is the string made of the stripped part before
    the first "/", a "/", and the stripped part after it. The cut is at the
    first "/" only, so white space around either part does not change what
    [change_model] does, and the stored model part may hold a "/" itself. *)
Theorem change_model_normalises self fs :
  (∀ mv fs',
     change_model self mv fs = (Ok tt, fs') →
     ∃ a b cfg,
       split_at_first (u "/") mv = Some (a, b)
       ∧ validate_provider_model self (strip a) (strip b) fs = (Ok true, fs)
       ∧ fs !! config_path self = Some (Content (JObj cfg))
       ∧ fs' = <[config_path self :=
                   Content (JObj (dict_set (u "model")
                              (JStr (strip a ++ u "/" ++ strip b)) cfg))]> fs)
  ∧ (∀ mv a b cfg,
       split_at_first (u "/") mv = Some (a, b) →
       validate_provider_model self (strip a) (strip b) fs = (Ok true, fs) →
       fs !! config_path self = Some (Content (JObj cfg)) →
       encodable (JObj cfg) = true →
       str_encodable (strip a) = true →
       str_encodable (strip b) = true →
       change_model self mv fs
       = (Ok tt,
          <[config_path self :=
              Content (JObj (dict_set (u "model")
                         (JStr (strip a ++ u "/" ++ strip b)) cfg))]> fs))
  ∧ (∀ l r, 47%N ∉ l → split_at_first (u "/") (l ++ u "/" ++ r) = Some (l, r))
  ∧ (∀ p m ws1 ws2 ws3 ws4,
       forallb isspace ws1 = true → forallb isspace ws2 = true →
       forallb isspace ws3 = true → forallb isspace ws4 = true →
       47%N ∉ p →
       change_model self ((ws1 ++ p ++ ws2) ++ u "/" ++ (ws3 ++ m ++ ws4)) fs
       = change_model self (p ++ u "/" ++ m) fs)
  ∧ (fs !! config_path self = Some (Content (JObj hub_document)) →
     change_model self (u " hub / org/model ") fs
     = (Ok tt,
        <[config_path self :=
            Content (JObj (dict_set (u "model") (JStr (u "hub/org/model")) hub_document))]> fs)).
Proof.
  assert (∀ ws, forallb isspace ws = true → 47%N ∉ ws) as Hslash.
  { intros ws Hws Hin. apply forallb_forall with (x := 47%N) in Hws; [done|].
    by apply list_elem_of_In. }
  assert (∀ mv a b cfg,
            split_at_first (u "/") mv = Some (a, b) →
            validate_provider_model self (strip a) (strip b) fs = (Ok true, fs) →
            fs !! config_path self = Some (Content (JObj cfg)) →
            encodable (JObj cfg) = true →
            str_encodable (strip a) = true →
            str_encodable (strip b) = true →
            change_model self mv fs
            = (Ok tt,
               <[config_path self :=
                   Content (JObj (dict_set (u "model")
                              (JStr (strip a ++ u "/" ++ strip b)) cfg))]> fs)) as Hok.
  { intros mv a b cfg Hsplit Hval Hfs Hcfg Ha Hb.
    destruct (change_model_accepted self mv a b fs Hsplit Hval) as (cfg' & Hfs' & Hrun).
    rewrite Hfs in Hfs'. injection Hfs' as <-. rewrite Hrun.
    apply save_config_encodable. by apply encodable_selection. }
  split; [|split; [|split; [|split]]].
  - intros mv fs' Hrun.
    destruct (change_model_Ok_inv self mv fs tt fs' Hrun)
      as (a & b & cfg & Hsplit & Hval & Hfs & _ & ->).
    by exists a, b, cfg.
  - exact Hok.
  - intros l r Hl. by apply (split_at_first_char 47%N).
  - intros p m ws1 ws2 ws3 ws4 H1 H2 H3 H4 Hp.
    rewrite (change_model_parsed self _ (ws1 ++ p ++ ws2) (ws3 ++ m ++ ws4)).
    + rewrite (change_model_parsed self (p ++ u "/" ++ m) p m)
        by (by apply (split_at_first_char 47%N)).
      by rewrite !strip_surrounded.
    + apply (split_at_first_char 47%N).
      rewrite !elem_of_app. intros [?|[?|?]]; [by apply (Hslash ws1) | done | by apply (Hslash ws2)].
  - intros Hfs.
    rewrite (Hok (u " hub / org/model ") (u " hub ") (u " org/model ") hub_document);
      try done.
    rewrite (validate_provider_model_run self fs hub_document) by done.
    unfold stored_model. rewrite Hfs. vm_compute. reflexivity.
Qed.

Lemma change_model_normalises_witness :
  let self := {| config_path := [u "home"; u "config.json"] |} in
  let fs : filesystem := {[ [u "home"; u "config.json"] := Content (JObj hub_document) ]} in
  change_model self (u " hub / org/model ") fs
  = (Ok tt,
     <[config_path self :=
         Content (JObj (dict_set (u "model") (JStr (u "hub/org/model")) hub_document))]> fs)
  ∧ change_model self (u "  hub /plain ") fs = change_model self (u "hub/plain") fs.
Proof.
  intros self fs. split.
  - refine (proj2 (proj2 (proj2 (proj2 (change_model_normalises self fs)))) _). reflexivity.
  - refine (proj1 (proj2 (proj2 (proj2 (change_model_normalises self fs))))
              (u "hub") (u "plain") (u "  ") (u " ") [] (u " ") _ _ _ _ _);
      try reflexivity.
    vm_compute. intros Hin. repeat (inversion Hin as [|? ? ? Hin']; clear Hin; subst; rename Hin' into Hin).
Defined.

(** ** The default path of the configuration file *)

(** C7, as stated, fails: a [ConfigManager] built without a path does not use
    the per-user location, and two processes of the same user started in
    different directories get different backing files. *)
Lemma init_without_path_depends_on_cwd :
  config_path (__init__ env_a None) ≠ default_config_path env_a
  ∧ home env_b = home env_a
  ∧ config_path (__init__ env_b None) ≠ config_path (__init__ env_a None).
Proof.
  repeat split; vm_compute; discriminate.
Qed.

(** C7, amended: a [ConfigManager] built without a path uses [config.json] in
    the current working directory, and loads from and saves to that file; the
    per-user location [~/.config/opencode/config.json] is chosen by [main],
    which always builds the [ConfigManager] with a path: the [--config] value
    when given, the per-user location otherwise, whatever the current working
    directory. *)
Theorem init_default_path env :
  config_path (__init__ env None) = path_div (cwd env) (u "config.json")
  ∧ (∀ fs, load_config (__init__ env None) fs
           = match fs !! path_div (cwd env) (u "config.json") with
             | None => (Raise FileNotFoundError, fs)
             | Some NotUTF8 => (Raise UnicodeDecodeError, fs)
             | Some NotJSON => (Raise JSONDecodeError, fs)
             | Some (Content config) => (Ok config, fs)
             end)
  ∧ (∀ fs config, save_config (__init__ env None) config fs
                  = if encodable config
                    then (Ok tt, <[path_div (cwd env) (u "config.json") := Content config]> fs)
                    else (Raise UnicodeEncodeError,
                          <[path_div (cwd env) (u "config.json") := NotJSON]> fs))
  ∧ (∀ p, config_path (__init__ env (Some p)) = p)
  ∧ config_path (main_config_manager env None)
    = home env ++ [u ".config"; u "opencode"; u "config.json"]
  ∧ (∀ env', home env' = home env →
       config_path (main_config_manager env' None) = config_path (main_config_manager env None))
  ∧ (∀ p, config_path (main_config_manager env (Some p)) = p).
Proof.
  repeat split; try done.
  - cbn. unfold default_config_path, path_div. by rewrite <-!app_assoc.
  - intros env' Hhome. cbn. unfold default_config_path. by rewrite Hhome.
Qed.

Lemma init_default_path_witness :
  config_path (main_config_manager env_b None) = config_path (main_config_manager env_a None).
Proof.
  refine (proj1 (proj2 (proj2 (proj2 (proj2 (proj2 (init_default_path env_a)))))) env_b _).
  reflexivity.
Defined.


(** * Further properties of the store and of the command line *)

(** ** More on dictionaries *)

Section dict_more.
Context {V : Type}.
Implicit Types (k : pystr) (v : V) (d : list (pystr * V)).

Lemma dict_set_set k v1 v2 d : dict_set k v2 (dict_set k v1 d) = dict_set k v2 d.
Proof.
  induction d as [|[k0 v0] d IH]; cbn [dict_set].
  - by rewrite decide_True.
  - case_decide as Hk; cbn [dict_set].
    + by rewrite decide_True.
    + rewrite decide_False by done. by rewrite IH.
Qed.

Lemma dict_keys_set k v d :
  dict_keys (dict_set k v d) = if dict_mem k d then dict_keys d else dict_keys d ++ [k].
Proof.
  destruct (dict_mem k d) eqn:Hm.
  - apply dict_mem_true in Hm. unfold dict_keys.
    induction d as [|[k0 v0] d IH]; [by destruct Hm|].
    cbn [dict_set dict_lookup] in *. case_decide as Hk; [done|].
    cbn [fmap list_fmap fst]. by rewrite IH.
  - apply dict_mem_false in Hm. rewrite dict_set_absent by done.
    unfold dict_keys. by rewrite fmap_app.
Qed.


Lemma NoDup_keys_set k v d : NoDup (dict_keys d) → NoDup (dict_keys (dict_set k v d)).
Proof.
  intros Hnd. rewrite dict_keys_set. destruct (dict_mem k d) eqn:Hm; [done|].
  apply NoDup_app. split; [done|]. split; [|apply NoDup_singleton].
  intros x Hx ->%list_elem_of_singleton.
  apply dict_mem_false in Hm. apply elem_of_dict_keys in Hx. rewrite Hm in Hx.
  by destruct Hx.
Qed.

Lemma NoDup_keys_del k d : NoDup (dict_keys d) → NoDup (dict_keys (dict_del k d)).
Proof.
  unfold dict_keys, dict_del. induction d as [|[k0 v0] d IH]; [done|].
  cbn [fmap list_fmap fst]. intros [Hk0 Hnd]%NoDup_cons.
  rewrite filter_cons. cbn [fst]. case_decide; [|by apply IH].
  cbn [fmap list_fmap fst]. apply NoDup_cons. split; [|by apply IH].
  intros Hin. apply Hk0. apply list_elem_of_fmap in Hin as ([k1 v1] & -> & Hin).
  apply list_elem_of_filter in Hin as [_ Hin].
  apply list_elem_of_fmap. by exists (k1, v1).
Qed.

Lemma dict_keys_fmap_values (g : V → V) d :
  dict_keys ((λ kv, (kv.1, g kv.2)) <$> d) = dict_keys d.
Proof. unfold dict_keys. rewrite <-list_fmap_compose. by apply list_fmap_ext. Qed.

Lemma forallb_values_set (g : V → bool) k v d :
  forallb (λ kv, g kv.2) d = true → g v = true →
  forallb (λ kv, g kv.2) (dict_set k v d) = true.
Proof.
  intros Hd Hv. induction d as [|[k0 v0] d IH]; cbn [dict_set forallb snd].
  - by rewrite Hv.
  - cbn [forallb snd] in Hd. apply andb_true_iff in Hd as [H0 Hd].
    case_decide; cbn [forallb snd].
    + by rewrite Hv, Hd.
    + by rewrite H0, IH.
Qed.

Lemma forallb_values_del (g : V → bool) k d :
  forallb (λ kv, g kv.2) d = true → forallb (λ kv, g kv.2) (dict_del k d) = true.
Proof.
  unfold dict_del. induction d as [|[k0 v0] d IH]; [done|].
  cbn [forallb snd]. intros [H0 Hd]%andb_true_iff.
  rewrite filter_cons. cbn [fst]. case_decide; [|by apply IH].
  cbn [forallb snd]. by rewrite H0, IH.
Qed.

Lemma forallb_values_lookup (g : V → bool) k v d :
  forallb (λ kv, g kv.2) d = true → dict_lookup k d = Some v → g v = true.
Proof.
  intros Hd Hl. apply dict_lookup_elem_of in Hl.
  rewrite forallb_forall in Hd. apply (Hd (k, v)). by apply list_elem_of_In.
Qed.
End dict_more.

(** ** The selection: [update_model] and [get_model] *)

Lemma stored_model_other_key fs self cfg k v p m :
  fs !! config_path self = Some (Content (JObj cfg)) →
  k ≠ u "provider" →
  stored_model (<[config_path self := Content (JObj (dict_set k v cfg))]> fs) self p m
  = stored_model fs self p m.
Proof.
  intros Hfs Hk. unfold stored_model.
  by rewrite lookup_insert_eq, Hfs, dict_lookup_set_ne.
Qed.

Lemma unencodable_obj_set k v d :
  encodable v = false → encodable (JObj (dict_set k v d)) = false.
Proof.
  intros Hv. induction d as [|[k0 v0] d IH]; cbn [dict_set].
  - rewrite encodable_obj_cons, Hv. by rewrite andb_false_r.
  - case_decide; rewrite encodable_obj_cons.
    + rewrite Hv. by rewrite andb_false_r.
    + rewrite IH. by rewrite andb_false_r.
Qed.

Lemma update_model_step self fs cfg v :
  fs !! config_path self = Some (Content (JObj cfg)) →
  update_model self v fs
  = save_config self (JObj (dict_set (u "model") (JStr v) cfg)) fs.
Proof.
  intros Hfs. unfold update_model, bind, load_config, lift. rewrite Hfs.
  cbn [py_setitem]. by destruct (save_config self _ fs) as [[[]|e] fs1].
Qed.

(** X1: on a document all of whose strings can be encoded, [update_model v]
    succeeds for every string [v] that can be encoded (no lone surrogate),
    validated or not; afterwards [get_model] returns [v], and the models
    stored under the providers are the ones stored before. With a [v] that
    cannot be encoded, [update_model] raises [UnicodeEncodeError] and leaves
    a file that [get_model] can no longer parse. *)
Theorem update_model_get_model self fs cfg v :
  fs !! config_path self = Some (Content (JObj cfg)) →
  (encodable (JObj cfg) = true → str_encodable v = true →
   ∃ fs',
     update_model self v fs = (Ok tt, fs')
     ∧ get_model self fs' = (Ok (JStr v), fs')
     ∧ (∀ p m, stored_model fs' self p m = stored_model fs self p m)
     ∧ stored_providers fs' self = stored_providers fs self)
  ∧ (str_encodable v = false →
     ∃ fs',
       update_model self v fs = (Raise UnicodeEncodeError, fs')
       ∧ get_model self fs' = (Raise JSONDecodeError, fs')).
Proof.
  intros Hfs. rewrite (update_model_step self fs cfg) by done. split.
  - intros Hcfg Hv. eexists. split.
    { apply save_config_encodable. by apply encodable_obj_set. }
    split; [|split].
    + unfold get_model, bind, load_config, lift.
      rewrite lookup_insert_eq. cbn [py_get]. by rewrite dict_lookup_set_eq.
    + intros p m. by apply stored_model_other_key.
    + unfold stored_providers.
      by rewrite lookup_insert_eq, Hfs, dict_lookup_set_ne.
  - intros Hv. eexists. split.
    { apply save_config_unencodable. by apply unencodable_obj_set. }
    unfold get_model, bind, load_config. by rewrite lookup_insert_eq.
Qed.

Lemma update_model_get_model_witness :
  let self := {| config_path := [u "home"; u "config.json"] |} in
  let fs : filesystem := {[ [u "home"; u "config.json"] := Content (JObj scenario_document) ]} in
  ∃ fs',
    update_model self (u "nowhere/nothing") fs = (Ok tt, fs')
    ∧ get_model self fs' = (Ok (JStr (u "nowhere/nothing")), fs').
Proof.
  intros self fs.
  destruct (proj1 (update_model_get_model self fs scenario_document (u "nowhere/nothing")
                     eq_refl) eq_refl eq_refl)
    as (fs' & Hrun & Hget & _).
  exists fs'. split; [exact Hrun | exact Hget].
Defined.

(** ** Adding and deleting providers *)

(** [provs] is the provider section, empty when the document has none. *)
Lemma add_provider_step self fs cfg provs provider_id provider_config :
  fs !! config_path self = Some (Content (JObj cfg)) →
  py_get (JObj cfg) (u "provider") (JObj []) = Ok (JObj provs) →
  add_provider self provider_id provider_config fs
  = save_config self
      (JObj (dict_set (u "provider")
               (JObj (dict_set provider_id provider_config provs)) cfg)) fs.
Proof.
  intros Hfs Hprov. cbn [py_get] in Hprov.
  unfold add_provider, bind, load_config, lift. rewrite Hfs. cbn [py_contains].
  destruct (dict_lookup (u "provider") cfg) as [j|] eqn:Hl.
  - cbn [default from_option id] in Hprov. injection Hprov as ->.
    assert (dict_mem (u "provider") cfg = true) as -> by (apply dict_mem_true; eauto).
    cbn [negb py_getitem]. rewrite Hl. cbn [py_setitem].
    by destruct (save_config self _ fs) as [[[]|e] fs1].
  - cbn [default from_option id] in Hprov. injection Hprov as <-.
    assert (dict_mem (u "provider") cfg = false) as -> by by apply dict_mem_false.
    cbn [negb py_setitem py_getitem]. rewrite dict_lookup_set_eq.
    cbn [py_setitem]. rewrite dict_set_set.
    by destruct (save_config self _ fs) as [[[]|e] fs1].
Qed.

Lemma encodable_section cfg provs :
  encodable (JObj cfg) = true →
  py_get (JObj cfg) (u "provider") (JObj []) = Ok (JObj provs) →
  encodable (JObj provs) = true.
Proof.
  intros Hcfg Hprov. cbn [py_get] in Hprov.
  destruct (dict_lookup (u "provider") cfg) as [j|] eqn:Hl;
    cbn [default from_option id] in Hprov; injection Hprov as Hj; subst.
  - by destruct (encodable_obj_lookup _ _ _ Hcfg Hl).
  - done.
Qed.

Lemma encodable_with_provider cfg provs provider_id provider_config :
  encodable (JObj cfg) = true →
  py_get (JObj cfg) (u "provider") (JObj []) = Ok (JObj provs) →
  str_encodable provider_id = true →
  encodable provider_config = true →
  encodable (JObj (dict_set (u "provider")
              (JObj (dict_set provider_id provider_config provs)) cfg)) = true.
Proof.
  intros Hcfg Hprov Hid Hpc. apply encodable_obj_set; [done..|].
  apply encodable_obj_set; [|done..]. by eapply encodable_section.
Qed.

Lemma add_provider_run self fs cfg provs provider_id provider_config :
  fs !! config_path self = Some (Content (JObj cfg)) →
  py_get (JObj cfg) (u "provider") (JObj []) = Ok (JObj provs) →
  encodable (JObj cfg) = true →
  str_encodable provider_id = true →
  encodable provider_config = true →
  add_provider self provider_id provider_config fs
  = (Ok tt,
     <[config_path self :=
         Content (JObj (dict_set (u "provider")
                    (JObj (dict_set provider_id provider_config provs)) cfg))]> fs).
Proof.
  intros Hfs Hprov Hcfg Hid Hpc. rewrite (add_provider_step self fs cfg provs) by done.
  apply save_config_encodable. by apply encodable_with_provider.
Qed.





Lemma delete_provider_step self fs cfg provs provider_id v :
  fs !! config_path self = Some (Content (JObj cfg)) →
  dict_lookup (u "provider") cfg = Some (JObj provs) →
  dict_lookup provider_id provs = Some v →
  delete_provider self provider_id fs
  = save_config self
      (JObj (dict_set (u "provider") (JObj (dict_del provider_id provs)) cfg)) fs.
Proof.
  intros Hfs Hprov Hp.
  unfold delete_provider, bind, load_config, lift. rewrite Hfs.
  cbn [py_get]. rewrite Hprov. cbn [default from_option id py_contains py_delitem].
  assert (dict_mem provider_id provs = true) as -> by (apply dict_mem_true; eauto).
  cbn [negb py_setitem]. by destruct (save_config self _ fs) as [[[]|e] fs1].
Qed.

Lemma encodable_without_provider cfg provs provider_id :
  encodable (JObj cfg) = true →
  dict_lookup (u "provider") cfg = Some (JObj provs) →
  encodable (JObj (dict_set (u "provider") (JObj (dict_del provider_id provs)) cfg)) = true.
Proof.
  intros Hcfg Hprov. destruct (encodable_obj_lookup _ _ _ Hcfg Hprov) as [_ Hprovs].
  apply encodable_obj_set; [done..|]. by apply encodable_obj_del.
Qed.

Lemma delete_provider_run self fs cfg provs provider_id v :
  fs !! config_path self = Some (Content (JObj cfg)) →
  dict_lookup (u "provider") cfg = Some (JObj provs) →
  dict_lookup provider_id provs = Some v →
  encodable (JObj cfg) = true →
  delete_provider self provider_id fs
  = (Ok tt,
     <[config_path self :=
         Content (JObj (dict_set (u "provider") (JObj (dict_del provider_id provs)) cfg))]> fs).
Proof.
  intros Hfs Hprov Hp Hcfg. rewrite (delete_provider_step self fs cfg provs provider_id v) by done.
  apply save_config_encodable. by apply encodable_without_provider.
Qed.

(** X4: [delete_provider] on a document that has no such provider (no
    provider section, or a section without the id) raises the
    "Provider ... not found" [ValueError] and leaves every file as it was. *)
Theorem delete_provider_not_found self fs cfg provs provider_id :
  fs !! config_path self = Some (Content (JObj cfg)) →
  py_get (JObj cfg) (u "provider") (JObj []) = Ok (JObj provs) →
  dict_lookup provider_id provs = None →
  delete_provider self provider_id fs
  = (Raise (ValueError (u "Provider '" ++ provider_id ++ u "' not found")), fs).
Proof.
  intros Hfs Hprov Hp.
  unfold delete_provider, bind, load_config, lift. rewrite Hfs, Hprov.
  cbn [py_contains].
  assert (dict_mem provider_id provs = false) as -> by by apply dict_mem_false.
  done.
Qed.

Lemma delete_provider_not_found_witness :
  let self := {| config_path := [u "home"; u "config.json"] |} in
  let fs : filesystem := {[ [u "home"; u "config.json"] := Content (JObj scenario_document) ]} in
  delete_provider self (u "provider2") fs
  = (Raise (ValueError (u "Provider 'provider2' not found")), fs).
Proof.
  intros self fs.
  apply (delete_provider_not_found self fs scenario_document scenario_providers);
    reflexivity.
Defined.

(** X5: [delete_provider] of a provider the document has succeeds when every
    string of the document can be encoded; afterwards the provider is gone
    with all its models, every other provider stores what it stored, and the
    selection is the one stored before, also when it names the deleted
    provider. *)
Theorem delete_provider_removes self fs cfg provs provider_id v :
  fs !! config_path self = Some (Content (JObj cfg)) →
  dict_lookup (u "provider") cfg = Some (JObj provs) →
  dict_lookup provider_id provs = Some v →
  encodable (JObj cfg) = true →
  ∃ fs',
    delete_provider self provider_id fs = (Ok tt, fs')
    ∧ (provider_id ∉ stored_providers fs' self)
    ∧ (∀ m, stored_model fs' self provider_id m = None)
    ∧ (∀ p m, p ≠ provider_id → stored_model fs' self p m = stored_model fs self p m)
    ∧ (get_model self fs').1 = (get_model self fs).1.
Proof.
  intros Hfs Hprov Hp Hcfg. eexists. split; [by eapply delete_provider_run|].
  split; [|split; [|split]].
  - unfold stored_providers. rewrite lookup_insert_eq, dict_lookup_set_eq.
    rewrite elem_of_dict_keys, dict_lookup_del, decide_True by done. by intros [? ?].
  - intros m. unfold stored_model.
    rewrite lookup_insert_eq, dict_lookup_set_eq, dict_lookup_del.
    by rewrite decide_True.
  - intros p m Hne. unfold stored_model.
    rewrite lookup_insert_eq, Hfs, dict_lookup_set_eq, Hprov, dict_lookup_del.
    by rewrite decide_False.
  - unfold get_model, bind, load_config, lift. rewrite lookup_insert_eq, Hfs.
    cbn [py_get fst]. by rewrite dict_lookup_set_ne.
Qed.

Lemma delete_provider_removes_witness :
  let self := {| config_path := [u "home"; u "config.json"] |} in
  let fs : filesystem := {[ [u "home"; u "config.json"] := Content (JObj scenario_document) ]} in
  ∃ fs',
    delete_provider self (u "provider1") fs = (Ok tt, fs')
    ∧ stored_model fs' self (u "provider1") (u "model1") = None
    ∧ (get_model self fs').1 = Ok (JStr (u "provider1/model1")).
Proof.
  intros self fs.
  destruct (delete_provider_removes self fs scenario_document scenario_providers
              (u "provider1") (JObj provider1))
    as (fs' & Hrun & _ & Hgone & _ & Hsel); [reflexivity..|].
  exists fs'. split; [exact Hrun|]. split; [apply Hgone | exact Hsel].
Defined.



(** ** Adding a model *)

Lemma stored_model_updated_other fs self cfg provs pc P models p m :
  fs !! config_path self = Some (Content (JObj cfg)) →
  dict_lookup (u "provider") cfg = Some (JObj provs) →
  p ≠ P →
  stored_model (<[config_path self := Content (updated_document cfg provs pc P models)]> fs)
    self p m = stored_model fs self p m.
Proof.
  intros Hfs Hprov Hne. unfold stored_model, updated_document.
  rewrite lookup_insert_eq, Hfs, dict_lookup_set_eq, Hprov.
  by rewrite dict_lookup_set_ne.
Qed.

Lemma stored_providers_updated fs self cfg provs pc P models :
  fs !! config_path self = Some (Content (JObj cfg)) →
  dict_lookup (u "provider") cfg = Some (JObj provs) →
  dict_lookup P provs = Some (JObj pc) →
  stored_providers
    (<[config_path self := Content (updated_document cfg provs pc P models)]> fs) self
  = stored_providers fs self.
Proof.
  intros Hfs Hprov HP. unfold stored_providers, updated_document.
  rewrite lookup_insert_eq, Hfs, dict_lookup_set_eq, Hprov, dict_keys_set.
  assert (dict_mem P provs = true) as -> by (apply dict_mem_true; eauto). done.
Qed.

(** [models] is the model map of the provider, empty when it has none. *)
Lemma add_model_to_provider_step self fs cfg provs pc models P M model_config :
  fs !! config_path self = Some (Content (JObj cfg)) →
  dict_lookup (u "provider") cfg = Some (JObj provs) →
  dict_lookup P provs = Some (JObj pc) →
  py_get (JObj pc) (u "models") (JObj []) = Ok (JObj models) →
  add_model_to_provider self P M model_config fs
  = save_config self (updated_document cfg provs pc P (dict_set M model_config models)) fs.
Proof.
  intros Hfs Hprov HP Hmodels. cbn [py_get] in Hmodels.
  unfold add_model_to_provider, bind, load_config, lift. rewrite Hfs.
  cbn [py_get]. rewrite Hprov. cbn [default from_option id py_contains].
  assert (dict_mem P provs = true) as -> by (apply dict_mem_true; eauto).
  cbn [negb py_getitem]. rewrite HP. cbn [py_contains].
  destruct (dict_lookup (u "models") pc) as [j|] eqn:Hl.
  - cbn [default from_option id] in Hmodels. injection Hmodels as ->.
    assert (dict_mem (u "models") pc = true) as -> by (apply dict_mem_true; eauto).
    cbn [negb py_getitem]. rewrite Hl. cbn [py_setitem]. unfold updated_document.
    by destruct (save_config self _ fs) as [[[]|e] fs1].
  - cbn [default from_option id] in Hmodels. injection Hmodels as <-.
    assert (dict_mem (u "models") pc = false) as -> by by apply dict_mem_false.
    cbn [negb py_setitem py_getitem]. rewrite dict_lookup_set_eq.
    cbn [py_setitem]. unfold updated_document. rewrite dict_set_set.
    by destruct (save_config self _ fs) as [[[]|e] fs1].
Qed.

Lemma encodable_models cfg provs pc models P :
  encodable (JObj cfg) = true →
  dict_lookup (u "provider") cfg = Some (JObj provs) →
  dict_lookup P provs = Some (JObj pc) →
  py_get (JObj pc) (u "models") (JObj []) = Ok (JObj models) →
  encodable (JObj models) = true.
Proof.
  intros Hcfg Hprov HP Hmodels.
  destruct (encodable_obj_lookup _ _ _ Hcfg Hprov) as [_ Hprovs].
  destruct (encodable_obj_lookup _ _ _ Hprovs HP) as [_ Hpc].
  cbn [py_get] in Hmodels.
  destruct (dict_lookup (u "models") pc) as [j|] eqn:Hl.
  - cbn [default from_option id] in Hmodels. injection Hmodels as ->.
    by destruct (encodable_obj_lookup _ _ _ Hpc Hl).
  - cbn [default from_option id] in Hmodels. by injection Hmodels as <-.
Qed.

Lemma encodable_with_model cfg provs pc models P M model_config :
  encodable (JObj cfg) = true →
  dict_lookup (u "provider") cfg = Some (JObj provs) →
  dict_lookup P provs = Some (JObj pc) →
  py_get (JObj pc) (u "models") (JObj []) = Ok (JObj models) →
  str_encodable M = true →
  encodable model_config = true →
  encodable (updated_document cfg provs pc P (dict_set M model_config models)) = true.
Proof.
  intros Hcfg Hprov HP Hmodels HM Hmc.
  apply encodable_updated_document; [done..|].
  apply encodable_obj_set; [|done..]. by eapply encodable_models.
Qed.

Lemma add_model_to_provider_run self fs cfg provs pc models P M model_config :
  fs !! config_path self = Some (Content (JObj cfg)) →
  dict_lookup (u "provider") cfg = Some (JObj provs) →
  dict_lookup P provs = Some (JObj pc) →
  py_get (JObj pc) (u "models") (JObj []) = Ok (JObj models) →
  encodable (JObj cfg) = true →
  str_encodable M = true →
  encodable model_config = true →
  add_model_to_provider self P M model_config fs
  = (Ok tt,
     <[config_path self :=
         Content (updated_document cfg provs pc P (dict_set M model_config models))]> fs).
Proof.
  intros Hfs Hprov HP Hmodels Hcfg HM Hmc.
  rewrite (add_model_to_provider_step self fs cfg provs pc models) by done.
  apply save_config_encodable. by apply encodable_with_model.
Qed.

(** X7: [add_model_to_provider] for a provider the document does not have
    raises the "Provider ... not found" [ValueError] and leaves every file as
    it was. *)
Theorem add_model_to_provider_not_found self fs cfg provs P M model_config :
  fs !! config_path self = Some (Content (JObj cfg)) →
  py_get (JObj cfg) (u "provider") (JObj []) = Ok (JObj provs) →
  dict_lookup P provs = None →
  add_model_to_provider self P M model_config fs
  = (Raise (ValueError (u "Provider '" ++ P ++ u "' not found")), fs).
Proof.
  intros Hfs Hprov HP.
  unfold add_model_to_provider, bind, load_config, lift. rewrite Hfs, Hprov.
  cbn [py_contains].
  assert (dict_mem P provs = false) as -> by by apply dict_mem_false.
  done.
Qed.

Lemma add_model_to_provider_not_found_witness :
  let self := {| config_path := [u "home"; u "config.json"] |} in
  let fs : filesystem := {[ [u "home"; u "config.json"] := Content (JObj []) ]} in
  add_model_to_provider self (u "p") (u "m") (JObj []) fs
  = (Raise (ValueError (u "Provider 'p' not found")), fs).
Proof.
  intros self fs.
  apply (add_model_to_provider_not_found self fs [] []); reflexivity.
Defined.



(** ** The operations keep the document in the data model *)

Lemma wf_provider_models pc models :
  wf_provider (JObj (dict_set (u "models") (JObj models) pc)) = true.
Proof. cbn [wf_provider]. by rewrite dict_lookup_set_eq. Qed.

Lemma wf_provider_without_model M j : wf_provider j = true → wf_provider (without_model M j) = true.
Proof.
  destruct j as [| | | | | |pc]; try done. cbn [without_model].
  destruct (dict_lookup (u "models") pc) as [ms|] eqn:Hms; [|done].
  destruct ms as [| | | | | |ms]; try done.
  intros _. destruct (dict_mem M ms); [apply wf_provider_models|].
  cbn [wf_provider]. by rewrite Hms.
Qed.

Lemma wf_document_section cfg provs :
  NoDup (dict_keys provs) →
  forallb (λ kv, wf_provider kv.2) provs = true →
  wf_document (dict_set (u "provider") (JObj provs) cfg) = true.
Proof.
  intros Hnd Hall. unfold wf_document. rewrite dict_lookup_set_eq.
  apply andb_true_iff. split; [by apply bool_decide_eq_true|done].
Qed.

Lemma wf_document_inv cfg provs :
  wf_document cfg = true →
  dict_lookup (u "provider") cfg = Some (JObj provs) →
  NoDup (dict_keys provs) ∧ forallb (λ kv, wf_provider kv.2) provs = true.
Proof.
  unfold wf_document. intros Hwf Hprov. rewrite Hprov in Hwf.
  by apply andb_true_iff in Hwf as [Hnd%bool_decide_eq_true Hall].
Qed.

(** In a document of the data model the provider section is absent or an
    object, and so is the model map of each provider. *)
Lemma wf_document_cases cfg :
  wf_document cfg = true →
  ∃ provs, py_get (JObj cfg) (u "provider") (JObj []) = Ok (JObj provs)
           ∧ (dict_lookup (u "provider") cfg = None ∧ provs = []
              ∨ dict_lookup (u "provider") cfg = Some (JObj provs))
           ∧ NoDup (dict_keys provs)
           ∧ forallb (λ kv, wf_provider kv.2) provs = true.
Proof.
  intros Hwf. cbn [py_get].
  destruct (dict_lookup (u "provider") cfg) as [j|] eqn:Hprov.
  - unfold wf_document in Hwf. rewrite Hprov in Hwf.
    destruct j as [| | | | | |provs]; try discriminate.
    apply andb_true_iff in Hwf as [Hnd%bool_decide_eq_true Hall].
    exists provs. eauto.
  - exists []. repeat split; eauto. apply NoDup_nil_2.
Qed.

Lemma wf_provider_cases j :
  wf_provider j = true →
  ∃ pc models, j = JObj pc ∧ py_get (JObj pc) (u "models") (JObj []) = Ok (JObj models).
Proof.
  destruct j as [| | | | | |pc]; try discriminate. unfold wf_provider, py_get.
  destruct (dict_lookup (u "models") pc) as [ms|] eqn:Hl.
  - destruct ms as [| | | | | |ms]; try discriminate.
    intros _. exists pc, ms. by rewrite Hl.
  - intros _. exists pc, []. by rewrite Hl.
Qed.

Lemma wf_store_updated fs self cfg provs pc P models :
  wf_document cfg = true →
  dict_lookup (u "provider") cfg = Some (JObj provs) →
  wf_store (<[config_path self := Content (updated_document cfg provs pc P models)]> fs) self.
Proof.
  intros Hwf Hprov. destruct (wf_document_inv cfg provs Hwf Hprov) as [Hnd Hall].
  eexists. split; [apply lookup_insert_eq|].
  apply wf_document_section; [by apply NoDup_keys_set|].
  apply forallb_values_set; [done | apply wf_provider_models].
Qed.

Lemma encodable_store_lookup fs self cfg :
  fs !! config_path self = Some (Content (JObj cfg)) →
  encodable_store fs self = true → encodable (JObj cfg) = true.
Proof. intros Hfs. unfold encodable_store. by rewrite Hfs. Qed.

Lemma encodable_store_insert fs self doc :
  encodable doc = true →
  encodable_store (<[config_path self := Content doc]> fs) self = true.
Proof. intros Hdoc. unfold encodable_store. by rewrite lookup_insert_eq. Qed.

Lemma kept_update_provider_models
    (set_iter : gset (list N) → list (list N)) self fs P L :
  (∀ X, set_iter X ≡ₚ elements X) →
  wf_store fs self →
  encodable_store fs self = true →
  forallb str_encodable L = true →
  wf_store (update_provider_models set_iter self P L fs).2 self
  ∧ encodable_store (update_provider_models set_iter self P L fs).2 self = true.
Proof.
  intros Hperm (cfg & Hfs & Hwf) Henc HL.
  pose proof (encodable_store_lookup fs self cfg Hfs Henc) as Hcfg.
  destruct (wf_document_cases cfg Hwf) as (provs & Hget & Hsec & Hnd & Hall).
  destruct (dict_lookup P provs) as [j|] eqn:HP.
  - destruct Hsec as [[_ ->]|Hprov]; [done|].
    destruct (wf_provider_cases j (forallb_values_lookup _ _ _ _ Hall HP))
      as (pc & models & -> & Hmodels).
    rewrite (update_provider_models_run set_iter Hperm self fs cfg provs pc models) by done.
    cbn [snd]. split; [by apply wf_store_updated|].
    apply encodable_store_insert. by apply encodable_reconciled.
  - assert (update_provider_models set_iter self P L fs
            = (Raise (ValueError (u "Provider '" ++ P ++ u "' not found")), fs)) as ->.
    { unfold update_provider_models, bind, load_config, lift. rewrite Hfs, Hget.
      cbn [py_contains].
      assert (dict_mem P provs = false) as -> by by apply dict_mem_false. done. }
    split; [by exists cfg | done].
Qed.

(** X9: reconciliation keeps the document in the data model: when the
    backing file holds a document with unique provider ids and well-shaped
    providers, all of whose strings can be encoded, and every fetched id can
    be encoded, then whatever [update_provider_models] returns or raises, the
    file holds such a document afterwards. *)
Theorem update_provider_models_keeps_wf
    (set_iter : gset (list N) → list (list N)) self fs P L :
  (∀ X, set_iter X ≡ₚ elements X) →
  wf_store fs self →
  encodable_store fs self = true →
  forallb str_encodable L = true →
  wf_store (update_provider_models set_iter self P L fs).2 self
  ∧ encodable_store (update_provider_models set_iter self P L fs).2 self = true.
Proof. apply kept_update_provider_models. Qed.

Lemma update_provider_models_keeps_wf_witness :
  let self := {| config_path := [u "home"; u "config.json"] |} in
  let fs : filesystem := {[ [u "home"; u "config.json"] := Content (JObj shared_document) ]} in
  wf_store (update_provider_models elements self (u "gamma") [u "m1"; u "m2"] fs).2 self
  ∧ encodable_store
      (update_provider_models elements self (u "gamma") [u "m1"; u "m2"] fs).2 self = true.
Proof.
  intros self fs.
  apply (update_provider_models_keeps_wf elements self fs).
  - reflexivity.
  - exists shared_document. split; reflexivity.
  - reflexivity.
  - reflexivity.
Defined.

Lemma wf_store_delete_model self fs M :
  wf_store fs self →
  encodable_store fs self = true →
  wf_store (delete_model self M fs).2 self
  ∧ encodable_store (delete_model self M fs).2 self = true.
Proof.
  intros (cfg & Hfs & Hwf) Henc.
  pose proof (encodable_store_lookup fs self cfg Hfs Henc) as Hcfg.
  destruct (wf_document_cases cfg Hwf) as (provs & Hget & Hsec & Hnd & Hall).
  destruct Hsec as [[Hnone ->]|Hprov].
  - rewrite (delete_model_no_section self fs cfg) by done. split; [by exists cfg | done].
  - rewrite (delete_model_run self fs cfg provs) by done.
    destruct (existsb _ provs); [|split; [by exists cfg | done]].
    cbn [snd]. split; [|by apply encodable_store_insert, encodable_without].
    eexists. split; [apply lookup_insert_eq|].
    apply wf_document_section; [by rewrite dict_keys_fmap_values|].
    clear -Hall. induction provs as [|[p j] provs IH]; [done|].
    cbn [forallb snd fmap list_fmap] in *.
    apply andb_true_iff in Hall as [Hj Hall]. cbn [snd].
    by rewrite wf_provider_without_model, IH.
Qed.

Lemma delete_provider_absent self fs cfg provs provider_id :
  fs !! config_path self = Some (Content (JObj cfg)) →
  py_get (JObj cfg) (u "provider") (JObj []) = Ok (JObj provs) →
  dict_lookup provider_id provs = None →
  (delete_provider self provider_id fs).2 = fs.
Proof.
  intros Hfs Hprov Hp.
  unfold delete_provider, bind, load_config, lift. rewrite Hfs, Hprov.
  cbn [py_contains].
  assert (dict_mem provider_id provs = false) as -> by by apply dict_mem_false.
  done.
Qed.

Lemma wf_store_delete_provider self fs P :
  wf_store fs self →
  encodable_store fs self = true →
  wf_store (delete_provider self P fs).2 self
  ∧ encodable_store (delete_provider self P fs).2 self = true.
Proof.
  intros (cfg & Hfs & Hwf) Henc.
  pose proof (encodable_store_lookup fs self cfg Hfs Henc) as Hcfg.
  destruct (wf_document_cases cfg Hwf) as (provs & Hget & Hsec & Hnd & Hall).
  destruct (dict_lookup P provs) as [j|] eqn:HP.
  - destruct Hsec as [[_ ->]|Hprov]; [done|].
    rewrite (delete_provider_run self fs cfg provs P j) by done.
    cbn [snd]. split; [|by apply encodable_store_insert, encodable_without_provider].
    eexists. split; [apply lookup_insert_eq|].
    apply wf_document_section; [by apply NoDup_keys_del | by apply forallb_values_del].
  - rewrite (delete_provider_absent self fs cfg provs) by done.
    split; [by exists cfg | done].
Qed.

(** X10: the two deletions keep the document in the data model: when the
    backing file holds a well-formed document all of whose strings can be
    encoded, it holds one afterwards, whatever the deletion returns or
    raises. *)
Theorem deletions_keep_wf self fs id :
  wf_store fs self →
  encodable_store fs self = true →
  (wf_store (delete_model self id fs).2 self
   ∧ encodable_store (delete_model self id fs).2 self = true)
  ∧ (wf_store (delete_provider self id fs).2 self
     ∧ encodable_store (delete_provider self id fs).2 self = true).
Proof.
  intros Hwf Henc. split.
  - by apply wf_store_delete_model.
  - by apply wf_store_delete_provider.
Qed.

Lemma deletions_keep_wf_witness :
  let self := {| config_path := [u "home"; u "config.json"] |} in
  let fs : filesystem := {[ [u "home"; u "config.json"] := Content (JObj shared_document) ]} in
  (wf_store (delete_model self (u "shared") fs).2 self
   ∧ encodable_store (delete_model self (u "shared") fs).2 self = true)
  ∧ (wf_store (delete_provider self (u "shared") fs).2 self
     ∧ encodable_store (delete_provider self (u "shared") fs).2 self = true).
Proof.
  intros self fs. apply (deletions_keep_wf self fs).
  - exists shared_document. split; reflexivity.
  - reflexivity.
Defined.



(** ** Listing and finding models *)

Lemma foldl_dict_set_fresh {V W} (g : V → W) (items : list (pystr * V))
    (acc : list (pystr * W)) :
  NoDup (dict_keys acc ++ dict_keys items) →
  foldl (λ acc kv, dict_set kv.1 (g kv.2) acc) acc items
  = acc ++ ((λ kv, (kv.1, g kv.2)) <$> items).
Proof.
  revert acc. induction items as [|[k v] items IH]; intros acc Hnd.
  - by rewrite app_nil_r.
  - cbn [foldl fst snd fmap list_fmap].
    assert (dict_lookup k acc = None) as Hk.
    { apply eq_None_not_Some. rewrite <-elem_of_dict_keys. intros Hin.
      apply NoDup_app in Hnd as (_ & Hdisj & _). apply (Hdisj k Hin). by left. }
    rewrite dict_set_absent by done. rewrite IH.
    + by rewrite <-app_assoc.
    + unfold dict_keys in *. rewrite fmap_app. cbn [fmap list_fmap fst] in *.
      by rewrite <-app_assoc.
Qed.

Lemma dict_keys_fmap_gen {V W} (g : V → W) (d : list (pystr * V)) :
  dict_keys ((λ kv, (kv.1, g kv.2)) <$> d) = dict_keys d.
Proof. unfold dict_keys. rewrite <-list_fmap_compose. by apply list_fmap_ext. Qed.

Lemma dict_lookup_fmap_gen {V W} (g : V → W) k (d : list (pystr * V)) :
  dict_lookup k ((λ kv, (kv.1, g kv.2)) <$> d) = g <$> dict_lookup k d.
Proof.
  induction d as [|[k0 v0] d IH]; [done|].
  cbn [fmap list_fmap dict_lookup fst snd]. by case_decide.
Qed.

Lemma has_model_ids M j : has_model M j = bool_decide (M ∈ model_ids j).
Proof.
  destruct j as [| | | | | |pc]; cbn [has_model model_ids];
    try (symmetry; apply bool_decide_eq_false, not_elem_of_nil).
  destruct (dict_lookup (u "models") pc) as [ms|];
    [|symmetry; apply bool_decide_eq_false, not_elem_of_nil].
  destruct ms; try (symmetry; apply bool_decide_eq_false, not_elem_of_nil).
  apply dict_mem_keys.
Qed.

Lemma get_all_models_no_section self fs cfg :
  fs !! config_path self = Some (Content (JObj cfg)) →
  dict_lookup (u "provider") cfg = None →
  get_all_models self fs = (Ok [], fs).
Proof.
  intros Hfs Hprov.
  unfold get_all_models, get_providers, bind, load_config, lift. rewrite Hfs.
  cbn [py_get]. by rewrite Hprov.
Qed.

(** On a document of the data model [get_all_models] is a map over the
    provider section. *)
Lemma get_all_models_run self fs cfg provs :
  fs !! config_path self = Some (Content (JObj cfg)) →
  wf_document cfg = true →
  dict_lookup (u "provider") cfg = Some (JObj provs) →
  get_all_models self fs = (Ok ((λ kv, (kv.1, model_ids kv.2)) <$> provs), fs).
Proof.
  intros Hfs Hwf Hprov. destruct (wf_document_inv cfg provs Hwf Hprov) as [Hnd Hall].
  unfold get_all_models, get_providers, bind, load_config, lift. rewrite Hfs.
  cbn [py_get]. rewrite Hprov. cbn [default from_option id py_items].
  rewrite get_all_models_loop by done.
  by rewrite (foldl_dict_set_fresh model_ids provs []).
Qed.

Lemma stored_model_ids fs self cfg provs p j m :
  fs !! config_path self = Some (Content (JObj cfg)) →
  dict_lookup (u "provider") cfg = Some (JObj provs) →
  dict_lookup p provs = Some j →
  m ∈ model_ids j ↔ is_Some (stored_model fs self p m).
Proof.
  intros Hfs Hprov Hp.
  rewrite <-(bool_decide_eq_true (m ∈ model_ids j)), <-has_model_ids.
  rewrite (has_model_stored fs self cfg provs p j m) by done.
  apply bool_decide_eq_true.
Qed.

(** X12: on a document of the data model [get_all_models] lists every
    provider once, in the order of the document, and lists a model id under a
    provider exactly when the file stores that model for that provider (a
    provider without a model map gets an empty list); it changes no file. *)
Theorem get_all_models_lists self fs :
  wf_store fs self →
  ∃ r,
    get_all_models self fs = (Ok r, fs)
    ∧ dict_keys r = stored_providers fs self
    ∧ ∀ p, (p ∈ stored_providers fs self →
             ∃ ids, dict_lookup p r = Some ids
                    ∧ ∀ m, m ∈ ids ↔ is_Some (stored_model fs self p m))
            ∧ (p ∉ stored_providers fs self → dict_lookup p r = None).
Proof.
  intros (cfg & Hfs & Hwf).
  destruct (dict_lookup (u "provider") cfg) as [j|] eqn:Hprov.
  - assert (∃ provs, j = JObj provs) as [provs ->].
    { unfold wf_document in Hwf. rewrite Hprov in Hwf. destruct j; try done. eauto. }
    exists ((λ kv, (kv.1, model_ids kv.2)) <$> provs).
    split; [by apply (get_all_models_run self fs cfg)|].
    unfold stored_providers. rewrite Hfs, Hprov.
    split; [apply dict_keys_fmap_gen|].
    intros p. rewrite dict_lookup_fmap_gen. split.
    + intros [j Hj]%elem_of_dict_keys. rewrite Hj. eexists. split; [done|].
      intros m. by apply (stored_model_ids fs self cfg provs).
    + intros Hp. rewrite elem_of_dict_keys, <-eq_None_not_Some in Hp. by rewrite Hp.
  - exists []. split; [by apply (get_all_models_no_section self fs cfg)|].
    unfold stored_providers. rewrite Hfs, Hprov. split; [done|].
    intros p. split; [by intros ?%elem_of_nil | done].
Qed.

Lemma get_all_models_lists_witness :
  let self := {| config_path := [u "home"; u "config.json"] |} in
  let fs : filesystem := {[ [u "home"; u "config.json"] := Content (JObj shared_document) ]} in
  ∃ r, get_all_models self fs = (Ok r, fs)
       ∧ dict_keys r = [u "alpha"; u "beta"; u "gamma"].
Proof.
  intros self fs.
  destruct (get_all_models_lists self fs) as (r & Hrun & Hkeys & _).
  - exists shared_document. split; reflexivity.
  - exists r. split; [exact Hrun | exact Hkeys].
Defined.

Lemma NoDup_stored_providers self fs : wf_store fs self → NoDup (stored_providers fs self).
Proof.
  intros (cfg & Hfs & Hwf). unfold stored_providers. rewrite Hfs.
  destruct (dict_lookup (u "provider") cfg) as [j|] eqn:Hprov; [|apply NoDup_nil_2].
  destruct j as [| | | | | |provs]; try apply NoDup_nil_2.
  by destruct (wf_document_inv cfg provs Hwf Hprov).
Qed.

Lemma find_providers_for_model_run self fs M :
  wf_store fs self →
  ∃ r,
    find_providers_for_model self M fs = (Ok r, fs)
    ∧ (∀ p, p ∈ r ↔ is_Some (stored_model fs self p M))
    ∧ r `sublist_of` stored_providers fs self.
Proof.
  intros (cfg & Hfs & Hwf).
  destruct (dict_lookup (u "provider") cfg) as [j|] eqn:Hprov.
  - assert (∃ provs, j = JObj provs) as [provs ->].
    { unfold wf_document in Hwf. rewrite Hprov in Hwf. destruct j; try done. eauto. }
    destruct (wf_document_inv cfg provs Hwf Hprov) as [Hnd Hall].
    eexists. split.
    { unfold find_providers_for_model, bind.
      rewrite (get_all_models_run self fs cfg provs) by done. done. }
    set (r := (filter _ _).*1). split.
    + intros p. subst r. rewrite list_elem_of_fmap. split.
      * intros ([p' ids] & -> & [HM Hin]%list_elem_of_filter). cbn [fst snd] in *.
        apply list_elem_of_fmap in Hin as ([p0 j] & [= -> ->] & Hin). cbn [fst snd] in *.
        apply (stored_model_ids fs self cfg provs p0 j); [done..| |done].
        by apply dict_lookup_NoDup.
      * intros Hst.
        destruct (dict_lookup p provs) as [j|] eqn:Hp.
        -- exists (p, model_ids j). split; [done|]. apply list_elem_of_filter. split.
           ++ cbn [snd]. by apply (stored_model_ids fs self cfg provs p j).
           ++ apply list_elem_of_fmap. exists (p, j). split; [done|].
              by apply dict_lookup_elem_of.
        -- unfold stored_model in Hst. rewrite Hfs, Hprov, Hp in Hst. by destruct Hst.
    + unfold stored_providers. rewrite Hfs, Hprov. subst r.
      rewrite <-(dict_keys_fmap_gen model_ids provs).
      unfold dict_keys. apply fmap_sublist, sublist_filter.
  - exists []. split.
    { unfold find_providers_for_model, bind.
      by rewrite (get_all_models_no_section self fs cfg). }
    split; [|apply sublist_nil_l].
    intros p. unfold stored_model. rewrite Hfs, Hprov.
    split; [by intros ?%elem_of_nil | by intros [? ?]].
Qed.

(** X13: on a document of the data model [find_providers_for_model] returns,
    without repetition and in the order of the document, exactly the
    providers for which the file stores the model; it agrees with
    [validate_provider_model] and changes no file. *)
Theorem find_providers_for_model_finds self fs M :
  wf_store fs self →
  ∃ r,
    find_providers_for_model self M fs = (Ok r, fs)
    ∧ (∀ p, p ∈ r ↔ is_Some (stored_model fs self p M))
    ∧ NoDup r
    ∧ r `sublist_of` stored_providers fs self
    ∧ ∀ p, validate_provider_model self p M fs = (Ok (bool_decide (p ∈ r)), fs).
Proof.
  intros Hwf. destruct (find_providers_for_model_run self fs M Hwf) as (r & Hrun & Hr & Hsub).
  exists r. split; [done|]. split; [done|].
  split; [eapply sublist_NoDup; [by apply NoDup_stored_providers | done]|].
  split; [done|].
  intros p. destruct Hwf as (cfg & Hfs & Hwf).
  rewrite (validate_provider_model_run self fs cfg) by done.
  do 2 f_equal. apply bool_decide_ext. by rewrite Hr.
Qed.

Lemma find_providers_for_model_finds_witness :
  let self := {| config_path := [u "home"; u "config.json"] |} in
  let fs : filesystem := {[ [u "home"; u "config.json"] := Content (JObj shared_document) ]} in
  ∃ r, find_providers_for_model self (u "shared") fs = (Ok r, fs)
       ∧ (u "beta" ∈ r) ∧ NoDup r.
Proof.
  intros self fs.
  destruct (find_providers_for_model_finds self fs (u "shared")) as (r & Hrun & Hin & Hnd & _).
  - exists shared_document. split; reflexivity.
  - exists r. split; [exact Hrun|]. split; [|exact Hnd].
    apply Hin. vm_compute. eauto.
Defined.

(** ** How the operations compose with the queries *)

(** X14: [delete_model] of a model some provider stores, on a document of
    the data model all of whose strings can be encoded, succeeds, and
    afterwards no provider has the model: [find_providers_for_model] returns
    the empty list and [validate_provider_model] returns [False] for every
    provider. *)
Theorem delete_model_then_find self fs M :
  wf_store fs self →
  encodable_store fs self = true →
  (∃ p, is_Some (stored_model fs self p M)) →
  ∃ fs',
    delete_model self M fs = (Ok tt, fs')
    ∧ find_providers_for_model self M fs' = (Ok [], fs')
    ∧ ∀ p, validate_provider_model self p M fs' = (Ok false, fs').
Proof.
  intros Hwf Henc (p0 & r0 & Hr0). pose proof Hwf as (cfg & Hfs & Hwfd).
  pose proof (encodable_store_lookup fs self cfg Hfs Henc) as Hcfg.
  pose proof Hr0 as Hr0'.
  apply stored_model_Some in Hr0' as (cfg' & provs & pc & ms & Hfs' & Hprov & HP & _).
  rewrite Hfs in Hfs'. injection Hfs' as <-.
  destruct (wf_document_inv cfg provs Hwfd Hprov) as [Hnd Hall].
  pose proof (delete_model_run self fs cfg provs M Hfs Hprov Hall Hcfg) as Hrun.
  assert (existsb (λ kv, has_model M kv.2) provs = true) as Hex.
  { apply existsb_elem_of. exists (p0, JObj pc).
    split; [by apply dict_lookup_elem_of|]. cbn [snd].
    rewrite (has_model_stored fs self cfg provs p0 (JObj pc) M) by done.
    apply bool_decide_eq_true. by rewrite Hr0. }
  rewrite Hex in Hrun. eexists. split; [exact Hrun|].
  match goal with |- context [find_providers_for_model self M ?f] => set (fs' := f) end.
  assert (wf_store fs' self) as Hwf'.
  { pose proof (proj1 (wf_store_delete_model self fs M Hwf Henc)) as H'.
    by rewrite Hrun in H'. }
  destruct (find_providers_for_model_run self fs' M Hwf') as (r & Hfind & Hr & _).
  assert (r = []) as ->.
  { apply elem_of_nil_inv. intros p Hp. apply Hr in Hp. subst fs'.
    rewrite (stored_model_without fs self cfg provs), decide_True in Hp by done.
    by destruct Hp. }
  split; [done|]. intros p. destruct Hwf' as (cfg1 & Hfs1 & Hwf1).
  rewrite (validate_provider_model_run self fs' cfg1) by done.
  do 2 f_equal. apply bool_decide_eq_false. subst fs'.
  rewrite (stored_model_without fs self cfg provs), decide_True by done. by intros [? ?].
Qed.

Lemma delete_model_then_find_witness :
  let self := {| config_path := [u "home"; u "config.json"] |} in
  let fs : filesystem := {[ [u "home"; u "config.json"] := Content (JObj shared_document) ]} in
  ∃ fs',
    delete_model self (u "shared") fs = (Ok tt, fs')
    ∧ find_providers_for_model self (u "shared") fs' = (Ok [], fs').
Proof.
  intros self fs.
  destruct (delete_model_then_find self fs (u "shared")) as (fs' & Hrun & Hfind & _).
  - exists shared_document. split; reflexivity.
  - reflexivity.
  - exists (u "alpha"). vm_compute. eauto.
  - exists fs'. split; [exact Hrun | exact Hfind].
Defined.



(** ** More on reconciliation *)

(** X16: [update_provider_models] for a provider the document does not have
    (no provider section, or a section without the id) raises the
    "Provider ... not found" [ValueError] and leaves every file as it was,
    whatever was fetched. *)
Theorem update_provider_models_not_found
    (set_iter : gset (list N) → list (list N)) self fs cfg provs P L :
  fs !! config_path self = Some (Content (JObj cfg)) →
  py_get (JObj cfg) (u "provider") (JObj []) = Ok (JObj provs) →
  dict_lookup P provs = None →
  update_provider_models set_iter self P L fs
  = (Raise (ValueError (u "Provider '" ++ P ++ u "' not found")), fs).
Proof.
  intros Hfs Hprov HP.
  unfold update_provider_models, bind, load_config, lift. rewrite Hfs, Hprov.
  cbn [py_contains].
  assert (dict_mem P provs = false) as -> by by apply dict_mem_false.
  done.
Qed.

Lemma update_provider_models_not_found_witness :
  let self := {| config_path := [u "home"; u "config.json"] |} in
  let fs : filesystem := {[ [u "home"; u "config.json"] := Content (JObj scenario_document) ]} in
  update_provider_models elements self (u "provider2") [u "m"] fs
  = (Raise (ValueError (u "Provider 'provider2' not found")), fs).
Proof.
  intros self fs.
  apply (update_provider_models_not_found elements self fs scenario_document
           scenario_providers); reflexivity.
Defined.

(** X17: reconciliation touches the model map of one provider only: when
    every string of the document and every fetched id can be encoded,
    [update_provider_models P L] succeeds, and afterwards every other
    provider stores the models it stored, the providers are the same in the
    same order, the other entries of the record of [P] are the ones stored
    before, and so is the selection, also when it names a model that was
    removed. *)
Theorem update_provider_models_frame
    (set_iter : gset (list N) → list (list N)) self fs cfg provs pc existing P L :
  (∀ X, set_iter X ≡ₚ elements X) →
  fs !! config_path self = Some (Content (JObj cfg)) →
  dict_lookup (u "provider") cfg = Some (JObj provs) →
  dict_lookup P provs = Some (JObj pc) →
  py_get (JObj pc) (u "models") (JObj []) = Ok (JObj existing) →
  encodable (JObj cfg) = true →
  forallb str_encodable L = true →
  ∃ c fs',
    update_provider_models set_iter self P L fs = (Ok c, fs')
    ∧ (∀ p m, p ≠ P → stored_model fs' self p m = stored_model fs self p m)
    ∧ stored_providers fs' self = stored_providers fs self
    ∧ (get_model self fs').1 = (get_model self fs).1
    ∧ (∀ k, k ≠ u "models" → stored_field fs' self P k = stored_field fs self P k).
Proof.
  intros Hperm Hfs Hprov HP Hmodels Hcfg HL. eexists _, _.
  split; [by apply update_provider_models_run|].
  split; [|split; [|split]].
  - intros p m Hp. by apply stored_model_updated_other.
  - by apply stored_providers_updated.
  - unfold get_model, bind, load_config, lift, updated_document.
    rewrite lookup_insert_eq, Hfs. cbn [py_get fst]. by rewrite dict_lookup_set_ne.
  - intros k Hk. unfold stored_field, updated_document.
    rewrite lookup_insert_eq, Hfs, !dict_lookup_set_eq, Hprov, HP.
    by rewrite dict_lookup_set_ne.
Qed.

Lemma update_provider_models_frame_witness :
  let self := {| config_path := [u "home"; u "config.json"] |} in
  let fs : filesystem := {[ [u "home"; u "config.json"] := Content (JObj scenario_document) ]} in
  ∃ c fs',
    update_provider_models elements self (u "provider1") [u "model2"; u "model3"] fs
    = (Ok c, fs')
    ∧ (get_model self fs').1 = Ok (JStr (u "provider1/model1")).
Proof.
  intros self fs.
  destruct (update_provider_models_frame elements self fs scenario_document
              scenario_providers provider1 provider1_models (u "provider1")
              [u "model2"; u "model3"])
    as (c & fs' & Hrun & _ & _ & Hsel & _); [reflexivity..|].
  exists c, fs'. split; [exact Hrun | exact Hsel].
Defined.

(** X18: an empty fetch empties the provider: on a document all of whose
    strings can be encoded, [update_provider_models P []] removes every
    stored model of [P], adds and preserves none, and leaves [P] with an
    empty model map. *)
Theorem update_provider_models_empty_fetch
    (set_iter : gset (list N) → list (list N)) self fs cfg provs pc existing P :
  (∀ X, set_iter X ≡ₚ elements X) →
  fs !! config_path self = Some (Content (JObj cfg)) →
  dict_lookup (u "provider") cfg = Some (JObj provs) →
  dict_lookup P provs = Some (JObj pc) →
  py_get (JObj pc) (u "models") (JObj []) = Ok (JObj existing) →
  encodable (JObj cfg) = true →
  update_provider_models set_iter self P [] fs
  = (Ok {| added := 0;
           removed := size (list_to_set (dict_keys existing) : gset (list N));
           preserved := 0 |},
     <[config_path self := Content (updated_document cfg provs pc P [])]> fs).
Proof.
  intros Hperm Hfs Hprov HP Hmodels Hcfg.
  rewrite (update_provider_models_run set_iter Hperm self fs cfg provs pc existing) by done.
  cbn [list_to_set].
  assert ((∅ : gset (list N)) ∖ list_to_set (dict_keys existing) = ∅) as -> by set_solver.
  assert ((list_to_set (dict_keys existing) : gset (list N)) ∩ ∅ = ∅) as -> by set_solver.
  rewrite difference_empty_L, size_empty.
  assert (merged_models set_iter existing [] = []) as ->; [|done].
  assert (∀ m, dict_lookup m (merged_models set_iter existing []) = None) as Hl.
  { intros m. rewrite lookup_merged_models by done.
    rewrite decide_False; [done | apply not_elem_of_nil]. }
  destruct (merged_models set_iter existing []) as [|[k v] d]; [done|].
  specialize (Hl k). cbn [dict_lookup] in Hl. by rewrite decide_True in Hl.
Qed.

Lemma update_provider_models_empty_fetch_witness :
  let self := {| config_path := [u "home"; u "config.json"] |} in
  let fs : filesystem := {[ [u "home"; u "config.json"] := Content (JObj scenario_document) ]} in
  update_provider_models elements self (u "provider1") [] fs
  = (Ok {| added := 0; removed := 2; preserved := 0 |},
     <[config_path self :=
         Content (updated_document scenario_document scenario_providers provider1
                    (u "provider1") [])]> fs).
Proof.
  intros self fs.
  apply (update_provider_models_empty_fetch elements self fs scenario_document
           scenario_providers provider1 provider1_models (u "provider1")); reflexivity.
Defined.

(** ** A missing or unreadable file *)

Lemma contains_split_at_first sep s :
  str_contains sep s = true → ∃ a b, split_at_first sep s = Some (a, b).
Proof.
  induction s as [|c s IH]; cbn [split_at_first str_contains].
  - destruct (startswith sep []); [eauto | discriminate].
  - destruct (startswith sep (c :: s)); [eauto|]. cbn [orb].
    intros (a & b & ->)%IH. eauto.
Qed.

Ltac load_fails Hfs :=
  repeat split;
  unfold get_model, update_model, get_providers, add_provider, add_model_to_provider,
    find_providers_for_model, validate_provider_model, get_all_models, get_providers,
    delete_provider, delete_model, update_provider_models, bind, load_config, lift;
  rewrite Hfs; reflexivity.



(** X20: when the backing file cannot be read as a document, [load_config]
    and each of the eleven methods that start by loading the document raise
    the error of the load and leave the file as it is, so that the unreadable
    content is never overwritten: [JSONDecodeError] when the file holds text
    that is not well-formed JSON, [UnicodeDecodeError] when it holds bytes
    that are not UTF-8. *)
Theorem methods_on_malformed_file
    (set_iter : gset (list N) → list (list N)) self fs p m (v : json) s L bad e :
  bad = NotJSON ∧ e = JSONDecodeError ∨ bad = NotUTF8 ∧ e = UnicodeDecodeError →
  fs !! config_path self = Some bad →
  load_config self fs = (Raise e, fs)
  ∧ get_model self fs = (Raise e, fs)
  ∧ update_model self s fs = (Raise e, fs)
  ∧ get_providers self fs = (Raise e, fs)
  ∧ add_provider self p v fs = (Raise e, fs)
  ∧ add_model_to_provider self p m v fs = (Raise e, fs)
  ∧ get_all_models self fs = (Raise e, fs)
  ∧ find_providers_for_model self m fs = (Raise e, fs)
  ∧ validate_provider_model self p m fs = (Raise e, fs)
  ∧ delete_provider self p fs = (Raise e, fs)
  ∧ delete_model self m fs = (Raise e, fs)
  ∧ update_provider_models set_iter self p L fs = (Raise e, fs).
Proof. intros [[-> ->]|[-> ->]] Hfs; load_fails Hfs. Qed.

Lemma methods_on_malformed_file_witness :
  let self := {| config_path := [u "home"; u "config.json"] |} in
  let fs : filesystem := {[ [u "home"; u "config.json"] := NotJSON ]} in
  let fs' : filesystem := {[ [u "home"; u "config.json"] := NotUTF8 ]} in
  add_provider self (u "p") (JObj []) fs = (Raise JSONDecodeError, fs)
  ∧ add_provider self (u "p") (JObj []) fs' = (Raise UnicodeDecodeError, fs').
Proof.
  intros self fs fs'. split.
  - destruct (methods_on_malformed_file elements self fs (u "p") (u "m") (JObj []) (u "a/b") []
                NotJSON JSONDecodeError)
      as (_ & _ & _ & _ & H & _); [left; split; reflexivity | reflexivity |]. exact H.
  - destruct (methods_on_malformed_file elements self fs' (u "p") (u "m") (JObj []) (u "a/b") []
                NotUTF8 UnicodeDecodeError)
      as (_ & _ & _ & _ & H & _); [right; split; reflexivity | reflexivity |]. exact H.
Defined.

(** X21: [change_model] turns a missing file into exit status 1, whatever
    value it is given, and lets the [JSONDecodeError] of an unreadable file
    through; in both cases no file is created or changed. *)
Theorem change_model_on_bad_file self fs mv :
  (fs !! config_path self = None →
   change_model self mv fs = (Raise (SystemExit 1), fs))
  ∧ (fs !! config_path self = Some NotJSON →
     change_model self mv fs = (Raise JSONDecodeError, fs)).
Proof.
  assert (∀ e, load_config self fs = (Raise e, fs) →
            (∀ p m, validate_provider_model self p m fs = (Raise e, fs))
            ∧ list_models self fs = (Raise e, fs)) as Hload.
  { intros e He. split; [intros p m|];
      unfold validate_provider_model, list_models, get_all_models, get_providers, bind;
      by rewrite He. }
  assert (∀ e, load_config self fs = (Raise e, fs) →
            change_model self mv fs
            = try_except_FileNotFoundError (raise e) (raise (SystemExit 1)) fs) as Hrun.
  { intros e He. destruct (Hload e He) as [Hval Hlist].
    destruct (str_contains (u "/") mv) eqn:Hc.
    - destruct (contains_split_at_first _ _ Hc) as (a & b & Hsplit).
      rewrite (change_model_parsed self mv a b) by done.
      unfold try_except_FileNotFoundError, bind at 1. by rewrite Hval.
    - unfold change_model. rewrite Hc. cbn [negb].
      unfold try_except_FileNotFoundError, bind at 1. by rewrite Hlist. }
  split; intros Hfs.
  - rewrite (Hrun FileNotFoundError); [done|]. unfold load_config. by rewrite Hfs.
  - rewrite (Hrun JSONDecodeError); [done|]. unfold load_config. by rewrite Hfs.
Qed.

Lemma change_model_on_bad_file_witness :
  let self := {| config_path := [u "home"; u "config.json"] |} in
  let fs : filesystem := {[ [u "home"; u "config.json"] := NotJSON ]} in
  change_model self (u "a/b") ∅ = (Raise (SystemExit 1), ∅)
  ∧ change_model self (u "a/b") fs = (Raise JSONDecodeError, fs).
Proof.
  intros self fs. split.
  - apply (proj1 (change_model_on_bad_file self ∅ (u "a/b"))). reflexivity.
  - apply (proj2 (change_model_on_bad_file self fs (u "a/b"))). reflexivity.
Defined.

(** ** More on changing the selection *)

Lemma get_all_models_ok self fs :
  wf_store fs self → ∃ r, get_all_models self fs = (Ok r, fs).
Proof.
  intros (cfg & Hfs & Hwf).
  destruct (dict_lookup (u "provider") cfg) as [j|] eqn:Hprov.
  - assert (∃ provs, j = JObj provs) as [provs ->].
    { unfold wf_document in Hwf. rewrite Hprov in Hwf. destruct j; try done. eauto. }
    eexists. by apply (get_all_models_run self fs cfg provs).
  - eexists. by apply (get_all_models_no_section self fs cfg).
Qed.

(** X22: a value without "/" is refused: on a document of the data model
    [change_model] exits with status 1 and changes no file. *)
Theorem change_model_without_slash self fs mv :
  wf_store fs self →
  47%N ∉ mv →
  change_model self mv fs = (Raise (SystemExit 1), fs).
Proof.
  intros Hwf Hmv. destruct (get_all_models_ok self fs Hwf) as [r Hall].
  assert (str_contains (u "/") mv = false) as Hc.
  { clear -Hmv. change (u "/") with [47%N].
    induction mv as [|c mv IH]; [done|].
    apply not_elem_of_cons in Hmv as [Hc Hmv]. cbn [str_contains startswith].
    rewrite bool_decide_eq_false_2 by done. cbn [andb orb]. by apply IH. }
  unfold change_model. rewrite Hc. cbn [negb].
  unfold try_except_FileNotFoundError, bind, list_models, bind. by rewrite Hall.
Qed.

Lemma change_model_without_slash_witness :
  let self := {| config_path := [u "home"; u "config.json"] |} in
  let fs : filesystem := {[ [u "home"; u "config.json"] := Content (JObj scenario_document) ]} in
  change_model self (u "model1") fs = (Raise (SystemExit 1), fs).
Proof.
  intros self fs. apply (change_model_without_slash self fs).
  - exists scenario_document. split; reflexivity.
  - vm_compute. intros Hin.
    repeat (inversion Hin as [|? ? ? Hin']; clear Hin; subst; rename Hin' into Hin).
Defined.

Lemma strip_idemp s : strip (strip s) = strip s.
Proof.
  destruct (strip_decompose s) as (ws1 & ws2 & Hs & H1 & H2).
  rewrite Hs at 2. by rewrite strip_surrounded.
Qed.

Lemma elem_of_strip c s : c ∈ strip s → c ∈ s.
Proof.
  destruct (strip_decompose s) as (ws1 & ws2 & Hs & _ & _).
  intros Hc. rewrite Hs, !elem_of_app. auto.
Qed.

(** What the queries return does not depend on the selection. *)
Lemma validate_after_selection self fs cfg v p m :
  fs !! config_path self = Some (Content (JObj cfg)) →
  (validate_provider_model self p m
     (<[config_path self := Content (JObj (dict_set (u "model") v cfg))]> fs)).1
  = (validate_provider_model self p m fs).1.
Proof.
  intros Hfs.
  unfold validate_provider_model, get_all_models, get_providers, bind, load_config, lift.
  rewrite lookup_insert_eq, Hfs. cbn [py_get].
  rewrite dict_lookup_set_ne by done.
  destruct (py_items _); [|done]. by destruct (for_each _ _ _).
Qed.

(** X23: when the pair read from the value validates and every string of
    the document and both parts can be encoded, [change_model] accepts the
    value; afterwards [get_model] returns the stored string, and giving that
    string to [change_model] again is accepted and leaves every file as it
    is. *)
Theorem change_model_round_trip self fs mv a b :
  split_at_first (u "/") mv = Some (a, b) →
  validate_provider_model self (strip a) (strip b) fs = (Ok true, fs) →
  encodable_store fs self = true →
  str_encodable (strip a) = true →
  str_encodable (strip b) = true →
  ∃ fs',
    change_model self mv fs = (Ok tt, fs')
    ∧ get_model self fs' = (Ok (JStr (strip a ++ u "/" ++ strip b)), fs')
    ∧ change_model self (strip a ++ u "/" ++ strip b) fs' = (Ok tt, fs').
Proof.
  intros Hsplit Hval Henc Hea Heb.
  destruct (change_model_accepted self mv a b fs Hsplit Hval) as (cfg & Hfs & Hrun).
  pose proof (encodable_store_lookup fs self cfg Hfs Henc) as Hcfg.
  pose proof (encodable_selection cfg (strip a) (strip b) Hcfg Hea Heb) as Hdoc.
  rewrite save_config_encodable in Hrun by done.
  eexists. split; [exact Hrun|].
  set (v := strip a ++ u "/" ++ strip b) in *.
  set (fs' := <[config_path self := _]> fs). split.
  - unfold get_model, bind, load_config, lift. subst fs'.
    rewrite lookup_insert_eq. cbn [py_get]. by rewrite dict_lookup_set_eq.
  - assert (split_at_first (u "/") v = Some (strip a, strip b)) as Hsplit'.
    { apply (split_at_first_char 47%N). intros Hin%elem_of_strip.
      by apply (split_at_first_char_inv 47%N) in Hsplit as [_ Ha]. }
    assert (validate_provider_model self (strip (strip a)) (strip (strip b)) fs'
            = (Ok true, fs')) as Hval'.
    { rewrite !strip_idemp.
      pose proof (validate_after_selection self fs cfg (JStr v) (strip a) (strip b) Hfs) as H1.
      pose proof (validate_provider_model_readonly self (strip a) (strip b) fs') as H2.
      fold fs' in H1. rewrite Hval in H1. cbn [fst] in H1.
      destruct (validate_provider_model self (strip a) (strip b) fs') as [r1 f1].
      cbn [fst snd] in *. by subst. }
    destruct (change_model_accepted self v (strip a) (strip b) fs' Hsplit' Hval')
      as (cfg' & Hfs' & Hrun').
    rewrite Hrun'. subst fs'. rewrite lookup_insert_eq in Hfs'. injection Hfs' as <-.
    rewrite !strip_idemp. fold v. rewrite dict_set_set.
    rewrite save_config_encodable by done. by rewrite insert_insert_eq.
Qed.

Lemma change_model_round_trip_witness :
  let self := {| config_path := [u "home"; u "config.json"] |} in
  let fs : filesystem := {[ [u "home"; u "config.json"] := Content (JObj hub_document) ]} in
  ∃ fs',
    change_model self (u " hub / org/model ") fs = (Ok tt, fs')
    ∧ get_model self fs' = (Ok (JStr (u "hub/org/model")), fs')
    ∧ change_model self (u "hub/org/model") fs' = (Ok tt, fs').
Proof.
  intros self fs.
  apply (change_model_round_trip self fs (u " hub / org/model ") (u " hub ") (u " org/model "));
    reflexivity.
Defined.

(** X24: deleting a model does not repair the selection: [delete_model M] of
    a model some provider stores, on a document of the data model all of
    whose strings can be encoded, succeeds; afterwards the selection is the
    one stored before, and [change_model] refuses every value whose model
    part is [M], with exit status 1 and no file changed. *)
Theorem delete_model_then_change_model self fs M mv a b :
  wf_store fs self →
  encodable_store fs self = true →
  (∃ p, is_Some (stored_model fs self p M)) →
  split_at_first (u "/") mv = Some (a, b) →
  strip b = M →
  ∃ fs',
    delete_model self M fs = (Ok tt, fs')
    ∧ (get_model self fs').1 = (get_model self fs).1
    ∧ change_model self mv fs' = (Raise (SystemExit 1), fs').
Proof.
  intros Hwf Henc (p0 & r0 & Hr0) Hsplit Hb. pose proof Hwf as (cfg & Hfs & Hwfd).
  pose proof (encodable_store_lookup fs self cfg Hfs Henc) as Hcfg.
  pose proof Hr0 as Hr0'.
  apply stored_model_Some in Hr0' as (cfg' & provs & pc & ms & Hfs' & Hprov & HP & _).
  rewrite Hfs in Hfs'. injection Hfs' as <-.
  destruct (wf_document_inv cfg provs Hwfd Hprov) as [Hnd Hall].
  pose proof (delete_model_run self fs cfg provs M Hfs Hprov Hall Hcfg) as Hrun.
  assert (existsb (λ kv, has_model M kv.2) provs = true) as Hex.
  { apply existsb_elem_of. exists (p0, JObj pc).
    split; [by apply dict_lookup_elem_of|]. cbn [snd].
    rewrite (has_model_stored fs self cfg provs p0 (JObj pc) M) by done.
    apply bool_decide_eq_true. by rewrite Hr0. }
  rewrite Hex in Hrun. eexists. split; [exact Hrun|].
  match goal with |- context [change_model self mv ?f] => set (fs' := f) end.
  split.
  - unfold get_model, bind, load_config, lift. subst fs'.
    rewrite lookup_insert_eq, Hfs. cbn [py_get fst]. by rewrite dict_lookup_set_ne.
  - assert (wf_store fs' self) as (cfg1 & Hfs1 & Hwf1).
    { pose proof (proj1 (wf_store_delete_model self fs M Hwf Henc)) as H'.
      by rewrite Hrun in H'. }
    apply (change_model_rejected self mv a b); [done|].
    rewrite (validate_provider_model_run self fs' cfg1) by done.
    do 2 f_equal. apply bool_decide_eq_false. rewrite Hb. subst fs'.
    rewrite (stored_model_without fs self cfg provs), decide_True by done. by intros [? ?].
Qed.

Lemma delete_model_then_change_model_witness :
  let self := {| config_path := [u "home"; u "config.json"] |} in
  let fs : filesystem := {[ [u "home"; u "config.json"] := Content (JObj shared_document) ]} in
  ∃ fs',
    delete_model self (u "shared") fs = (Ok tt, fs')
    ∧ (get_model self fs').1 = Ok (JStr (u "alpha/shared"))
    ∧ change_model self (u "alpha/shared") fs' = (Raise (SystemExit 1), fs').
Proof.
  intros self fs.
  destruct (delete_model_then_change_model self fs (u "shared") (u "alpha/shared")
              (u "alpha") (u "shared")) as (fs' & Hrun & Hsel & Hchange).
  - exists shared_document. split; reflexivity.
  - reflexivity.
  - exists (u "alpha"). vm_compute. eauto.
  - reflexivity.
  - reflexivity.
  - exists fs'. split; [exact Hrun|]. split; [exact Hsel | exact Hchange].
Defined.


(** ** The commands that add and delete *)

Lemma try_except_VF_Ok {A} (body handler : M A) fs a fs' :
  body fs = (Ok a, fs') →
  try_except_ValueError_FileNotFoundError body handler fs = (Ok a, fs').
Proof. intros H. unfold try_except_ValueError_FileNotFoundError. by rewrite H. Qed.

(** The handler runs for [ValueError], for its subclasses and for
    [FileNotFoundError], on the files as the body left them. *)
Lemma try_except_VF_caught {A} (body handler : M A) fs e fs' :
  body fs = (Raise e, fs') →
  is_ValueError e = true ∨ e = FileNotFoundError →
  try_except_ValueError_FileNotFoundError body handler fs = handler fs'.
Proof.
  intros H He. unfold try_except_ValueError_FileNotFoundError. rewrite H.
  destruct He as [->| ->]; [done|]. by destruct (is_ValueError FileNotFoundError).
Qed.

Lemma load_config_unreadable self fs :
  fs !! config_path self = None
  ∨ fs !! config_path self = Some NotJSON
  ∨ fs !! config_path self = Some NotUTF8 →
  ∃ e, load_config self fs = (Raise e, fs)
       ∧ (is_ValueError e = true ∨ e = FileNotFoundError).
Proof.
  unfold load_config. intros [->|[->| ->]]; eexists; (split; [done|]); auto.
Qed.

Lemma delete_model_absent self fs M :
  wf_store fs self →
  (∀ p, stored_model fs self p M = None) →
  delete_model self M fs
  = (Raise (ValueError (u "Model '" ++ M ++ u "' not found in any provider")), fs).
Proof.
  intros (cfg & Hfs & Hwf) Hnone.
  destruct (dict_lookup (u "provider") cfg) as [j|] eqn:Hprov;
    [|by apply (delete_model_no_section self fs cfg)].
  assert (∃ provs, j = JObj provs) as [provs ->].
  { unfold wf_document in Hwf. rewrite Hprov in Hwf. destruct j; try done. eauto. }
  destruct (wf_document_inv cfg provs Hwf Hprov) as [Hnd Hall].
  rewrite (delete_model_step self fs cfg provs) by done.
  assert (existsb (λ kv, has_model M kv.2) provs = false) as ->; [|done].
  apply not_true_is_false. intros ([p j] & Hin & Hhas)%existsb_elem_of.
  cbn [snd] in Hhas.
  rewrite (has_model_stored fs self cfg provs p j M) in Hhas;
    [|done|done|by apply dict_lookup_NoDup].
  apply bool_decide_eq_true in Hhas. rewrite Hnone in Hhas. by destruct Hhas.
Qed.

(** X25: the command [delete model]. Without [-y], an answer that is not "y"
    once stripped and lowered cancels: nothing is read or written, whatever
    the files are. With [-y], or with the answer "y", the command does what
    [ConfigManager.delete_model] does when that succeeds; when that raises
    [ValueError], one of its subclasses ([JSONDecodeError],
    [UnicodeDecodeError], [UnicodeEncodeError]) or [FileNotFoundError], the
    command exits with status 1 and the files are as the method left them.
    So on a document of the data model without the model, and on a file that
    is missing or cannot be read, it exits with status 1 and changes no
    file. *)
Theorem cli_delete_model_confirms (lower : list N → list N) answer cm M fs :
  (lower (strip answer) ≠ u "y" →
   cli.delete_model lower answer cm M false fs = (Ok tt, fs))
  ∧ (∀ auto_confirm fs',
       auto_confirm = true ∨ lower (strip answer) = u "y" →
       delete_model cm M fs = (Ok tt, fs') →
       cli.delete_model lower answer cm M auto_confirm fs = (Ok tt, fs'))
  ∧ (∀ auto_confirm,
       auto_confirm = true ∨ lower (strip answer) = u "y" →
       wf_store fs cm →
       (∀ p, stored_model fs cm p M = None) →
       cli.delete_model lower answer cm M auto_confirm fs = (Raise (SystemExit 1), fs))
  ∧ (∀ auto_confirm e fs',
       auto_confirm = true ∨ lower (strip answer) = u "y" →
       delete_model cm M fs = (Raise e, fs') →
       is_ValueError e = true ∨ e = FileNotFoundError →
       cli.delete_model lower answer cm M auto_confirm fs = (Raise (SystemExit 1), fs'))
  ∧ (∀ auto_confirm,
       auto_confirm = true ∨ lower (strip answer) = u "y" →
       fs !! config_path cm = None
       ∨ fs !! config_path cm = Some NotJSON
       ∨ fs !! config_path cm = Some NotUTF8 →
       cli.delete_model lower answer cm M auto_confirm fs = (Raise (SystemExit 1), fs)).
Proof.
  assert (∀ auto_confirm,
            auto_confirm = true ∨ lower (strip answer) = u "y" →
            cli.delete_model lower answer cm M auto_confirm fs
            = try_except_ValueError_FileNotFoundError (delete_model cm M)
                (raise (SystemExit 1)) fs) as Hgo.
  { intros ac Hac. unfold cli.delete_model. destruct ac; [done|]. cbn [negb].
    destruct Hac as [?|Hy]; [done|]. by rewrite bool_decide_eq_false_2 by (by intros ?). }
  split; [|split; [|split; [|split]]].
  - intros Hn. unfold cli.delete_model. cbn [negb]. by rewrite bool_decide_eq_true_2.
  - intros ac fs' Hac Hrun. rewrite Hgo by done. by apply try_except_VF_Ok.
  - intros ac Hac Hwf Hnone. rewrite Hgo by done.
    rewrite (try_except_VF_caught _ _ fs _ fs (delete_model_absent cm fs M Hwf Hnone));
      [done | by left].
  - intros ac e fs' Hac Hrun He. rewrite Hgo by done.
    by rewrite (try_except_VF_caught _ _ fs e fs' Hrun He).
  - intros ac Hac Hbad. rewrite Hgo by done.
    destruct (load_config_unreadable cm fs Hbad) as (e & Hload & He).
    rewrite (try_except_VF_caught _ _ fs e fs); [done| |done].
    unfold delete_model, bind. by rewrite Hload.
Qed.

Lemma cli_delete_model_confirms_witness :
  let self := {| config_path := [u "home"; u "config.json"] |} in
  let fs : filesystem := {[ [u "home"; u "config.json"] := Content (JObj shared_document) ]} in
  cli.delete_model ascii_lower (u " n ") self (u "shared") false fs = (Ok tt, fs)
  ∧ cli.delete_model ascii_lower (u " Y ") self (u "shared") false fs
    = delete_model self (u "shared") fs
  ∧ cli.delete_model ascii_lower (u "") self (u "absent") true fs
    = (Raise (SystemExit 1), fs)
  ∧ cli.delete_model ascii_lower (u "") home_store (u "m1") true
      (files_of (JObj surrogate_document))
    = (Raise (SystemExit 1), <[config_path home_store := NotJSON]> (files_of (JObj surrogate_document)))
  ∧ cli.delete_model ascii_lower (u "y") self (u "shared") false ∅
    = (Raise (SystemExit 1), ∅).
Proof.
  intros self fs.
  destruct (cli_delete_model_confirms ascii_lower (u " n ") self (u "shared") fs)
    as (H1 & _ & _).
  destruct (cli_delete_model_confirms ascii_lower (u " Y ") self (u "shared") fs)
    as (_ & H2 & _).
  destruct (cli_delete_model_confirms ascii_lower (u "") self (u "absent") fs)
    as (_ & _ & H3 & _).
  destruct (cli_delete_model_confirms ascii_lower (u "") home_store (u "m1")
              (files_of (JObj surrogate_document)))
    as (_ & _ & _ & H4 & _).
  destruct (cli_delete_model_confirms ascii_lower (u "y") self (u "shared") ∅)
    as (_ & _ & _ & _ & H5).
  split; [|split; [|split; [|split]]].
  - apply H1. vm_compute. discriminate.
  - apply H2; [right; reflexivity | reflexivity].
  - apply H3; [left; reflexivity | exists shared_document; split; reflexivity |].
    intros p. unfold stored_model.
    change (fs !! config_path self) with (Some (Content (JObj shared_document))).
    cbn [shared_document dict_lookup]. rewrite decide_True by reflexivity.
    unfold shared_providers. cbn [dict_lookup].
    repeat (case_decide; [reflexivity|]). reflexivity.
  - apply (H4 true UnicodeEncodeError); [left; reflexivity | reflexivity | left; reflexivity].
  - apply H5; [right; reflexivity | left; reflexivity].
Defined.

(** X26: the command [delete provider]. Without [-y], an answer that is not
    "y" once stripped and lowered cancels: nothing is read or written. With
    [-y], or with the answer "y", the command does what
    [ConfigManager.delete_provider] does when that succeeds; when that raises
    [ValueError], one of its subclasses ([JSONDecodeError],
    [UnicodeDecodeError], [UnicodeEncodeError]) or [FileNotFoundError], the
    command exits with status 1 and the files are as the method left them.
    So for a provider the document does not have, and on a file that is
    missing or cannot be read, it exits with status 1 and changes no file. *)
Theorem cli_delete_provider_confirms (lower : list N → list N) answer cm P fs :
  (lower (strip answer) ≠ u "y" →
   cli.delete_provider lower answer cm P false fs = (Ok tt, fs))
  ∧ (∀ auto_confirm fs',
       auto_confirm = true ∨ lower (strip answer) = u "y" →
       delete_provider cm P fs = (Ok tt, fs') →
       cli.delete_provider lower answer cm P auto_confirm fs = (Ok tt, fs'))
  ∧ (∀ auto_confirm cfg provs,
       auto_confirm = true ∨ lower (strip answer) = u "y" →
       fs !! config_path cm = Some (Content (JObj cfg)) →
       py_get (JObj cfg) (u "provider") (JObj []) = Ok (JObj provs) →
       dict_lookup P provs = None →
       cli.delete_provider lower answer cm P auto_confirm fs = (Raise (SystemExit 1), fs))
  ∧ (∀ auto_confirm e fs',
       auto_confirm = true ∨ lower (strip answer) = u "y" →
       delete_provider cm P fs = (Raise e, fs') →
       is_ValueError e = true ∨ e = FileNotFoundError →
       cli.delete_provider lower answer cm P auto_confirm fs = (Raise (SystemExit 1), fs'))
  ∧ (∀ auto_confirm,
       auto_confirm = true ∨ lower (strip answer) = u "y" →
       fs !! config_path cm = None
       ∨ fs !! config_path cm = Some NotJSON
       ∨ fs !! config_path cm = Some NotUTF8 →
       cli.delete_provider lower answer cm P auto_confirm fs = (Raise (SystemExit 1), fs)).
Proof.
  assert (∀ auto_confirm,
            auto_confirm = true ∨ lower (strip answer) = u "y" →
            cli.delete_provider lower answer cm P auto_confirm fs
            = try_except_ValueError_FileNotFoundError (delete_provider cm P)
                (raise (SystemExit 1)) fs) as Hgo.
  { intros ac Hac. unfold cli.delete_provider. destruct ac; [done|]. cbn [negb].
    destruct Hac as [?|Hy]; [done|]. by rewrite bool_decide_eq_false_2 by (by intros ?). }
  split; [|split; [|split; [|split]]].
  - intros Hn. unfold cli.delete_provider. cbn [negb]. by rewrite bool_decide_eq_true_2.
  - intros ac fs' Hac Hrun. rewrite Hgo by done. by apply try_except_VF_Ok.
  - intros ac cfg provs Hac Hfs Hprov HP. rewrite Hgo by done.
    rewrite (try_except_VF_caught _ _ fs
               (ValueError (u "Provider '" ++ P ++ u "' not found")) fs); [done| |by left].
    unfold delete_provider, bind, load_config, lift. rewrite Hfs, Hprov.
    cbn [py_contains].
    assert (dict_mem P provs = false) as -> by by apply dict_mem_false.
    done.
  - intros ac e fs' Hac Hrun He. rewrite Hgo by done.
    by rewrite (try_except_VF_caught _ _ fs e fs' Hrun He).
  - intros ac Hac Hbad. rewrite Hgo by done.
    destruct (load_config_unreadable cm fs Hbad) as (e & Hload & He).
    rewrite (try_except_VF_caught _ _ fs e fs); [done| |done].
    unfold delete_provider, bind. by rewrite Hload.
Qed.

Lemma cli_delete_provider_confirms_witness :
  let self := {| config_path := [u "home"; u "config.json"] |} in
  let fs : filesystem := {[ [u "home"; u "config.json"] := Content (JObj shared_document) ]} in
  let bad : filesystem := {[ [u "home"; u "config.json"] := NotJSON ]} in
  cli.delete_provider ascii_lower (u "yes") self (u "alpha") false fs = (Ok tt, fs)
  ∧ cli.delete_provider ascii_lower (u "y") self (u "alpha") false fs
    = delete_provider self (u "alpha") fs
  ∧ cli.delete_provider ascii_lower (u "") self (u "delta") true fs
    = (Raise (SystemExit 1), fs)
  ∧ cli.delete_provider ascii_lower (u "") self (u "alpha") true bad
    = (Raise (SystemExit 1), bad).
Proof.
  intros self fs bad.
  destruct (cli_delete_provider_confirms ascii_lower (u "yes") self (u "alpha") fs)
    as (H1 & _ & _).
  destruct (cli_delete_provider_confirms ascii_lower (u "y") self (u "alpha") fs)
    as (_ & H2 & _).
  destruct (cli_delete_provider_confirms ascii_lower (u "") self (u "delta") fs)
    as (_ & _ & H3 & _).
  destruct (cli_delete_provider_confirms ascii_lower (u "") self (u "alpha") bad)
    as (_ & _ & _ & _ & H4).
  split; [|split; [|split]].
  - apply H1. vm_compute. discriminate.
  - apply H2; [right; reflexivity | reflexivity].
  - apply (H3 true shared_document shared_providers); try reflexivity. by left.
  - apply H4; [left; reflexivity | right; left; reflexivity].
Defined.


(** X27: the command [add provider] on a document whose provider section is
    absent or an object, when every string of the document and of the
    arguments can be encoded, stores under the id a record with the package,
    the name, the base URL under "options" and an empty model map, replacing
    any record (and so any model) the id had; every other provider stores
    what it stored. When the file is missing the command exits with status 1
    and creates nothing; the errors of a file that cannot be read are not
    handled and pass through. *)
Theorem cli_add_provider_stores cm fs P npm name url :
  (∀ cfg provs,
     fs !! config_path cm = Some (Content (JObj cfg)) →
     py_get (JObj cfg) (u "provider") (JObj []) = Ok (JObj provs) →
     encodable (JObj cfg) = true →
     forallb str_encodable [P; npm; name; url] = true →
     ∃ fs',
       cli.add_provider cm P npm name url fs = (Ok tt, fs')
       ∧ (∀ k, stored_field fs' cm P k = dict_lookup k (new_provider_record npm name url))
       ∧ (∀ m, stored_model fs' cm P m = None)
       ∧ (∀ p m, p ≠ P → stored_model fs' cm p m = stored_model fs cm p m))
  ∧ (fs !! config_path cm = None →
     cli.add_provider cm P npm name url fs = (Raise (SystemExit 1), fs))
  ∧ (fs !! config_path cm = Some NotJSON →
     cli.add_provider cm P npm name url fs = (Raise JSONDecodeError, fs))
  ∧ (fs !! config_path cm = Some NotUTF8 →
     cli.add_provider cm P npm name url fs = (Raise UnicodeDecodeError, fs)).
Proof.
  split; [|split; [|split]].
  - intros cfg provs Hfs Hprov Hcfg Hargs.
    cbn [forallb] in Hargs.
    apply andb_true_iff in Hargs as [HP Hargs].
    apply andb_true_iff in Hargs as [Hnpm Hargs].
    apply andb_true_iff in Hargs as [Hname Hargs].
    apply andb_true_iff in Hargs as [Hurl _].
    eexists. split.
    { unfold cli.add_provider, try_except_FileNotFoundError.
      rewrite (add_provider_run cm fs cfg provs); [done..|].
      cbn [encodable forallb]. by rewrite Hnpm, Hname, Hurl. }
    split; [|split].
    + intros k. unfold stored_field.
      by rewrite lookup_insert_eq, !dict_lookup_set_eq.
    + intros m. unfold stored_model.
      by rewrite lookup_insert_eq, !dict_lookup_set_eq.
    + intros p m Hp. unfold stored_model.
      rewrite lookup_insert_eq, Hfs, dict_lookup_set_eq, dict_lookup_set_ne by done.
      cbn [py_get] in Hprov.
      destruct (dict_lookup (u "provider") cfg) as [j|].
      * cbn [default from_option id] in Hprov. by injection Hprov as ->.
      * cbn [default from_option id] in Hprov. by injection Hprov as <-.
  - intros Hfs. unfold cli.add_provider, try_except_FileNotFoundError.
    unfold add_provider, bind, load_config. by rewrite Hfs.
  - intros Hfs. unfold cli.add_provider, try_except_FileNotFoundError.
    unfold add_provider, bind, load_config. by rewrite Hfs.
  - intros Hfs. unfold cli.add_provider, try_except_FileNotFoundError.
    unfold add_provider, bind, load_config. by rewrite Hfs.
Qed.

Lemma cli_add_provider_stores_witness :
  let self := {| config_path := [u "home"; u "config.json"] |} in
  let fs : filesystem := {[ [u "home"; u "config.json"] := Content (JObj scenario_document) ]} in
  (∃ fs',
     cli.add_provider self (u "provider1") (u "pkg") (u "P") (u "http://h") fs = (Ok tt, fs')
     ∧ stored_model fs' self (u "provider1") (u "model1") = None)
  ∧ cli.add_provider self (u "provider1") (u "pkg") (u "P") (u "http://h") ∅
    = (Raise (SystemExit 1), ∅).
Proof.
  intros self fs. split.
  - destruct (proj1 (cli_add_provider_stores self fs (u "provider1") (u "pkg") (u "P")
                       (u "http://h")) scenario_document scenario_providers)
      as (fs' & Hrun & _ & Hnone & _); [reflexivity..|].
    exists fs'. split; [exact Hrun | apply Hnone].
  - apply (proj1 (proj2 (cli_add_provider_stores self ∅ (u "provider1") (u "pkg") (u "P")
                           (u "http://h")))). reflexivity.
Defined.

(** X28: the command [add model]. For a provider the document has, whose
    model map is absent or an object, when every string of the document, the
    model id and the name can be encoded, it stores [{"name": model_name}]
    for the model. When [ConfigManager.add_model_to_provider] raises
    [ValueError], one of its subclasses or [FileNotFoundError], the command
    exits with status 1 and the files are as the method left them; so for a
    provider the document does not have, and on a file that is missing or
    cannot be read, it exits with status 1 and changes no file. *)
Theorem cli_add_model_stores cm fs P M model_name :
  (∀ cfg provs pc models,
     fs !! config_path cm = Some (Content (JObj cfg)) →
     dict_lookup (u "provider") cfg = Some (JObj provs) →
     dict_lookup P provs = Some (JObj pc) →
     py_get (JObj pc) (u "models") (JObj []) = Ok (JObj models) →
     encodable (JObj cfg) = true →
     str_encodable M = true →
     str_encodable model_name = true →
     ∃ fs',
       cli.add_model cm P M model_name fs = (Ok tt, fs')
       ∧ stored_model fs' cm P M = Some (JObj [(u "name", JStr model_name)])
       ∧ (∀ m, m ≠ M → stored_model fs' cm P m = dict_lookup m models))
  ∧ (∀ cfg provs,
       fs !! config_path cm = Some (Content (JObj cfg)) →
       py_get (JObj cfg) (u "provider") (JObj []) = Ok (JObj provs) →
       dict_lookup P provs = None →
       cli.add_model cm P M model_name fs = (Raise (SystemExit 1), fs))
  ∧ (∀ e fs',
       add_model_to_provider cm P M (JObj [(u "name", JStr model_name)]) fs = (Raise e, fs') →
       is_ValueError e = true ∨ e = FileNotFoundError →
       cli.add_model cm P M model_name fs = (Raise (SystemExit 1), fs'))
  ∧ (fs !! config_path cm = None
     ∨ fs !! config_path cm = Some NotJSON
     ∨ fs !! config_path cm = Some NotUTF8 →
     cli.add_model cm P M model_name fs = (Raise (SystemExit 1), fs)).
Proof.
  split; [|split; [|split]].
  - intros cfg provs pc models Hfs Hprov HP Hmodels Hcfg HM Hname. eexists. split.
    { unfold cli.add_model. apply try_except_VF_Ok.
      apply (add_model_to_provider_run cm fs cfg provs pc models); [done..|].
      cbn [encodable forallb]. by rewrite Hname. }
    split.
    + by rewrite stored_model_updated, dict_lookup_set_eq.
    + intros m Hm. by rewrite stored_model_updated, dict_lookup_set_ne.
  - intros cfg provs Hfs Hprov HP. unfold cli.add_model.
    rewrite (try_except_VF_caught _ _ fs
               (ValueError (u "Provider '" ++ P ++ u "' not found")) fs); [done| |by left].
    unfold add_model_to_provider, bind, load_config, lift. rewrite Hfs, Hprov.
    cbn [py_contains].
    assert (dict_mem P provs = false) as -> by by apply dict_mem_false.
    done.
  - intros e fs' Hrun He. unfold cli.add_model.
    by rewrite (try_except_VF_caught _ _ fs e fs' Hrun He).
  - intros Hbad. unfold cli.add_model.
    destruct (load_config_unreadable cm fs Hbad) as (e & Hload & He).
    rewrite (try_except_VF_caught _ _ fs e fs); [done| |done].
    unfold add_model_to_provider, bind. by rewrite Hload.
Qed.

Lemma cli_add_model_stores_witness :
  let self := {| config_path := [u "home"; u "config.json"] |} in
  let fs : filesystem := {[ [u "home"; u "config.json"] := Content (JObj bare_document) ]} in
  (∃ fs',
     cli.add_model self (u "bare") (u "m") (u "Model M") fs = (Ok tt, fs')
     ∧ stored_model fs' self (u "bare") (u "m") = Some (JObj [(u "name", JStr (u "Model M"))]))
  ∧ cli.add_model self (u "other") (u "m") (u "Model M") fs = (Raise (SystemExit 1), fs)
  ∧ cli.add_model self (u "bare") (u "m") [56832%N] fs
    = (Raise (SystemExit 1), <[config_path self := NotJSON]> fs).
Proof.
  intros self fs.
  destruct (cli_add_model_stores self fs (u "bare") (u "m") (u "Model M"))
    as (Hok & _).
  destruct (cli_add_model_stores self fs (u "other") (u "m") (u "Model M"))
    as (_ & Hno & _).
  destruct (cli_add_model_stores self fs (u "bare") (u "m") [56832%N])
    as (_ & _ & Hbad & _).
  split; [|split].
  - destruct (Hok bare_document bare_providers bare_provider []) as (fs' & Hrun & Hst & _);
      [reflexivity..|].
    exists fs'. split; [exact Hrun | exact Hst].
  - apply (Hno bare_document bare_providers); reflexivity.
  - apply (Hbad UnicodeEncodeError); [reflexivity | left; reflexivity].
Defined.

(** ** Fetching the models of a provider *)

Lemma lstrip_chars_decompose c s :
  ∃ n, s = replicate n c ++ lstrip_chars [c] s
       ∧ ∀ s', lstrip_chars [c] s ≠ c :: s'.
Proof.
  induction s as [|x s (n & Hs & Hhd)].
  - by exists 0.
  - cbn [lstrip_chars]. destruct (decide (x = c)) as [->|Hne].
    + rewrite bool_decide_eq_true_2 by (by left).
      exists (S n). cbn [replicate app]. by rewrite <-Hs.
    + rewrite bool_decide_eq_false_2 by (by intros ->%list_elem_of_singleton).
      exists 0. split; [done|]. by intros s' [= ? _].
Qed.

Lemma lstrip_chars_replicate c n s :
  lstrip_chars [c] (replicate n c ++ s) = lstrip_chars [c] s.
Proof.
  induction n as [|n IH]; [done|]. cbn [replicate app lstrip_chars].
  by rewrite bool_decide_eq_true_2 by (by left).
Qed.

(** X29: the address of the request is the base URL without its trailing
    slashes, followed by "/v1/models": trailing slashes of the base URL, any
    number of them, do not change it, and the part before "/v1/models" never
    ends in a slash. *)
Theorem models_url_trailing_slashes base_url :
  (∀ n, models_url (base_url ++ replicate n 47%N) = models_url base_url)
  ∧ ∃ stem n,
      models_url base_url = stem ++ u "/v1/models"
      ∧ base_url = stem ++ replicate n 47%N
      ∧ ∀ s, stem ≠ s ++ [47%N].
Proof.
  unfold models_url, rstrip_chars. change (u "/") with [47%N]. split.
  - intros n. by rewrite reverse_app, reverse_replicate, lstrip_chars_replicate.
  - destruct (lstrip_chars_decompose 47%N (reverse base_url)) as (n & Hs & Hhd).
    exists (reverse (lstrip_chars [47%N] (reverse base_url))), n.
    split; [done|]. split.
    + apply (f_equal reverse) in Hs.
      by rewrite reverse_involutive, reverse_app, reverse_replicate in Hs.
    + intros s Hend. apply (f_equal reverse) in Hend.
      rewrite reverse_involutive, reverse_app in Hend. by apply Hhd in Hend.
Qed.

Lemma for_each_fetch entries acc :
  forallb is_object entries = true →
  for_each entries fetch_provider_models_body acc = Ok (acc ++ omap entry_id entries).
Proof.
  revert acc. induction entries as [|e entries IH]; intros acc Hobj.
  - cbn. by rewrite app_nil_r.
  - cbn [forallb] in Hobj. apply andb_true_iff in Hobj as [He Hobj].
    destruct e as [| | | | | |m]; try discriminate.
    cbn [for_each omap list_omap entry_id]. unfold fetch_provider_models_body at 1.
    cbn [py_get rbind].
    destruct (dict_lookup (u "id") m) as [v|]; cbn [default from_option id py_truthy].
    + destruct (py_truthy v); cbn [rbind].
      * rewrite IH by done. by rewrite <-app_assoc.
      * by apply IH.
    + by apply IH.
Qed.

(** X30: what [fetch_provider_models] makes of the response. A failed request
    is passed on; a body without "data" gives the empty list; a body whose
    "data" is a list of objects gives, in order, the "id" of each entry that
    has a true one, so no returned id is an empty string; an entry that is
    not an object, or a body that is not an object, raises
    [AttributeError]. *)
Theorem fetch_provider_models_ids (http_get_json : list N → result json) base_url :
  (∀ e, http_get_json (models_url base_url) = Raise e →
        fetch_provider_models http_get_json base_url = Raise e)
  ∧ (∀ body,
       http_get_json (models_url base_url) = Ok (JObj body) →
       dict_lookup (u "data") body = None →
       fetch_provider_models http_get_json base_url = Ok [])
  ∧ (∀ body entries,
       http_get_json (models_url base_url) = Ok (JObj body) →
       dict_lookup (u "data") body = Some (JArr entries) →
       forallb is_object entries = true →
       fetch_provider_models http_get_json base_url = Ok (omap entry_id entries)
       ∧ Forall (λ v, py_truthy v = true ∧ v ≠ JStr []) (omap entry_id entries))
  ∧ (∀ body before entry after,
       http_get_json (models_url base_url) = Ok (JObj body) →
       dict_lookup (u "data") body = Some (JArr (before ++ entry :: after)) →
       forallb is_object before = true →
       is_object entry = false →
       fetch_provider_models http_get_json base_url = Raise AttributeError)
  ∧ (∀ body,
       http_get_json (models_url base_url) = Ok body →
       is_object body = false →
       fetch_provider_models http_get_json base_url = Raise AttributeError).
Proof.
  unfold fetch_provider_models. repeat split.
  - intros e He. by rewrite He.
  - intros body Hget Hdata. rewrite Hget. cbn [rbind py_get]. by rewrite Hdata.
  - rewrite H. cbn [rbind py_get]. rewrite H0. cbn [default from_option id py_iter rbind].
    by rewrite for_each_fetch.
  - clear. induction entries as [|e entries IH]; [by apply Forall_nil|].
    cbn [omap list_omap].
    destruct (entry_id e) as [v|] eqn:He; [|done].
    apply Forall_cons. split; [|done].
    destruct e as [| | | | | |m]; try discriminate. cbn [entry_id] in He.
    destruct (dict_lookup (u "id") m) as [v'|]; [|discriminate].
    destruct (py_truthy v') eqn:Ht; [|discriminate]. injection He as ->.
    split; [done|]. by intros ->.
  - intros body before entry after Hget Hdata Hbefore Hentry.
    rewrite Hget. cbn [rbind py_get]. rewrite Hdata.
    cbn [default from_option id py_iter rbind].
    clear Hget Hdata. generalize (@nil json). revert Hbefore.
    induction before as [|e before IH]; intros Hbefore acc.
    + cbn [app for_each]. unfold fetch_provider_models_body at 1.
      by destruct entry.
    + cbn [forallb] in Hbefore. apply andb_true_iff in Hbefore as [He Hbefore].
      destruct e as [| | | | | |m]; try discriminate.
      cbn [app for_each]. unfold fetch_provider_models_body at 1. cbn [py_get rbind].
      destruct (py_truthy _); cbn [py_get rbind]; by apply IH.
  - intros body Hget Hbody. rewrite Hget. by destruct body.
Qed.

Lemma fetch_provider_models_ids_witness :
  fetch_provider_models (fixed_response sample_response) (u "http://localhost:1234//")
  = Ok [JStr (u "m1"); JStr (u "m2")].
Proof.
  refine (proj1 (proj1 (proj2 (proj2
            (fetch_provider_models_ids (fixed_response sample_response)
               (u "http://localhost:1234//")))) sample_body sample_entries _ _ _));
    reflexivity.
Defined.
